(** * Phone-QA-Puller: report assembly and DOCX rendering

    A shallow embedding of [report_downloader_app.py]:
    - [_apply_finding_color_to_run], the finding styling function;
    - [generate_docx_from_combined_json], the renderer;
    - [ReportDownloaderApp.fetch_combined_analysis_data], the assembler.

    Python values are modelled by [pyval]; a [str] is a Rocq [string] with
    one [ascii] per code point, so the model covers the code points 0..255.
    Exceptions are modelled by the error type [exc], whose payload is the
    text [str(e)] of the exception.  The database cursor, the python-docx
    text setter and the file system are parameters of the development. *)

From Stdlib Require Import ZArith String Ascii List Bool Lia DecimalString.
Import ListNotations.
Open Scope list_scope.
Open Scope string_scope.

Set Implicit Arguments.
Set Warnings "-register-all".

(** ** Python values *)

Module Py.

Inductive pyval : Type :=
| VNone
| VInt (z : Z)
| VStr (s : string)
| VList (l : list pyval)
| VDict (d : list (string * pyval)).

(** [str(e)] of a raised exception. *)
Definition exn := string.

Inductive exc (A : Type) : Type :=
| Ok (a : A)
| Raise (e : exn).
Arguments Ok {A} a.
Arguments Raise {A} e.

(** [bool(v)]. *)
Definition truthy (v : pyval) : bool :=
  match v with
  | VNone => false
  | VInt z => negb (z =? 0)%Z
  | VStr s => negb (s =? "")
  | VList l => match l with [] => false | _ :: _ => true end
  | VDict d => match d with [] => false | _ :: _ => true end
  end.

(** [type(v).__name__]. *)
Definition type_name (v : pyval) : string :=
  match v with
  | VNone => "NoneType"
  | VInt _ => "int"
  | VStr _ => "str"
  | VList _ => "list"
  | VDict _ => "dict"
  end.

Definition attribute_error (v : pyval) (attr : string) : exn :=
  "'" ++ type_name v ++ "' object has no attribute '" ++ attr ++ "'".

Definition not_iterable (v : pyval) : exn :=
  "'" ++ type_name v ++ "' object is not iterable".

(** Lookup in a dict, kept as an association list in insertion order. *)
Fixpoint dict_get (d : list (string * pyval)) (key : string) : option pyval :=
  match d with
  | [] => None
  | (k, v) :: rest => if k =? key then Some v else dict_get rest key
  end.

(** [obj.get(key, default)]: only a dict has the method. *)
Definition get (obj : pyval) (key : string) (default : pyval) : exc pyval :=
  match obj with
  | VDict d =>
      Ok (match dict_get d key with Some v => v | None => default end)
  | _ => Raise (attribute_error obj "get")
  end.

(** The items a [for] loop over [v] visits. *)
Definition iter (v : pyval) : exc (list pyval) :=
  match v with
  | VList l => Ok l
  | VStr s => Ok (map (fun c => VStr (String c "")) (list_ascii_of_string s))
  | VDict d => Ok (map (fun kv => VStr (fst kv)) d)
  | _ => Raise (not_iterable v)
  end.

(** [str.lower()] on the code points 0..255: A-Z and the Latin-1 capital
    letters (all of C0..DE but the multiplication sign D7) move up by 32. *)
Definition lower_char (c : ascii) : ascii :=
  let n := nat_of_ascii c in
  if (((65 <=? n) && (n <=? 90)) || ((192 <=? n) && (n <=? 214))
      || ((216 <=? n) && (n <=? 222)))%nat
  then ascii_of_nat (n + 32) else c.

Fixpoint lower (s : string) : string :=
  match s with
  | EmptyString => EmptyString
  | String c t => String (lower_char c) (lower t)
  end.

End Py.
Import Py.

(** ** Statements that mutate an object and may raise

    A computation of [M S A] runs on the object of type [S] that the code
    mutates (the document, the cursor's log of queries) and either returns
    a value or raises; the mutations made before the raise are kept. *)

Module Eff.

Definition M (S A : Type) : Type := S -> exc A * S.

Definition ret {S A} (a : A) : M S A := fun s => (Ok a, s).

Definition bind {S A B} (m : M S A) (k : A -> M S B) : M S B :=
  fun s =>
    match m s with
    | (Ok a, s') => k a s'
    | (Raise e, s') => (Raise e, s')
    end.

(** An expression that may raise and touches no object. *)
Definition lift {S A} (x : exc A) : M S A := fun s => (x, s).

(** [for x in l: body x]. *)
Fixpoint for_each {S A} (l : list A) (body : A -> M S unit) : M S unit :=
  match l with
  | [] => ret tt
  | x :: rest => bind (body x) (fun _ => for_each rest body)
  end.

(** [for x in l: b = body x b], for a loop that rebuilds a local value. *)
Fixpoint fold_each {S A B} (l : list A) (body : A -> B -> M S B) (b : B)
  : M S B :=
  match l with
  | [] => ret b
  | x :: rest => bind (body x b) (fun b' => fold_each rest body b')
  end.

(** [[f x for x in l]]. *)
Fixpoint map_each {S A B} (f : A -> M S B) (l : list A) : M S (list B) :=
  match l with
  | [] => ret []
  | x :: rest =>
      bind (f x) (fun y => bind (map_each f rest) (fun ys => ret (y :: ys)))
  end.

(** [l.append(x)] on the mutated list. *)
Definition push {A} (x : A) : M (list A) unit :=
  fun l => (Ok tt, (l ++ [x])%list).

End Eff.
Import Eff.

Declare Scope eff_scope.
Delimit Scope eff_scope with eff.
Notation "x <- m ;; k" := (bind m (fun x => k))
  (at level 61, m at next level, right associativity) : eff_scope.
Notation "m ;;; k" := (bind m (fun _ => k))
  (at level 61, right associativity) : eff_scope.

(** ** The document model (python-docx) *)

Module Docx.

(** [docx.shared.RGBColor(r, g, b)]. *)
Record RGBColor : Type := RGB { red : Z; green : Z; blue : Z }.

(** A run: its text, and the two character properties the program sets.
    [None] is the property left to the style, as in python-docx. *)
Record run : Type := Run
  { run_text : string;
    run_bold : option bool;
    run_color : option RGBColor }.

Definition plain_run (text : string) : run :=
  {| run_text := text; run_bold := None; run_color := None |}.

Definition set_bold (b : bool) (r : run) : run :=
  {| run_text := run_text r; run_bold := Some b; run_color := run_color r |}.

Definition set_color (c : RGBColor) (r : run) : run :=
  {| run_text := run_text r; run_bold := run_bold r; run_color := Some c |}.

(** A block of the document body.  A heading of level [n] is a paragraph
    of style "Heading n"; a table cell is kept as the single run its text
    setter leaves in it. *)
Inductive block : Type :=
| Paragraph (style : option string) (runs : list run)
| Table (style : option string) (rows : list (list run)).

Definition document := list block.

End Docx.
Import Docx.

(** ** Finding styling *)

Definition dark_green : RGBColor := RGB 0x00 0x64 0x00%Z.
Definition dark_red : RGBColor := RGB 0xC0%Z 0x00 0x00.
Definition dark_blue : RGBColor := RGB 0x00 0x00 0x8B%Z.

(** [_apply_finding_color_to_run(run, finding_text)]: the run after the
    call, or the exception that [finding_text.lower()] raises on a truthy
    value that is not a str. *)
Definition _apply_finding_color_to_run (r : run) (finding_text : pyval)
  : exc run :=
  if negb (truthy finding_text) then Ok r
  else
    match finding_text with
    | VStr s =>
        let r1 :=
          if lower s =? "positive" then set_color dark_green r
          else if lower s =? "negative" then set_color dark_red r
          else if lower s =? "neutral" then set_color dark_blue r
          else r in
        Ok (set_bold true r1)
    | _ => Raise (attribute_error finding_text "lower")
    end.

(** ** The world around the two operations *)

Definition newline : string := String (ascii_of_nat 10) "".

(** A query sent to the database: the SQL text and its parameter. *)
Definition query : Type := (string * pyval)%type.

(** What the program asks, shows and writes: the queries executed on the
    connection, the [messagebox.showerror] dialogs (title and message) and
    the documents saved, oldest first. *)
Record world : Type := World
  { queries : list query;
    dialogs : list (string * string);
    files : list (string * document) }.

Definition showerror (title message : string) (w : world) : world :=
  {| queries := queries w;
     dialogs := (dialogs w ++ [(title, message)])%list;
     files := files w |}.

Definition written (path : string) (doc : document) (w : world) : world :=
  {| queries := queries w;
     dialogs := dialogs w;
     files := (files w ++ [(path, doc)])%list |}.

Definition asked (log : list query) (w : world) : world :=
  {| queries := log; dialogs := dialogs w; files := files w |}.

(** ** The renderer *)

Section Renderer.

(** [repr] of a list or dict, which an f-string prints for one. *)
Variable repr : pyval -> string.

(** python-docx's run text setter: the text stored for a text argument, or
    the exception it raises. *)
Variable docx_text : pyval -> exc string.

(** The exception [doc.save(path)] raises, if it does. *)
Variable save_error : string -> document -> option exn.

(** [str(v)], as an f-string field prints [v]. *)
Definition str (v : pyval) : string :=
  match v with
  | VNone => "None"
  | VInt z => NilZero.string_of_int (Z.to_int z)
  | VStr s => s
  | _ => repr v
  end.

(** The run that [paragraph.add_run(text)] adds, if any: python-docx sets
    the text of the new run only for a truthy [text], and
    [Document.add_paragraph] adds a run only for a truthy [text]. *)
Definition run_of (text : pyval) : exc (option run) :=
  if truthy text then
    match docx_text text with
    | Ok s => Ok (Some (plain_run s))
    | Raise e => Raise e
    end
  else Ok None.

Definition runs_of (r : option run) : list run :=
  match r with Some x => [x] | None => [] end.

(** [Document.add_paragraph(text, style)]. *)
Definition add_paragraph (text : pyval) (style : option string)
  : M document unit :=
  (r <- lift (run_of text) ;; push (Paragraph style (runs_of r)))%eff.

Definition heading_style (level : nat) : string :=
  match level with
  | O => "Title"
  | _ => "Heading " ++ NilZero.string_of_uint (Nat.to_uint level)
  end.

(** [Document.add_heading(text, level)]. *)
Definition add_heading (text : pyval) (level : nat) : M document unit :=
  if (level <=? 9)%nat then add_paragraph text (Some (heading_style level))
  else lift (Raise ("level must be in range 0-9, got "
                      ++ NilZero.string_of_uint (Nat.to_uint level))).

(** [doc.add_paragraph().add_run(text).bold = True]: [add_run] returns a
    run whether or not it set its text. *)
Definition add_bold_paragraph (text : pyval) : M document unit :=
  (r <- lift (run_of text) ;;
   push (Paragraph None
           [set_bold true
              (match r with Some x => x | None => plain_run "" end)]))%eff.

(** [cell.text = text]: the cell is left with one run. *)
Definition cell_text (text : pyval) : exc run :=
  match docx_text text with
  | Ok s => Ok (plain_run s)
  | Raise e => Raise e
  end.

(** The rows of the table under construction are the mutated object. *)
Definition table_rows : Type := list (list run).

(** Lines 72-77: the header row, its three texts set and then bolded. *)
Definition header_row : M table_rows unit :=
  (c0 <- lift (cell_text (VStr "Quality Point")) ;;
   c1 <- lift (cell_text (VStr "Trend Observation")) ;;
   c2 <- lift (cell_text (VStr "Coaching Recommendation")) ;;
   push (map (set_bold true) [c0; c1; c2]))%eff.

(** Lines 79-82: one data row. *)
Definition detail_row (item : pyval) : M table_rows unit :=
  (v0 <- lift (get item "quality_point" (VStr "N/A")) ;;
   c0 <- lift (cell_text v0) ;;
   v1 <- lift (get item "trend_observation" (VStr "N/A")) ;;
   c1 <- lift (cell_text v1) ;;
   v2 <- lift (get item "coaching_recommendation_for_point" (VStr "N/A")) ;;
   c2 <- lift (cell_text v2) ;;
   push [c0; c1; c2])%eff.

(** Lines 70-82.  The table joins the document when it is complete: a
    fault before that leaves a document that is never saved. *)
Definition add_detail_table (detailed_qpa : pyval) : M document unit :=
  fun doc =>
    match (header_row ;;;
           items <- lift (iter detailed_qpa) ;;
           for_each items detail_row)%eff [] with
    | (Ok _, rows) => push (Table (Some "Table Grid") rows) doc
    | (Raise e, _) => (Raise e, doc)
    end.

Definition when {S} (c : bool) (body : M S unit) : M S unit :=
  if c then body else ret tt.

(** Lines 62-66: one coaching focus. *)
Definition render_focus (area_item : pyval) : M document unit :=
  (area <- lift (get area_item "area" (VStr "Focus Area")) ;;
   add_heading area 3 ;;;
   recommendations <- lift (get area_item "specific_actions" (VList [])) ;;
   when (truthy recommendations)
     (add_bold_paragraph (VStr "Actionable Recommendations:") ;;;
      rec_items <- lift (iter recommendations) ;;
      for_each rec_items (fun rec_item =>
        add_paragraph rec_item (Some "ListNumber"))))%eff.

(** Lines 40-82: the body of the [try], run on the empty body of the new
    [Document()]. *)
Definition build_document (json_data : pyval) : M document unit :=
  (header <- lift (get json_data "report_header" (VDict [])) ;;
   agent_display_name <- lift (get header "agent_name" (VStr "N/A")) ;;
   add_heading
     (VStr ("Performance Trend Analysis & Coaching Report: "
              ++ str agent_display_name)) 1 ;;;
   number <- lift (get header "number_of_reports_successfully_analyzed"
                     (VStr "N/A")) ;;
   note <- lift (get header "analysis_period_note" (VStr "N/A")) ;;
   add_paragraph
     (VStr ("Analysis based on " ++ str number ++ " calls. Period: "
              ++ str note)) None ;;;
   qualitative_summary <-
     lift (get json_data "qualitative_summary_and_coaching_plan" (VDict [])) ;;
   strengths <-
     lift (get qualitative_summary "overall_strengths_observed" (VList [])) ;;
   when (truthy strengths)
     (add_heading (VStr "Key Strengths & Consistent Positive Performance") 2 ;;;
      items <- lift (iter strengths) ;;
      for_each items (fun item => add_paragraph item (Some "ListBullet"))) ;;;
   dev_areas <-
     lift (get qualitative_summary "overall_areas_for_development" (VList [])) ;;
   when (truthy dev_areas)
     (add_heading (VStr "Areas for Development & Recurring Challenges") 2 ;;;
      items <- lift (iter dev_areas) ;;
      for_each items (fun item => add_paragraph item (Some "ListBullet"))) ;;;
   coaching_items <-
     lift (get qualitative_summary "consolidated_coaching_focus" (VList [])) ;;
   when (truthy coaching_items)
     (add_heading (VStr "Consolidated Coaching & Development Plan") 2 ;;;
      area_items <- lift (iter coaching_items) ;;
      for_each area_items render_focus) ;;;
   detailed_qpa <-
     lift (get json_data "detailed_quality_point_analysis" (VList [])) ;;
   when (truthy detailed_qpa)
     (add_heading (VStr "Detailed Quality Point Analysis") 2 ;;;
      add_detail_table detailed_qpa))%eff.

(** [doc.save(docx_filepath)]. *)
Definition save (docx_filepath : string) : M document unit :=
  fun doc =>
    match save_error docx_filepath doc with
    | None => (Ok tt, doc)
    | Some e => (Raise e, doc)
    end.

(** [generate_docx_from_combined_json(json_data, docx_filepath)]: the value
    returned and the world after the call.  [files] records the documents
    whose [save] completed. *)
Definition generate_docx_from_combined_json
    (json_data : pyval) (docx_filepath : string) (w : world) : bool * world :=
  match (build_document json_data ;;; save docx_filepath)%eff [] with
  | (Ok _, doc) => (true, written docx_filepath doc w)
  | (Raise e, _) =>
      (false,
       showerror "DOCX Generation Error"
         ("Failed to generate the .docx file:" ++ newline ++ e) w)
  end.

End Renderer.

(** ** The assembler *)

(** A [pyodbc.Row]: its columns by name. *)
Definition row : Type := list (string * pyval).

(** [row.name]. *)
Definition attr (r : row) (name : string) : exc pyval :=
  match dict_get r name with
  | Some v => Ok v
  | None => Raise ("'pyodbc.Row' object has no attribute '" ++ name ++ "'")
  end.

Definition main_sql : string :=
  "SELECT * FROM CombinedAnalyses c JOIN Agents a ON c.AgentID = a.AgentID WHERE c.CombinedAnalysisID = ?;".

Definition strengths_sql : string :=
  "SELECT StrengthText FROM CombinedAnalysisStrengths WHERE CombinedAnalysisID = ?".

Definition development_sql : string :=
  "SELECT DevelopmentAreaText FROM CombinedAnalysisDevelopmentAreas WHERE CombinedAnalysisID = ?".

Definition focus_sql : string :=
  "SELECT CoachingFocusID, AreaText FROM CombinedAnalysisCoachingFocus WHERE CombinedAnalysisID = ?".

Definition actions_sql : string :=
  "SELECT ActionText FROM CombinedAnalysisCoachingActions WHERE CoachingFocusID = ?".

Definition detail_sql : string :=
  "
                SELECT qp.QualityPointText, d.TrendObservation
                FROM CombinedAnalysisQualityPointDetails d
                JOIN QualityPointsMaster qp ON d.QualityPointID = qp.QualityPointID
                WHERE d.CombinedAnalysisID = ?;
            ".

(** [d[key]] rebuilt by [f], for the in-place changes of the report. *)
Fixpoint dict_adjust (f : pyval -> pyval) (key : string)
    (d : list (string * pyval)) : list (string * pyval) :=
  match d with
  | [] => []
  | (k, v) :: rest =>
      if k =? key then (k, f v) :: rest
      else (k, v) :: dict_adjust f key rest
  end.

Definition at_key (key : string) (f : pyval -> pyval) (v : pyval) : pyval :=
  match v with
  | VDict d => VDict (dict_adjust f key d)
  | _ => v
  end.

Definition list_append (x : pyval) (v : pyval) : pyval :=
  match v with
  | VList l => VList (l ++ [x])%list
  | _ => v
  end.

(** Lines 222-234: the dict literal, its two coaching lists still empty. *)
Definition new_report (agent_name number note : pyval)
    (strengths dev_areas : list pyval) : pyval :=
  VDict
    [("report_header",
      VDict [("agent_name", agent_name);
             ("number_of_reports_successfully_analyzed", number);
             ("analysis_period_note", note)]);
     ("qualitative_summary_and_coaching_plan",
      VDict [("overall_strengths_observed", VList strengths);
             ("overall_areas_for_development", VList dev_areas);
             ("consolidated_coaching_focus", VList [])]);
     ("detailed_quality_point_analysis", VList [])].

(** Lines 240-243:
    [report["qualitative_summary_and_coaching_plan"]["consolidated_coaching_focus"].append(...)]. *)
Definition append_focus (area : pyval) (actions : list pyval) (report : pyval)
  : pyval :=
  at_key "qualitative_summary_and_coaching_plan"
    (at_key "consolidated_coaching_focus"
       (list_append
          (VDict [("area", area); ("specific_actions", VList actions)])))
    report.

(** Lines 253-257: [report["detailed_quality_point_analysis"].append(...)]. *)
Definition append_detail (quality_point trend : pyval) (report : pyval)
  : pyval :=
  at_key "detailed_quality_point_analysis"
    (list_append
       (VDict [("quality_point", quality_point);
               ("trend_observation", trend);
               ("coaching_recommendation_for_point", VStr "")]))
    report.

Section Assembler.

(** The exception [self.conn.cursor()] raises, if it does. *)
Variable cursor_error : option exn.

(** [cursor.execute(sql, param)]: the rows of the result, or the exception
    raised. *)
Variable execute : string -> pyval -> exc (list row).

Definition cursor : M (list query) unit :=
  lift (match cursor_error with Some e => Raise e | None => Ok tt end).

Definition cursor_execute (sql : string) (param : pyval)
  : M (list query) (list row) :=
  fun log => (execute sql param, (log ++ [(sql, param)])%list).

(** [.fetchone()]: the first row, [None] when there is none. *)
Definition fetchone (rows : list row) : option row := hd_error rows.

(** [[row.name for row in cursor.execute(sql, param).fetchall()]]. *)
Definition column (sql : string) (param : pyval) (name : string)
  : M (list query) (list pyval) :=
  (rows <- cursor_execute sql param ;;
   map_each (fun r => lift (attr r name)) rows)%eff.

(** Lines 238-243: one coaching focus and its actions. *)
Definition fetch_focus (focus_row : row) (report : pyval)
  : M (list query) pyval :=
  (focus_id <- lift (attr focus_row "CoachingFocusID") ;;
   actions <- column actions_sql focus_id "ActionText" ;;
   area <- lift (attr focus_row "AreaText") ;;
   ret (append_focus area actions report))%eff.

(** Lines 252-257: one quality-point detail. *)
Definition fetch_detail (detail_row : row) (report : pyval)
  : M (list query) pyval :=
  (quality_point <- lift (attr detail_row "QualityPointText") ;;
   trend <- lift (attr detail_row "TrendObservation") ;;
   ret (append_detail quality_point trend report))%eff.

(** Lines 215-259: the body of the [try].  [not main_row] holds of [None]
    and of a row without columns. *)
Definition assemble (analysis_id : Z) : M (list query) (option pyval) :=
  (cursor ;;;
   main_rows <- cursor_execute main_sql (VInt analysis_id) ;;
   match fetchone main_rows with
   | None => ret None
   | Some [] => ret None
   | Some main_row =>
       agent_name <- lift (attr main_row "AgentName") ;;
       number <- lift (attr main_row "NumberOfReportsSuccessfullyAnalyzed") ;;
       note <- lift (attr main_row "AnalysisPeriodNote") ;;
       strengths <-
         column strengths_sql (VInt analysis_id) "StrengthText" ;;
       dev_areas <-
         column development_sql (VInt analysis_id) "DevelopmentAreaText" ;;
       focus_rows <- cursor_execute focus_sql (VInt analysis_id) ;;
       report <-
         fold_each focus_rows fetch_focus
           (new_report agent_name number note strengths dev_areas) ;;
       detail_rows <- cursor_execute detail_sql (VInt analysis_id) ;;
       report <- fold_each detail_rows fetch_detail report ;;
       ret (Some report)
   end)%eff.

(** [fetch_combined_analysis_data(self, analysis_id)]: the value returned
    ([None] is Python's [None]) and the world after the call. *)
Definition fetch_combined_analysis_data (analysis_id : Z) (w : world)
  : option pyval * world :=
  match assemble analysis_id (queries w) with
  | (Ok report, log) => (report, asked log w)
  | (Raise e, log) =>
      (None,
       showerror "Database Query Error"
         ("An error occurred while fetching report details:" ++ newline ++ e)
         (asked log w))
  end.

End Assembler.

(** ** Reports the assembler returns *)

Module Assembled.

(** The dict the assembler holds once [foci] and [details] are appended. *)
Definition full_report (agent_name number note : pyval)
    (strengths dev_areas foci details : list pyval) : pyval :=
  VDict
    [("report_header",
      VDict [("agent_name", agent_name);
             ("number_of_reports_successfully_analyzed", number);
             ("analysis_period_note", note)]);
     ("qualitative_summary_and_coaching_plan",
      VDict [("overall_strengths_observed", VList strengths);
             ("overall_areas_for_development", VList dev_areas);
             ("consolidated_coaching_focus", VList foci)]);
     ("detailed_quality_point_analysis", VList details)].

Definition focus_value (area : pyval) (actions : list pyval) : pyval :=
  VDict [("area", area); ("specific_actions", VList actions)].

Definition detail_value (quality_point trend : pyval) : pyval :=
  VDict [("quality_point", quality_point);
         ("trend_observation", trend);
         ("coaching_recommendation_for_point", VStr "")].

Definition is_focus (v : pyval) : Prop :=
  exists area actions, v = focus_value area actions.

Definition is_detail (v : pyval) : Prop :=
  exists quality_point trend, v = detail_value quality_point trend.

Definition has_column (name : string) (r : row) : bool :=
  match dict_get r name with
  | Some _ => true
  | None => false
  end.

Section Answers.

Variable execute : string -> pyval -> exc (list row).

(** The query is answered, by rows that have the columns [names]. *)
Definition answers (sql : string) (param : pyval) (names : list string)
  : Prop :=
  exists rows,
    execute sql param = Ok rows
    /\ Forall (fun r => forallb (fun n => has_column n r) names = true) rows.

(** Every fetch below the root row is answered. *)
Definition children_answer (analysis_id : Z) : Prop :=
  answers strengths_sql (VInt analysis_id) ["StrengthText"]
  /\ answers development_sql (VInt analysis_id) ["DevelopmentAreaText"]
  /\ (exists focus_rows,
        execute focus_sql (VInt analysis_id) = Ok focus_rows
        /\ Forall (fun r =>
                     has_column "AreaText" r = true
                     /\ exists focus_id,
                          attr r "CoachingFocusID" = Ok focus_id
                          /\ answers actions_sql focus_id ["ActionText"])
             focus_rows)
  /\ answers detail_sql (VInt analysis_id)
       ["QualityPointText"; "TrendObservation"].

(** A computation on the cursor only adds queries to the log, and a query
    of it that raises is its last one and ends it with that exception. *)
Definition traced {A} (m : M (list query) A) : Prop :=
  forall log,
    exists new,
      snd (m log) = (log ++ new)%list
      /\ forall sql param e,
          In (sql, param) new -> execute sql param = Raise e ->
          fst (m log) = Raise e
          /\ exists before, new = (before ++ [(sql, param)])%list.

End Answers.

End Assembled.

(** ** Reports the renderer is given

    The shape of the dictionaries the renderer reads, every key of which
    may be missing: [None] stands for a key that the dict does not have.
    [encode] writes a shaped report as the Python value. *)

Module Shape.

Record focus : Type := Focus
  { area : option string;
    specific_actions : option (list string) }.

Record detail : Type := Detail
  { quality_point : option string;
    trend_observation : option string;
    coaching_recommendation_for_point : option string }.

Record summary : Type := Summary
  { overall_strengths_observed : option (list string);
    overall_areas_for_development : option (list string);
    consolidated_coaching_focus : option (list focus) }.

(** The header is any dict: its three fields are only printed. *)
Record report : Type := Report
  { report_header : option (list (string * pyval));
    qualitative_summary_and_coaching_plan : option summary;
    detailed_quality_point_analysis : option (list detail) }.

Definition entry (key : string) (v : option pyval) : list (string * pyval) :=
  match v with
  | Some x => [(key, x)]
  | None => []
  end.

Definition texts (l : list string) : pyval := VList (map VStr l).

Definition encode_focus (f : focus) : pyval :=
  VDict (entry "area" (option_map VStr (area f))
         ++ entry "specific_actions" (option_map texts (specific_actions f)))%list.

Definition encode_detail (d : detail) : pyval :=
  VDict (entry "quality_point" (option_map VStr (quality_point d))
         ++ entry "trend_observation" (option_map VStr (trend_observation d))
         ++ entry "coaching_recommendation_for_point"
              (option_map VStr (coaching_recommendation_for_point d)))%list.

Definition encode_summary (s : summary) : pyval :=
  VDict (entry "overall_strengths_observed"
           (option_map texts (overall_strengths_observed s))
         ++ entry "overall_areas_for_development"
              (option_map texts (overall_areas_for_development s))
         ++ entry "consolidated_coaching_focus"
              (option_map (fun l => VList (map encode_focus l))
                 (consolidated_coaching_focus s)))%list.

Definition encode (r : report) : pyval :=
  VDict (entry "report_header" (option_map VDict (report_header r))
         ++ entry "qualitative_summary_and_coaching_plan"
              (option_map encode_summary
                 (qualitative_summary_and_coaching_plan r))
         ++ entry "detailed_quality_point_analysis"
              (option_map (fun l => VList (map encode_detail l))
                 (detailed_quality_point_analysis r)))%list.

(** The collections of a report, a missing one read as empty. *)
Definition collection {A} (o : option (list A)) : list A :=
  match o with
  | Some l => l
  | None => []
  end.

Definition strengths (r : report) : list string :=
  match qualitative_summary_and_coaching_plan r with
  | Some s => collection (overall_strengths_observed s)
  | None => []
  end.

Definition dev_areas (r : report) : list string :=
  match qualitative_summary_and_coaching_plan r with
  | Some s => collection (overall_areas_for_development s)
  | None => []
  end.

Definition coaching_foci (r : report) : list focus :=
  match qualitative_summary_and_coaching_plan r with
  | Some s => collection (consolidated_coaching_focus s)
  | None => []
  end.

Definition details (r : report) : list detail :=
  collection (detailed_quality_point_analysis r).

Definition header (r : report) : list (string * pyval) :=
  match report_header r with
  | Some h => h
  | None => []
  end.

Definition actions (f : focus) : list string :=
  collection (specific_actions f).

(** What [json_data.get("qualitative_summary_and_coaching_plan", {})] is
    for an encoded report. *)
Definition summary_value (r : report) : pyval :=
  match qualitative_summary_and_coaching_plan r with
  | Some s => encode_summary s
  | None => VDict []
  end.

(** The report with every missing top-level section put in, empty. *)
Definition fill (r : report) : report :=
  {| report_header := Some (header r);
     qualitative_summary_and_coaching_plan :=
       Some (match qualitative_summary_and_coaching_plan r with
             | Some s => s
             | None => Summary (Some []) (Some []) (Some [])
             end);
     detailed_quality_point_analysis := Some (details r) |}.

End Shape.

(** ** Reading a rendered document *)

Module Read.

Definition paragraph_text (runs : list run) : string :=
  String.concat "" (map run_text runs).

(** The texts of the paragraphs of one style, in document order. *)
Fixpoint styled (style : option string) (doc : document) : list string :=
  match doc with
  | [] => []
  | Paragraph st runs :: rest =>
      if match st, style with
         | Some a, Some b => a =? b
         | None, None => true
         | _, _ => false
         end
      then paragraph_text runs :: styled style rest
      else styled style rest
  | Table _ _ :: rest => styled style rest
  end.

Definition headings (level : nat) (doc : document) : list string :=
  styled (Some ("Heading " ++ NilZero.string_of_uint (Nat.to_uint level))) doc.

(** The tables of the document, each as its rows of cell texts. *)
Fixpoint tables (doc : document) : list (list (list string)) :=
  match doc with
  | [] => []
  | Table _ rows :: rest => map (map run_text) rows :: tables rest
  | Paragraph _ _ :: rest => tables rest
  end.

(** The blocks up to the next level-3 heading. *)
Fixpoint until_heading3 (doc : document) : document :=
  match doc with
  | [] => []
  | Paragraph (Some st) runs :: rest =>
      if st =? "Heading 3" then []
      else Paragraph (Some st) runs :: until_heading3 rest
  | b :: rest => b :: until_heading3 rest
  end.

(** The coaching plan read back: every level-3 heading with the numbered
    paragraphs that follow it up to the next one. *)
Fixpoint focus_sections (doc : document) : list (string * list string) :=
  match doc with
  | [] => []
  | Paragraph (Some st) runs :: rest =>
      if st =? "Heading 3" then
        (paragraph_text runs, styled (Some "ListNumber") (until_heading3 rest))
          :: focus_sections rest
      else focus_sections rest
  | _ :: rest => focus_sections rest
  end.

(** The texts of the third column below the header row of each table. *)
Definition recommendation_cells (doc : document) : list string :=
  flat_map (fun t => map (fun cells => nth 2 cells "") (tl t)) (tables doc).

Definition not_heading3 (b : block) : Prop :=
  match b with
  | Paragraph (Some st) _ => (st =? "Heading 3") = false
  | _ => True
  end.

Definition is_paragraph (b : block) : Prop :=
  match b with
  | Paragraph _ _ => True
  | Table _ _ => False
  end.

End Read.

(** ** A concrete environment

    A text setter that takes a str and nothing else, a file system on which
    every save completes, and the database of the scenario of the
    specification: analysis 42 of agent J. Smith. *)

Module Scenario.

Definition repr (v : pyval) : string := "".

Definition docx_text (v : pyval) : exc string :=
  match v with
  | VStr s => Ok s
  | _ => Raise ("'" ++ type_name v ++ "' object is not iterable")
  end.

Definition save_error (path : string) (doc : document) : option exn := None.

Definition execute (sql : string) (param : pyval) : exc (list row) :=
  match param with
  | VInt 42 =>
      if sql =? main_sql then
        Ok [[("CombinedAnalysisID", VInt 42); ("AgentID", VInt 7);
             ("NumberOfReportsSuccessfullyAnalyzed", VInt 12);
             ("AnalysisPeriodNote", VStr "Q1 2024");
             ("AgentName", VStr "J. Smith")]]
      else if sql =? strengths_sql then
        Ok [[("StrengthText", VStr "Clear tone")]]
      else if sql =? development_sql then Ok []
      else if sql =? focus_sql then
        Ok [[("CoachingFocusID", VInt 5); ("AreaText", VStr "Hold Procedure")]]
      else if sql =? detail_sql then
        Ok [[("QualityPointText", VStr "Greeting");
             ("TrendObservation", VStr "Consistent")]]
      else Ok []
  | VInt 5 =>
      if sql =? actions_sql then
        Ok [[("ActionText", VStr "Confirm before hold")]]
      else Ok []
  | _ => Ok []
  end.

(** A connection that is lost after the root row is read. *)
Definition execute_lost (sql : string) (param : pyval) : exc (list row) :=
  if sql =? main_sql then execute sql param
  else Raise "Communication link failure".

Definition start : world := World [] [] [].

(** The report of analysis 42, as the specification gives it. *)
Definition report : pyval :=
  VDict
    [("report_header",
      VDict [("agent_name", VStr "J. Smith");
             ("number_of_reports_successfully_analyzed", VInt 12);
             ("analysis_period_note", VStr "Q1 2024")]);
     ("qualitative_summary_and_coaching_plan",
      VDict [("overall_strengths_observed", VList [VStr "Clear tone"]);
             ("overall_areas_for_development", VList []);
             ("consolidated_coaching_focus",
              VList [VDict [("area", VStr "Hold Procedure");
                            ("specific_actions",
                             VList [VStr "Confirm before hold"])]])]);
     ("detailed_quality_point_analysis",
      VList [VDict [("quality_point", VStr "Greeting");
                    ("trend_observation", VStr "Consistent");
                    ("coaching_recommendation_for_point", VStr "")]])].

(** The same report, shaped. *)
Definition shaped : Shape.report :=
  Shape.Report
    (Some [("agent_name", VStr "J. Smith");
           ("number_of_reports_successfully_analyzed", VInt 12);
           ("analysis_period_note", VStr "Q1 2024")])
    (Some (Shape.Summary (Some ["Clear tone"]) (Some [])
             (Some [Shape.Focus (Some "Hold Procedure")
                      (Some ["Confirm before hold"])])))
    (Some [Shape.Detail (Some "Greeting") (Some "Consistent") (Some "")]).

(** A report of which only the strengths are left. *)
Definition strengths_only : Shape.report :=
  Shape.Report None
    (Some (Shape.Summary (Some ["Clear tone"]) None None)) None.

(** A report whose root row has NULL for the count and an empty note. *)
Definition blank_header : pyval :=
  VDict
    [("report_header",
      VDict [("agent_name", VStr "J. Smith");
             ("number_of_reports_successfully_analyzed", VNone);
             ("analysis_period_note", VStr "")])].

End Scenario.

(** ** The dialogs of the two failures *)

Definition query_error (e : exn) : string * string :=
  ("Database Query Error",
   "An error occurred while fetching report details:" ++ newline ++ e).

Definition docx_error (e : exn) : string * string :=
  ("DOCX Generation Error",
   "Failed to generate the .docx file:" ++ newline ++ e).


(** ** The layout of the specification

    The document of section 4.2 of the specification, written as a function
    of the shaped report: the renderer is compared with it below. *)

Module Layout.
Import Shape.

Definition nonempty {A} (l : list A) : bool :=
  match l with
  | [] => false
  | _ :: _ => true
  end.

(** A paragraph holding [s]; python-docx gives it no run when [s] is
    empty. *)
Definition text_paragraph (style : option string) (s : string) : block :=
  Paragraph style (if s =? "" then [] else [plain_run s]).

Definition or_default (default : string) (o : option string) : string :=
  match o with
  | Some s => s
  | None => default
  end.

Definition section (title : string) (present : bool) (body : list block)
  : list block :=
  if present then text_paragraph (Some "Heading 2") title :: body else [].

(** The blocks of a focus below its heading. *)
Definition focus_body (f : focus) : list block :=
  if nonempty (actions f) then
    Paragraph None [set_bold true (plain_run "Actionable Recommendations:")]
    :: map (text_paragraph (Some "ListNumber")) (actions f)
  else [].

Definition focus_blocks (f : focus) : list block :=
  text_paragraph (Some "Heading 3") (or_default "Focus Area" (area f))
  :: focus_body f.

Definition header_cells : list run :=
  map (set_bold true)
    [plain_run "Quality Point"; plain_run "Trend Observation";
     plain_run "Coaching Recommendation"].

Definition detail_cells (d : detail) : list run :=
  [plain_run (or_default "N/A" (quality_point d));
   plain_run (or_default "N/A" (trend_observation d));
   plain_run (or_default "N/A" (coaching_recommendation_for_point d))].

(** What is to be read back from the document of a report: the titles of
    its sections, a coaching focus, and the texts of the table. *)
Definition section_titles (r : report) : list string :=
  ((if nonempty (strengths r)
    then ["Key Strengths & Consistent Positive Performance"] else [])
   ++ (if nonempty (dev_areas r)
       then ["Areas for Development & Recurring Challenges"] else [])
   ++ (if nonempty (coaching_foci r)
       then ["Consolidated Coaching & Development Plan"] else [])
   ++ (if nonempty (details r)
       then ["Detailed Quality Point Analysis"] else []))%list.

Definition focus_read (f : focus) : string * list string :=
  (or_default "Focus Area" (area f), actions f).

Definition table_texts (l : list detail) : list (list string) :=
  ["Quality Point"; "Trend Observation"; "Coaching Recommendation"]
  :: map (fun d =>
            [or_default "N/A" (quality_point d);
             or_default "N/A" (trend_observation d);
             or_default "N/A" (coaching_recommendation_for_point d)]) l.

(** What [header.get(key, 'N/A')] is. *)
Definition field_value (h : list (string * pyval)) (key : string) : pyval :=
  match dict_get h key with
  | Some v => v
  | None => VStr "N/A"
  end.

Section Fields.

Variable repr : pyval -> string.

(** A header field as the f-strings print it: the value under [key], or
    "N/A" when the header has no such key. *)
Definition field (h : list (string * pyval)) (key : string) : string :=
  match dict_get h key with
  | Some v => str repr v
  | None => "N/A"
  end.

Definition title_line (h : list (string * pyval)) : string :=
  "Performance Trend Analysis & Coaching Report: " ++ field h "agent_name".

Definition summary_line (h : list (string * pyval)) : string :=
  "Analysis based on "
    ++ field h "number_of_reports_successfully_analyzed"
    ++ " calls. Period: " ++ field h "analysis_period_note".

Definition layout (r : report) : document :=
  ([text_paragraph (Some "Heading 1") (title_line (header r));
    text_paragraph None (summary_line (header r))]
   ++ section "Key Strengths & Consistent Positive Performance"
        (nonempty (strengths r))
        (map (text_paragraph (Some "ListBullet")) (strengths r))
   ++ section "Areas for Development & Recurring Challenges"
        (nonempty (dev_areas r))
        (map (text_paragraph (Some "ListBullet")) (dev_areas r))
   ++ section "Consolidated Coaching & Development Plan"
        (nonempty (coaching_foci r))
        (flat_map focus_blocks (coaching_foci r))
   ++ section "Detailed Quality Point Analysis"
        (nonempty (details r))
        [Table (Some "Table Grid")
           (header_cells :: map detail_cells (details r))])%list.

End Fields.

End Layout.

(** ** More about the assembler and the documents *)

Module More.

(** [[row.name for row in rows]], evaluated on rows already fetched. *)
Fixpoint values (name : string) (rows : list row) : exc (list pyval) :=
  match rows with
  | [] => Ok []
  | r :: rest =>
      match attr r name with
      | Raise e => Raise e
      | Ok v =>
          match values name rest with
          | Ok vs => Ok (v :: vs)
          | Raise e => Raise e
          end
      end
  end.

(** The three columns of the root row that the assembler reads, in the
    order in which it reads them. *)
Definition header_columns : list string :=
  ["AgentName"; "NumberOfReportsSuccessfullyAnalyzed"; "AnalysisPeriodNote"].

(** The queries of the assembler for one analysis: each SQL text of lines
    218-252 with the analysis identifier, and the actions query with any
    parameter. *)
Definition assembler_query (analysis_id : Z) (q : query) : Prop :=
  fst q = actions_sql
  \/ (snd q = VInt analysis_id
      /\ In (fst q)
           [main_sql; strengths_sql; development_sql; focus_sql; detail_sql]).

(** A computation on the cursor adds only queries that satisfy [P]. *)
Definition adds_only (P : query -> Prop) {A} (m : M (list query) A) : Prop :=
  forall log, exists new, snd (m log) = (log ++ new)%list /\ Forall P new.

Section Answer.

Variable execute : string -> pyval -> exc (list row).

(** What a row of the coaching foci holds and what its actions query
    returns: the identifier, the area, the actions. *)
Definition focus_answer (r : row) (f : pyval * pyval * list pyval) : Prop :=
  let '(focus_id, area, actions) := f in
  attr r "CoachingFocusID" = Ok focus_id
  /\ attr r "AreaText" = Ok area
  /\ exists action_rows,
       execute actions_sql focus_id = Ok action_rows
       /\ values "ActionText" action_rows = Ok actions.

Definition detail_answer (r : row) (d : pyval * pyval) : Prop :=
  attr r "QualityPointText" = Ok (fst d)
  /\ attr r "TrendObservation" = Ok (snd d).

Definition focus_of (f : pyval * pyval * list pyval) : pyval :=
  Assembled.focus_value (snd (fst f)) (snd f).

Definition actions_query (f : pyval * pyval * list pyval) : query :=
  (actions_sql, fst (fst f)).

End Answer.

(** The tables of the document, each as its rows of cells. *)
Fixpoint table_cells (doc : document) : list (list (list run)) :=
  match doc with
  | [] => []
  | Table _ rows :: rest => rows :: table_cells rest
  | Paragraph _ _ :: rest => table_cells rest
  end.

(** Every run of the document, those of the table cells included. *)
Fixpoint all_runs (doc : document) : list run :=
  match doc with
  | [] => []
  | Paragraph _ runs :: rest => (runs ++ all_runs rest)%list
  | Table _ rows :: rest => (concat rows ++ all_runs rest)%list
  end.

(** The texts of the paragraphs that hold a bold run. *)
Fixpoint bold_paragraphs (doc : document) : list string :=
  match doc with
  | [] => []
  | Paragraph _ runs :: rest =>
      if existsb (fun r => match run_bold r with
                           | Some true => true
                           | _ => false
                           end) runs
      then Read.paragraph_text runs :: bold_paragraphs rest
      else bold_paragraphs rest
  | Table _ _ :: rest => bold_paragraphs rest
  end.

(** The lead-ins of the coaching plan: one for each focus with actions. *)
Definition lead_ins (l : list Shape.focus) : list string :=
  map (fun _ => "Actionable Recommendations:")
    (filter (fun f => match Shape.actions f with
                      | [] => false
                      | _ :: _ => true
                      end) l).

(** A computation on the document keeps [P] of all its blocks. *)
Definition keeps (P : block -> Prop) {A} (m : M document A) : Prop :=
  forall doc, Forall P doc -> Forall P (snd (m doc)).

(** The row has three cells, none of them coloured. *)
Definition plain_cells (cells : list run) : Prop :=
  length cells = 3%nat /\ Forall (fun r => run_color r = None) cells.

(** No run of the block has a colour, and every row of a table has three
    cells. *)
Definition plain_block (b : block) : Prop :=
  match b with
  | Paragraph _ runs => Forall (fun r => run_color r = None) runs
  | Table _ rows => Forall plain_cells rows
  end.

(** The heading and the summary paragraph of a report with header [h]. *)
Definition opening (repr : pyval -> string) (h : list (string * pyval))
  : document :=
  [Layout.text_paragraph (Some "Heading 1") (Layout.title_line repr h);
   Layout.text_paragraph None (Layout.summary_line repr h)].

(** The dict has no truthy value under [key]. *)
Definition falsy_at (entries : list (string * pyval)) (key : string) : Prop :=
  forall v, dict_get entries key = Some v -> truthy v = false.

End More.

(** ** The download button

    [ReportDownloaderApp.on_download_click] and what it reads: the two
    listboxes, the dictionary of the dates shown, and the save dialog. *)

Module Tk.

(** A [tk.Listbox]: its items and the indices that are selected. *)
Record listbox : Type := Listbox
  { items : list string;
    selected : list nat }.

(** [listbox.curselection()]. *)
Definition curselection (l : listbox) : list nat := selected l.

(** [listbox.get(index)]: the item, the empty string when there is none. *)
Definition item (l : listbox) (index : nat) : string := nth index (items l) "".

(** [listbox.insert(tk.END, s)]. *)
Definition insert_end (s : string) (l : listbox) : listbox :=
  {| items := (items l ++ [s])%list; selected := selected l |}.

(** [listbox.delete(0, tk.END)]: no item is left, nor any selection. *)
Definition delete_all (l : listbox) : listbox :=
  {| items := []; selected := [] |}.

End Tk.

Module App.
Import Tk.

(** The application: the two dictionaries and the two listboxes of
    [__init__], the world of the two operations, and what the other dialogs
    show: the warnings and the notes of [messagebox], and the file names
    that the save dialog has offered. *)
Record app : Type := Make
  { agents : list (string * pyval);
    analysis_dates : list (string * pyval);
    agent_listbox : listbox;
    date_listbox : listbox;
    outside : world;
    warnings : list (string * string);
    infos : list (string * string);
    offered : list string }.

Definition set_outside (w : world) (a : app) : app :=
  {| agents := agents a; analysis_dates := analysis_dates a;
     agent_listbox := agent_listbox a; date_listbox := date_listbox a;
     outside := w; warnings := warnings a; infos := infos a;
     offered := offered a |}.

(** [messagebox.showwarning(title, message)]. *)
Definition showwarning (title message : string) (a : app) : app :=
  {| agents := agents a; analysis_dates := analysis_dates a;
     agent_listbox := agent_listbox a; date_listbox := date_listbox a;
     outside := outside a;
     warnings := (warnings a ++ [(title, message)])%list;
     infos := infos a; offered := offered a |}.

(** [messagebox.showinfo(title, message)]. *)
Definition showinfo (title message : string) (a : app) : app :=
  {| agents := agents a; analysis_dates := analysis_dates a;
     agent_listbox := agent_listbox a; date_listbox := date_listbox a;
     outside := outside a; warnings := warnings a;
     infos := (infos a ++ [(title, message)])%list; offered := offered a |}.

(** The save dialog is shown with [initialfile]. *)
Definition offer (initialfile : string) (a : app) : app :=
  {| agents := agents a; analysis_dates := analysis_dates a;
     agent_listbox := agent_listbox a; date_listbox := date_listbox a;
     outside := outside a; warnings := warnings a; infos := infos a;
     offered := (offered a ++ [initialfile])%list |}.

(** [d.get(key)], [None] for a key that the dict does not have. *)
Definition dict_get_or_none (d : list (string * pyval)) (key : string)
  : pyval :=
  match dict_get d key with
  | Some v => v
  | None => VNone
  end.

(** [s.split(' ')[0]]: what stands before the first space. *)
Fixpoint before_space (s : string) : string :=
  match s with
  | EmptyString => EmptyString
  | String c rest =>
      if Ascii.eqb c " " then EmptyString else String c (before_space rest)
  end.

(** The note of a saved report and the dialog of a report not retrieved. *)
Definition success_note (save_path : string) : string * string :=
  ("Success", "Report successfully saved to:" ++ newline ++ save_path).

Definition data_error : string * string :=
  ("Data Error", "Could not retrieve the report data from the database.").

Section Handlers.

Variable repr : pyval -> string.
Variable docx_text : pyval -> exc string.
Variable save_error : string -> document -> option exn.
Variable cursor_error : option exn.
Variable execute : string -> pyval -> exc (list row).

(** [filedialog.asksaveasfilename(..., initialfile=name)]: the path chosen,
    the empty string when the dialog is cancelled. *)
Variable asksaveasfilename : string -> string.

(** Lines 215-259 again, for an identifier that is any value: the button
    passes what the dictionary of dates holds. *)
Definition assemble_by (analysis_id : pyval) : M (list query) (option pyval) :=
  (cursor cursor_error ;;;
   main_rows <- cursor_execute execute main_sql analysis_id ;;
   match fetchone main_rows with
   | None => ret None
   | Some [] => ret None
   | Some main_row =>
       agent_name <- lift (attr main_row "AgentName") ;;
       number <- lift (attr main_row "NumberOfReportsSuccessfullyAnalyzed") ;;
       note <- lift (attr main_row "AnalysisPeriodNote") ;;
       strengths <- column execute strengths_sql analysis_id "StrengthText" ;;
       dev_areas <-
         column execute development_sql analysis_id "DevelopmentAreaText" ;;
       focus_rows <- cursor_execute execute focus_sql analysis_id ;;
       report <-
         fold_each focus_rows (fetch_focus execute)
           (new_report agent_name number note strengths dev_areas) ;;
       detail_rows <- cursor_execute execute detail_sql analysis_id ;;
       report <- fold_each detail_rows fetch_detail report ;;
       ret (Some report)
   end)%eff.

Definition fetch_by (analysis_id : pyval) (w : world) : option pyval * world :=
  match assemble_by analysis_id (queries w) with
  | (Ok report, log) => (report, asked log w)
  | (Raise e, log) =>
      (None,
       showerror "Database Query Error"
         ("An error occurred while fetching report details:" ++ newline ++ e)
         (asked log w))
  end.

(** Lines 200-210: the save dialog and the rendering. *)
Definition save_report (report_data : pyval)
    (agent_name selected_date_str : string) (a : app) : app :=
  let initialfile :=
    "QA_Report_" ++ agent_name ++ "_" ++ before_space selected_date_str
      ++ ".docx" in
  let save_path := asksaveasfilename initialfile in
  let a := offer initialfile a in
  if save_path =? "" then a
  else
    match generate_docx_from_combined_json repr docx_text save_error
            report_data save_path (outside a) with
    | (true, w) =>
        showinfo "Success"
          ("Report successfully saved to:" ++ newline ++ save_path)
          (set_outside w a)
    | (false, w) => set_outside w a
    end.

(** [on_download_click(self)]. *)
Definition on_download_click (a : app) : app :=
  let date_selections := curselection (date_listbox a) in
  let agent_selections := curselection (agent_listbox a) in
  match agent_selections with
  | [] =>
      showwarning "Selection Required" "Please select an agent first." a
  | agent_index :: _ =>
      match date_selections with
      | [] =>
          showwarning "Selection Required" "Please select a report date." a
      | date_index :: _ =>
          let selected_date_str := item (date_listbox a) date_index in
          let analysis_id :=
            dict_get_or_none (analysis_dates a) selected_date_str in
          let agent_name := item (agent_listbox a) agent_index in
          if truthy analysis_id then
            match fetch_by analysis_id (outside a) with
            | (Some report_data, w) =>
                if truthy report_data then
                  save_report report_data agent_name selected_date_str
                    (set_outside w a)
                else
                  set_outside
                    (showerror "Data Error"
                       "Could not retrieve the report data from the database."
                       w) a
            | (None, w) =>
                set_outside
                  (showerror "Data Error"
                     "Could not retrieve the report data from the database."
                     w) a
            end
          else a
      end
  end.

End Handlers.

End App.

(** ** The agent listbox

    [ReportDownloaderApp.on_agent_select]: the dates of the analyses of the
    selected agent, as the listbox shows them and as the dictionary of
    dates keeps them. *)

Module Dates.
Import Tk App.

(** A [datetime.datetime], up to the second. *)
Record datetime : Type := Datetime
  { year : nat; month : nat; day : nat;
    hour : nat; minute : nat; second : nat }.

(** The fields are in the ranges of [datetime], the year from 1000 on:
    [%Y] prints such a year as its four digits on every platform. *)
Definition valid (t : datetime) : bool :=
  ((1000 <=? year t) && (year t <? 10 * 1000) && (1 <=? month t) && (month t <=? 12)
   && (1 <=? day t) && (day t <=? 31) && (hour t <=? 23)
   && (minute t <=? 59) && (second t <=? 59))%nat.

Definition digit (n : nat) : ascii := ascii_of_nat (48 + n).

(** [%m], [%d], [%I], [%M]: two digits. *)
Definition two_digits (n : nat) : string :=
  String (digit (n / 10)) (String (digit (n mod 10)) "").

(** [%Y]: the four digits of a year from 1000 on. *)
Definition four_digits (n : nat) : string :=
  String (digit (n / 1000))
    (String (digit ((n / 100) mod 10))
       (String (digit ((n / 10) mod 10)) (String (digit (n mod 10)) ""))).

(** [%I]: the hour of the 12-hour clock. *)
Definition hour12 (h : nat) : nat :=
  match (h mod 12)%nat with
  | O => 12
  | k => k
  end.

(** [%p], in the C locale. *)
Definition am_pm (h : nat) : string := if (h <? 12)%nat then "AM" else "PM".

(** [t.strftime("%Y-%m-%d %I:%M %p")]. *)
Definition strftime (t : datetime) : string :=
  four_digits (year t) ++ "-" ++ two_digits (month t) ++ "-"
    ++ two_digits (day t) ++ " " ++ two_digits (hour12 (hour t)) ++ ":"
    ++ two_digits (minute t) ++ " " ++ am_pm (hour t).

(** A row of the query of line 168: the two columns that it names.  The
    date is [None] for NULL. *)
Record analysis_row : Type := Row
  { CombinedAnalysisID : pyval;
    AnalysisDateTime : option datetime }.

Definition analyses_sql : string :=
  "SELECT CombinedAnalysisID, AnalysisDateTime FROM CombinedAnalyses WHERE AgentID = ? ORDER BY AnalysisDateTime DESC;".

(** [d[key] = v]: the value of a key that the dict has is replaced where it
    stands, a new key comes last. *)
Fixpoint dict_set (d : list (string * pyval)) (key : string) (v : pyval)
  : list (string * pyval) :=
  match d with
  | [] => [(key, v)]
  | (k, x) :: rest =>
      if k =? key then (k, v) :: rest else (k, x) :: dict_set rest key v
  end.

Definition set_dates (d : list (string * pyval)) (l : listbox) (a : app)
  : app :=
  {| agents := agents a; analysis_dates := d;
     agent_listbox := agent_listbox a; date_listbox := l;
     outside := outside a; warnings := warnings a; infos := infos a;
     offered := offered a |}.

Section Select.

Variable cursor_error : option exn.

(** [cursor.execute(sql, agent_id).fetchall()] for the query of line 168. *)
Variable execute_analyses : string -> pyval -> exc (list analysis_row).

(** [t.strftime("%Y-%m-%d %I:%M %p")]. *)
Variable format : datetime -> string.

(** [row.AnalysisDateTime.strftime(...)]. *)
Definition date_str_of (r : analysis_row) : exc string :=
  match AnalysisDateTime r with
  | Some t => Ok (format t)
  | None => Raise (attribute_error VNone "strftime")
  end.

(** Lines 172-174: one row of the loop. *)
Definition show_date (r : analysis_row) : M app unit :=
  (date_str <- lift (date_str_of r) ;;
   fun a =>
     (Ok tt,
      set_dates (dict_set (analysis_dates a) date_str (CombinedAnalysisID r))
        (insert_end date_str (date_listbox a)) a))%eff.

(** Lines 167-174: the body of the [try]. *)
Definition fetch_dates (agent_id : pyval) : M app unit :=
  (lift (match cursor_error with Some e => Raise e | None => Ok tt end) ;;;
   rows <-
     (fun a =>
        (execute_analyses analyses_sql agent_id,
         set_outside
           (asked (queries (outside a) ++ [(analyses_sql, agent_id)])%list
              (outside a)) a)) ;;
   for_each rows show_date)%eff.

(** [on_agent_select(self, event)]. *)
Definition on_agent_select (a : app) : app :=
  match curselection (agent_listbox a) with
  | [] => a
  | index :: _ =>
      let a := set_dates [] (delete_all (date_listbox a)) a in
      let selected_agent_name := item (agent_listbox a) index in
      let agent_id := dict_get_or_none (agents a) selected_agent_name in
      if truthy agent_id then
        match fetch_dates agent_id a with
        | (Ok _, a) => a
        | (Raise e, a) =>
            set_outside
              (showerror "Error"
                 ("Failed to fetch reports for " ++ selected_agent_name ++ ":"
                    ++ newline ++ e) (outside a)) a
        end
      else a
  end.

End Select.

(** The user selects the entry [index] of the date listbox. *)
Definition choose_date (index : nat) (a : app) : app :=
  set_dates (analysis_dates a)
    {| items := items (date_listbox a); selected := [index] |} a.

(** The string that a dated row is shown as ([""] stands for a row that
    has no date, which is never shown). *)
Definition shown (format : datetime -> string) (r : analysis_row) : string :=
  match AnalysisDateTime r with
  | Some t => format t
  | None => ""
  end.

(** The dictionary of dates after the rows [rows] were entered in turn. *)
Definition entered (format : datetime -> string) (rows : list analysis_row)
    (d : list (string * pyval)) : list (string * pyval) :=
  fold_left (fun d r => dict_set d (shown format r) (CombinedAnalysisID r))
    rows d.

(** Every date that the listbox shows has an entry in the dictionary of
    dates. *)
Definition in_step (a : app) : Prop :=
  Forall (fun s => dict_get (analysis_dates a) s <> None)
    (items (date_listbox a)).

(** Two dates agree up to the minute. *)
Definition same_minute (t1 t2 : datetime) : Prop :=
  year t1 = year t2 /\ month t1 = month t2 /\ day t1 = day t2
  /\ hour t1 = hour t2 /\ minute t1 = minute t2.

(** The last row whose date is shown as [s]. *)
Definition last_shown (format : datetime -> string) (s : string)
    (rows : list analysis_row) : option analysis_row :=
  find (fun r => match AnalysisDateTime r with
                 | Some t => format t =? s
                 | None => false
                 end) (rev rows).

End Dates.
(** ** A desk: one agent, and the analyses of the agent *)

Module Desk.
Import Tk App Dates.

(** The save dialog, answered with a folder, and cancelled. *)
Definition asksaveasfilename (initialfile : string) : string :=
  "C:/reports/" ++ initialfile.

Definition cancelled (initialfile : string) : string := "".

Definition march : datetime := Datetime 2024 3 5 14 30 12.
Definition march_again : datetime := Datetime 2024 3 5 14 30 2.
Definition january : datetime := Datetime 2024 1 9 9 5 0.

(** Agent 7 has the analyses 42 and 41. *)
Definition execute_analyses (sql : string) (param : pyval)
  : exc (list analysis_row) :=
  match param with
  | VInt 7 =>
      if sql =? analyses_sql then
        Ok [Row (VInt 42) (Some march); Row (VInt 41) (Some january)]
      else Ok []
  | _ => Ok []
  end.

(** Agent 7 has two analyses of the same minute. *)
Definition execute_same_minute (sql : string) (param : pyval)
  : exc (list analysis_row) :=
  Ok [Row (VInt 42) (Some march); Row (VInt 40) (Some march_again)].

(** The second analysis of agent 7 has no date. *)
Definition execute_undated (sql : string) (param : pyval)
  : exc (list analysis_row) :=
  Ok [Row (VInt 42) (Some march); Row (VInt 39) None;
      Row (VInt 41) (Some january)].

Definition execute_down (sql : string) (param : pyval)
  : exc (list analysis_row) :=
  Raise "Communication link failure".

(** The root row of analysis 44 has no count and no note. *)
Definition execute_short (sql : string) (param : pyval) : exc (list row) :=
  if sql =? main_sql then
    Ok [[("CombinedAnalysisID", VInt 44); ("AgentName", VStr "J. Smith")]]
  else Ok [].

(** The window after the agent list is filled and the agent is selected. *)
Definition start : app :=
  {| agents := [("J. Smith", VInt 7)];
     analysis_dates := [];
     agent_listbox := {| items := ["J. Smith"]; selected := [0%nat] |};
     date_listbox := {| items := []; selected := [] |};
     outside := Scenario.start;
     warnings := []; infos := []; offered := [] |}.

(** The window with the dates of agent 7 shown and the first one chosen. *)
Definition chosen : app :=
  {| agents := [("J. Smith", VInt 7)];
     analysis_dates :=
       [("2024-03-05 02:30 PM", VInt 42); ("2024-01-09 09:05 AM", VInt 41)];
     agent_listbox := {| items := ["J. Smith"]; selected := [0%nat] |};
     date_listbox :=
       {| items := ["2024-03-05 02:30 PM"; "2024-01-09 09:05 AM"];
          selected := [0%nat] |};
     outside := Scenario.start;
     warnings := []; infos := []; offered := [] |}.

(** A report whose collections are [None], zero and empty strings. *)
Definition hollow : list (string * pyval) :=
  [("report_header", VDict [("agent_name", VStr "J. Smith")]);
   ("qualitative_summary_and_coaching_plan",
    VDict [("overall_strengths_observed", VNone);
           ("overall_areas_for_development", VInt 0);
           ("consolidated_coaching_focus", VStr "")]);
   ("detailed_quality_point_analysis", VDict [])].

(** A report whose strengths are [v]. *)
Definition with_strengths (v : pyval) : list (string * pyval) :=
  [("report_header", VDict [("agent_name", VStr "J. Smith")]);
   ("qualitative_summary_and_coaching_plan",
    VDict [("overall_strengths_observed", v)])].

End Desk.


(** * Properties *)

(** ** Finding styling *)

Section FindingStyle.

Variable r : run.

Lemma apply_finding_str (s : string) :
  s <> "" ->
  _apply_finding_color_to_run r (VStr s) =
  Ok (set_bold true
        (if lower s =? "positive" then set_color dark_green r
         else if lower s =? "negative" then set_color dark_red r
         else if lower s =? "neutral" then set_color dark_blue r
         else r)).
Proof.
  intros Hs. unfold _apply_finding_color_to_run. simpl.
  destruct (String.eqb_spec s "") as [E | _]; [contradiction | reflexivity].
Qed.

Lemma lower_nonempty (s : string) : lower s <> "" -> s <> "".
Proof. intros H E. subst s. apply H. reflexivity. Qed.

(** C1, as the code has it: a finding equal to "positive", "negative" or
    "neutral" up to case gets dark green, dark red or dark blue, and bold;
    any other non-empty finding gets bold and keeps its colour; the empty
    string and [None] leave the run as it was. *)
Theorem finding_style (s : string) :
  (lower s = "positive" ->
   _apply_finding_color_to_run r (VStr s)
   = Ok (set_bold true (set_color dark_green r)))
  /\ (lower s = "negative" ->
      _apply_finding_color_to_run r (VStr s)
      = Ok (set_bold true (set_color dark_red r)))
  /\ (lower s = "neutral" ->
      _apply_finding_color_to_run r (VStr s)
      = Ok (set_bold true (set_color dark_blue r)))
  /\ (s <> "" -> lower s <> "positive" -> lower s <> "negative" ->
      lower s <> "neutral" ->
      _apply_finding_color_to_run r (VStr s) = Ok (set_bold true r))
  /\ _apply_finding_color_to_run r (VStr "") = Ok r
  /\ _apply_finding_color_to_run r VNone = Ok r.
Proof.
  repeat split.
  - intros H. rewrite apply_finding_str, H; [reflexivity |].
    apply lower_nonempty. rewrite H. discriminate.
  - intros H. rewrite apply_finding_str, H; [reflexivity |].
    apply lower_nonempty. rewrite H. discriminate.
  - intros H. rewrite apply_finding_str, H; [reflexivity |].
    apply lower_nonempty. rewrite H. discriminate.
  - intros Hs Hp Hn Hu. rewrite apply_finding_str by assumption.
    apply String.eqb_neq in Hp, Hn, Hu. rewrite Hp, Hn, Hu. reflexivity.
Qed.

End FindingStyle.

(** The styling at "Positive" and at "Mixed". *)
Lemma finding_style_witness :
  _apply_finding_color_to_run (plain_run "Positive") (VStr "Positive")
  = Ok (set_bold true (set_color dark_green (plain_run "Positive")))
  /\ _apply_finding_color_to_run (plain_run "Mixed") (VStr "Mixed")
     = Ok (set_bold true (plain_run "Mixed")).
Proof.
  split.
  - apply (proj1 (finding_style (plain_run "Positive") "Positive")).
    reflexivity.
  - apply (proj1 (proj2 (proj2 (proj2
             (finding_style (plain_run "Mixed") "Mixed")))));
      simpl; discriminate.
Defined.

(** C1 as stated fails at "Mixed": a finding that is none of the three
    words still has its run made bold. *)
Lemma finding_mixed_is_bold :
  lower "Mixed" <> "positive" /\ lower "Mixed" <> "negative"
  /\ lower "Mixed" <> "neutral"
  /\ run_bold (plain_run "Mixed") = None
  /\ exists r', _apply_finding_color_to_run (plain_run "Mixed") (VStr "Mixed")
                = Ok r'
                /\ run_bold r' = Some true.
Proof.
  repeat split; try (simpl; discriminate).
  eexists. split; reflexivity.
Qed.

(** ** The renderer follows the layout *)

Section RenderFacts.
Import Shape Layout.

Variable repr : pyval -> string.
Variable docx_text : pyval -> exc string.
Hypothesis text_of_str : forall s, docx_text (VStr s) = Ok s.

Lemma bind_ok {S A B} (m : M S A) (k : A -> M S B) s a s' :
  m s = (Ok a, s') -> bind m k s = k a s'.
Proof. intros H. unfold bind. rewrite H. reflexivity. Qed.

Lemma bind_lift_ok {S A B} (x : exc A) (k : A -> M S B) s a :
  x = Ok a -> bind (lift x) k s = k a s.
Proof. intros H. subst x. reflexivity. Qed.

Lemma truthy_list {A} (f : A -> pyval) l :
  truthy (VList (map f l)) = nonempty l.
Proof. destruct l; reflexivity. Qed.

Lemma add_paragraph_str s style doc :
  add_paragraph docx_text (VStr s) style doc
  = (Ok tt, (doc ++ [text_paragraph style s])%list).
Proof.
  unfold add_paragraph, bind, lift, run_of, push, text_paragraph. simpl.
  destruct (s =? ""); simpl; [reflexivity |].
  rewrite text_of_str. reflexivity.
Qed.

Lemma add_heading_str s level doc :
  (level <=? 9)%nat = true ->
  add_heading docx_text (VStr s) level doc
  = (Ok tt, (doc ++ [text_paragraph (Some (heading_style level)) s])%list).
Proof.
  intros H. unfold add_heading. rewrite H. apply add_paragraph_str.
Qed.

Lemma for_each_paragraphs style l : forall doc,
  for_each (map VStr l) (fun item => add_paragraph docx_text item style) doc
  = (Ok tt, (doc ++ map (text_paragraph style) l)%list).
Proof.
  induction l as [| s l IH]; intros doc; simpl.
  - unfold ret. rewrite app_nil_r. reflexivity.
  - erewrite bind_ok by apply add_paragraph_str.
    rewrite IH, <- app_assoc. reflexivity.
Qed.

Lemma add_bold_paragraph_str s doc :
  s <> "" ->
  add_bold_paragraph docx_text (VStr s) doc
  = (Ok tt, (doc ++ [Paragraph None [set_bold true (plain_run s)]])%list).
Proof.
  intros Hs. unfold add_bold_paragraph, bind, lift, run_of, push. simpl.
  apply String.eqb_neq in Hs. rewrite Hs. simpl.
  rewrite text_of_str. reflexivity.
Qed.

Lemma render_focus_encode f doc :
  render_focus docx_text (encode_focus f) doc
  = (Ok tt, (doc ++ focus_blocks f)%list).
Proof.
  destruct f as [a acts].
  unfold render_focus, encode_focus, focus_blocks, actions.
  destruct a as [a |], acts as [[| x acts] |]; simpl.
  all: erewrite bind_lift_ok by reflexivity.
  all: erewrite bind_ok by (apply add_heading_str; reflexivity).
  all: erewrite bind_lift_ok by reflexivity.
  all: unfold when, texts; rewrite ?truthy_list; cbn [nonempty].
  all: try (unfold ret; rewrite <- ?app_assoc; reflexivity).
  all: erewrite bind_ok by (apply add_bold_paragraph_str; discriminate).
  all: erewrite bind_lift_ok by reflexivity.
  all: rewrite (for_each_paragraphs _ (x :: acts)), <- !app_assoc.
  all: reflexivity.
Qed.

Lemma for_each_foci l : forall doc,
  for_each (map encode_focus l) (render_focus docx_text) doc
  = (Ok tt, (doc ++ flat_map focus_blocks l)%list).
Proof.
  induction l as [| f l IH]; intros doc; simpl.
  - unfold ret. rewrite app_nil_r. reflexivity.
  - erewrite bind_ok by apply render_focus_encode.
    rewrite IH, <- app_assoc. reflexivity.
Qed.

Lemma cell_text_str s : cell_text docx_text (VStr s) = Ok (plain_run s).
Proof. unfold cell_text. rewrite text_of_str. reflexivity. Qed.

Lemma header_row_cells rows :
  header_row docx_text rows = (Ok tt, (rows ++ [header_cells])%list).
Proof.
  unfold header_row.
  do 3 erewrite bind_lift_ok by apply cell_text_str. reflexivity.
Qed.

Lemma detail_row_encode d rows :
  detail_row docx_text (encode_detail d) rows
  = (Ok tt, (rows ++ [detail_cells d])%list).
Proof.
  destruct d as [[q |] [t |] [c |]]; unfold detail_row, encode_detail; simpl.
  all: erewrite bind_lift_ok by reflexivity.
  all: erewrite bind_lift_ok by apply cell_text_str.
  all: erewrite bind_lift_ok by reflexivity.
  all: erewrite bind_lift_ok by apply cell_text_str.
  all: erewrite bind_lift_ok by reflexivity.
  all: erewrite bind_lift_ok by apply cell_text_str.
  all: reflexivity.
Qed.

Lemma for_each_details l : forall rows,
  for_each (map encode_detail l) (detail_row docx_text) rows
  = (Ok tt, (rows ++ map detail_cells l)%list).
Proof.
  induction l as [| d l IH]; intros rows; simpl.
  - unfold ret. rewrite app_nil_r. reflexivity.
  - erewrite bind_ok by apply detail_row_encode.
    rewrite IH, <- app_assoc. reflexivity.
Qed.

Lemma add_detail_table_encode l doc :
  add_detail_table docx_text (VList (map encode_detail l)) doc
  = (Ok tt,
     (doc ++ [Table (Some "Table Grid")
                (header_cells :: map detail_cells l)])%list).
Proof.
  unfold add_detail_table.
  erewrite bind_ok by apply header_row_cells.
  erewrite bind_lift_ok by reflexivity.
  rewrite for_each_details. reflexivity.
Qed.

Lemma bullets_section title (l : list string) doc :
  when (truthy (texts l))
    (add_heading docx_text (VStr title) 2 ;;;
     items <- lift (iter (texts l)) ;;
     for_each items
       (fun item => add_paragraph docx_text item (Some "ListBullet")))%eff
    doc
  = (Ok tt,
     (doc ++ section title (nonempty l)
               (map (text_paragraph (Some "ListBullet")) l))%list).
Proof.
  unfold texts. rewrite truthy_list. unfold when, section.
  destruct l as [| x l]; cbn [nonempty].
  - unfold ret. rewrite app_nil_r. reflexivity.
  - erewrite bind_ok by (apply add_heading_str; reflexivity).
    erewrite bind_lift_ok by reflexivity.
    rewrite for_each_paragraphs, <- app_assoc. reflexivity.
Qed.

Lemma foci_section title (l : list focus) doc :
  when (truthy (VList (map encode_focus l)))
    (add_heading docx_text (VStr title) 2 ;;;
     area_items <- lift (iter (VList (map encode_focus l))) ;;
     for_each area_items (render_focus docx_text))%eff
    doc
  = (Ok tt,
     (doc ++ section title (nonempty l) (flat_map focus_blocks l))%list).
Proof.
  rewrite truthy_list. unfold when, section.
  destruct l as [| x l]; cbn [nonempty].
  - unfold ret. rewrite app_nil_r. reflexivity.
  - erewrite bind_ok by (apply add_heading_str; reflexivity).
    erewrite bind_lift_ok by reflexivity.
    rewrite for_each_foci, <- app_assoc. reflexivity.
Qed.

Lemma details_section title (l : list detail) doc :
  when (truthy (VList (map encode_detail l)))
    (add_heading docx_text (VStr title) 2 ;;;
     add_detail_table docx_text (VList (map encode_detail l)))%eff
    doc
  = (Ok tt,
     (doc ++ section title (nonempty l)
               [Table (Some "Table Grid")
                  (header_cells :: map detail_cells l)])%list).
Proof.
  rewrite truthy_list. unfold when, section.
  destruct l as [| x l]; cbn [nonempty].
  - unfold ret. rewrite app_nil_r. reflexivity.
  - erewrite bind_ok by (apply add_heading_str; reflexivity).
    rewrite add_detail_table_encode, <- app_assoc. reflexivity.
Qed.

Lemma get_header r :
  get (encode r) "report_header" (VDict []) = Ok (VDict (header r)).
Proof. destruct r as [[h |] [s |] [d |]]; reflexivity. Qed.

Lemma get_summary r :
  get (encode r) "qualitative_summary_and_coaching_plan" (VDict [])
  = Ok (summary_value r).
Proof. destruct r as [[h |] [s |] [d |]]; reflexivity. Qed.

Lemma get_details r :
  get (encode r) "detailed_quality_point_analysis" (VList [])
  = Ok (VList (map encode_detail (details r))).
Proof. destruct r as [[h |] [s |] [d |]]; reflexivity. Qed.

Lemma get_strengths r :
  get (summary_value r) "overall_strengths_observed" (VList [])
  = Ok (texts (strengths r)).
Proof.
  unfold summary_value, strengths.
  destruct (qualitative_summary_and_coaching_plan r) as [[[a |] [b |] [c |]] |];
    reflexivity.
Qed.

Lemma get_dev_areas r :
  get (summary_value r) "overall_areas_for_development" (VList [])
  = Ok (texts (dev_areas r)).
Proof.
  unfold summary_value, dev_areas.
  destruct (qualitative_summary_and_coaching_plan r) as [[[a |] [b |] [c |]] |];
    reflexivity.
Qed.

Lemma get_coaching_foci r :
  get (summary_value r) "consolidated_coaching_focus" (VList [])
  = Ok (VList (map encode_focus (coaching_foci r))).
Proof.
  unfold summary_value, coaching_foci.
  destruct (qualitative_summary_and_coaching_plan r) as [[[a |] [b |] [c |]] |];
    reflexivity.
Qed.

Lemma str_field_value h key : str repr (field_value h key) = field repr h key.
Proof. unfold field_value, field. destruct (dict_get h key); reflexivity. Qed.

Lemma build_document_encode r :
  build_document repr docx_text (encode r) [] = (Ok tt, layout repr r).
Proof.
  unfold build_document, layout.
  erewrite bind_lift_ok by apply get_header.
  erewrite bind_lift_ok
    by (exact (eq_refl (Ok (field_value (header r) "agent_name")))).
  erewrite bind_ok by (apply add_heading_str; reflexivity).
  erewrite bind_lift_ok
    by (exact (eq_refl (Ok (field_value (header r)
                              "number_of_reports_successfully_analyzed")))).
  erewrite bind_lift_ok
    by (exact (eq_refl (Ok (field_value (header r) "analysis_period_note")))).
  erewrite bind_ok by apply add_paragraph_str.
  erewrite bind_lift_ok by apply get_summary.
  erewrite bind_lift_ok by apply get_strengths.
  erewrite bind_ok by apply bullets_section.
  erewrite bind_lift_ok by apply get_dev_areas.
  erewrite bind_ok by apply bullets_section.
  erewrite bind_lift_ok by apply get_coaching_foci.
  erewrite bind_ok by apply foci_section.
  erewrite bind_lift_ok by apply get_details.
  rewrite details_section, !str_field_value.
  rewrite <- !app_assoc. reflexivity.
Qed.

End RenderFacts.

(** ** Reading the layout back *)

Section ReadLayout.
Import Shape Layout Read.
Local Open Scope list_scope.

Lemma paragraph_text_of style s :
  match text_paragraph style s with
  | Paragraph _ runs => paragraph_text runs = s
  | Table _ _ => False
  end.
Proof.
  unfold text_paragraph. destruct (String.eqb_spec s "") as [E | _].
  - subst s. reflexivity.
  - reflexivity.
Qed.

Lemma styled_app style l1 l2 :
  styled style (l1 ++ l2) = (styled style l1 ++ styled style l2)%list.
Proof.
  induction l1 as [| b l1 IH]; [reflexivity |].
  destruct b as [st runs | st rows]; simpl; [| exact IH].
  destruct st as [a |], style as [b |]; try exact IH.
  - destruct (a =? b); simpl; rewrite IH; reflexivity.
  - simpl. rewrite IH. reflexivity.
Qed.

Lemma styled_text_paragraph style st s :
  styled style [text_paragraph st s]
  = match st, style with
    | Some a, Some b => if a =? b then [s] else []
    | None, None => [s]
    | _, _ => []
    end.
Proof.
  pose proof (paragraph_text_of st s) as H. unfold text_paragraph in *.
  simpl. destruct st as [a |], style as [b |]; try reflexivity.
  - destruct (a =? b); [rewrite H |]; reflexivity.
  - rewrite H. reflexivity.
Qed.

(** The paragraphs of style [st] are all read, or none is. *)
Lemma styled_paragraphs_same st l :
  styled (Some st) (map (text_paragraph (Some st)) l) = l.
Proof.
  induction l as [| s l IH]; [reflexivity |].
  change (map (text_paragraph (Some st)) (s :: l))
    with ([text_paragraph (Some st) s] ++ map (text_paragraph (Some st)) l)%list.
  rewrite styled_app, styled_text_paragraph, String.eqb_refl, IH. reflexivity.
Qed.

Lemma styled_paragraphs_other style st l :
  (st =? style) = false ->
  styled (Some style) (map (text_paragraph (Some st)) l) = [].
Proof.
  intros H. induction l as [| s l IH]; [reflexivity |].
  change (map (text_paragraph (Some st)) (s :: l))
    with ([text_paragraph (Some st) s] ++ map (text_paragraph (Some st)) l)%list.
  rewrite styled_app, styled_text_paragraph, H, IH. reflexivity.
Qed.

Lemma styled_focus_blocks style f :
  (style =? "Heading 3") = false -> (style =? "ListNumber") = false ->
  styled (Some style) (focus_blocks f) = [].
Proof.
  intros H3 HN. unfold focus_blocks.
  rewrite String.eqb_sym in H3. rewrite String.eqb_sym in HN.
  match goal with
  | |- styled _ (?b :: ?rest) = _ => change (b :: rest) with ([b] ++ rest)%list
  end.
  rewrite styled_app, styled_text_paragraph, H3. unfold focus_body.
  destruct (nonempty (actions f)); [| reflexivity].
  simpl. apply styled_paragraphs_other. exact HN.
Qed.

Lemma styled_foci style l :
  (style =? "Heading 3") = false -> (style =? "ListNumber") = false ->
  styled (Some style) (flat_map focus_blocks l) = [].
Proof.
  intros H3 HN. induction l as [| f l IH]; [reflexivity |].
  cbn [flat_map]. rewrite styled_app, styled_focus_blocks, IH by assumption.
  reflexivity.
Qed.

Lemma styled_section style title present body :
  styled (Some style) (section title present body)
  = if present
    then ((if "Heading 2" =? style then [title] else [])
            ++ styled (Some style) body)%list
    else [].
Proof.
  unfold section. destruct present; [| reflexivity].
  match goal with
  | |- styled _ (?b :: ?rest) = _ => change (b :: rest) with ([b] ++ rest)%list
  end.
  rewrite styled_app, styled_text_paragraph. reflexivity.
Qed.

Variable repr : pyval -> string.

Lemma headings2_layout r :
  headings 2 (layout repr r) = section_titles r.
Proof.
  unfold headings, layout, section_titles.
  change (Some ("Heading " ++ NilZero.string_of_uint (Nat.to_uint 2))%string)
    with (Some "Heading 2").
  rewrite !styled_app, !styled_section.
  rewrite !styled_paragraphs_other, styled_foci by reflexivity.
  change ([text_paragraph (Some "Heading 1") (title_line repr (header r));
           text_paragraph None (summary_line repr (header r))])
    with ([text_paragraph (Some "Heading 1") (title_line repr (header r))]
            ++ [text_paragraph None (summary_line repr (header r))])%list.
  rewrite styled_app, !styled_text_paragraph.
  destruct (nonempty (strengths r)), (nonempty (dev_areas r)),
    (nonempty (coaching_foci r)), (nonempty (details r)); reflexivity.
Qed.

Lemma headings1_layout r :
  headings 1 (layout repr r) = [title_line repr (header r)].
Proof.
  unfold headings, layout.
  change (Some ("Heading " ++ NilZero.string_of_uint (Nat.to_uint 1))%string)
    with (Some "Heading 1").
  rewrite !styled_app, !styled_section.
  rewrite !styled_paragraphs_other, styled_foci by reflexivity.
  change ([text_paragraph (Some "Heading 1") (title_line repr (header r));
           text_paragraph None (summary_line repr (header r))])
    with ([text_paragraph (Some "Heading 1") (title_line repr (header r))]
            ++ [text_paragraph None (summary_line repr (header r))])%list.
  rewrite styled_app, !styled_text_paragraph.
  destruct (nonempty (strengths r)), (nonempty (dev_areas r)),
    (nonempty (coaching_foci r)), (nonempty (details r)); reflexivity.
Qed.

Lemma bullets_layout r :
  styled (Some "ListBullet") (layout repr r)
  = (strengths r ++ dev_areas r)%list.
Proof.
  unfold layout.
  rewrite !styled_app, !styled_section.
  rewrite !styled_paragraphs_same, styled_foci by reflexivity.
  change ([text_paragraph (Some "Heading 1") (title_line repr (header r));
           text_paragraph None (summary_line repr (header r))])
    with ([text_paragraph (Some "Heading 1") (title_line repr (header r))]
            ++ [text_paragraph None (summary_line repr (header r))])%list.
  rewrite styled_app, !styled_text_paragraph.
  destruct (strengths r), (dev_areas r), (nonempty (coaching_foci r)),
    (nonempty (details r)); simpl; rewrite ?app_nil_r; reflexivity.
Qed.

End ReadLayout.

(** ** Reading the coaching plan and the table back *)

Section ReadPlan.
Import Shape Layout Read.
Local Open Scope list_scope.

Lemma focus_sections_skip l1 l2 :
  Forall not_heading3 l1 -> focus_sections (l1 ++ l2) = focus_sections l2.
Proof.
  induction 1 as [| b l1 Hb _ IH]; [reflexivity |].
  destruct b as [[st |] runs | st rows]; simpl in *; try exact IH.
  rewrite Hb. exact IH.
Qed.

Lemma until_heading3_skip l1 l2 :
  Forall not_heading3 l1 ->
  until_heading3 (l1 ++ l2) = l1 ++ until_heading3 l2.
Proof.
  induction 1 as [| b l1 Hb _ IH]; [reflexivity |].
  destruct b as [[st |] runs | st rows]; simpl in *; try (rewrite IH; reflexivity).
  rewrite Hb, IH. reflexivity.
Qed.

Lemma not_heading3_paragraphs st l :
  (st =? "Heading 3") = false ->
  Forall not_heading3 (map (text_paragraph (Some st)) l).
Proof.
  intros H. induction l; constructor; [exact H | assumption].
Qed.

Lemma not_heading3_section title present body :
  Forall not_heading3 body -> Forall not_heading3 (section title present body).
Proof.
  intros H. unfold section. destruct present; constructor; [reflexivity | exact H].
Qed.

Lemma not_heading3_focus_body f : Forall not_heading3 (focus_body f).
Proof.
  unfold focus_body. destruct (nonempty (actions f)); constructor.
  - exact I.
  - apply not_heading3_paragraphs. reflexivity.
Qed.

Lemma numbered_focus_body f :
  styled (Some "ListNumber") (focus_body f) = actions f.
Proof.
  unfold focus_body. destruct (actions f) as [| a l] eqn:E; [reflexivity |].
  cbn [nonempty]. cbn [styled]. apply styled_paragraphs_same.
Qed.

Lemma until_heading3_foci l tail :
  Forall not_heading3 tail ->
  styled (Some "ListNumber") tail = [] ->
  styled (Some "ListNumber") (until_heading3 (flat_map focus_blocks l ++ tail))
  = [].
Proof.
  intros Ht Hn. destruct l as [| f l].
  - simpl. rewrite <- (app_nil_r tail) at 1.
    rewrite until_heading3_skip by assumption. simpl. rewrite app_nil_r.
    exact Hn.
  - reflexivity.
Qed.

Lemma focus_sections_foci l tail :
  Forall not_heading3 tail ->
  styled (Some "ListNumber") tail = [] ->
  focus_sections (flat_map focus_blocks l ++ tail) = map focus_read l.
Proof.
  intros Ht Hn. induction l as [| f l IH].
  - simpl. rewrite <- (app_nil_r tail). apply focus_sections_skip. exact Ht.
  - cbn [flat_map map]. rewrite <- app_assoc.
    unfold focus_blocks at 1.
    pose proof (paragraph_text_of (Some "Heading 3")
                  (or_default "Focus Area" (area f))) as Htext.
    unfold text_paragraph in *. cbn [app focus_sections].
    change ("Heading 3" =? "Heading 3") with true. cbv iota.
    rewrite Htext.
    rewrite until_heading3_skip by apply not_heading3_focus_body.
    rewrite styled_app, numbered_focus_body, until_heading3_foci by assumption.
    rewrite focus_sections_skip by apply not_heading3_focus_body.
    rewrite IH, app_nil_r. reflexivity.
Qed.

Lemma tables_app l1 l2 : tables (l1 ++ l2) = tables l1 ++ tables l2.
Proof.
  induction l1 as [| b l1 IH]; [reflexivity |].
  destruct b; simpl; rewrite IH; reflexivity.
Qed.

Lemma tables_paragraphs l : Forall is_paragraph l -> tables l = [].
Proof.
  induction 1 as [| b l Hb _ IH]; [reflexivity |].
  destruct b; [exact IH | contradiction].
Qed.

Lemma is_paragraph_texts st l : Forall is_paragraph (map (text_paragraph st) l).
Proof. induction l; constructor; [exact I | assumption]. Qed.

Lemma is_paragraph_foci l : Forall is_paragraph (flat_map focus_blocks l).
Proof.
  induction l as [| f l IH]; [constructor |].
  cbn [flat_map]. apply Forall_app. split; [| exact IH].
  unfold focus_blocks, focus_body. constructor; [exact I |].
  destruct (nonempty (actions f)); constructor;
    [exact I | apply is_paragraph_texts].
Qed.

Lemma is_paragraph_section title present body :
  Forall is_paragraph body -> Forall is_paragraph (section title present body).
Proof.
  intros H. unfold section. destruct present; constructor; [exact I | exact H].
Qed.

Variable repr : pyval -> string.

Lemma focus_sections_layout r :
  focus_sections (layout repr r) = map focus_read (coaching_foci r).
Proof.
  unfold layout. rewrite !app_assoc, <- app_assoc.
  rewrite focus_sections_skip.
  - unfold section at 1. destruct (coaching_foci r) as [| f l] eqn:E.
    + cbn [nonempty app map]. rewrite <- (app_nil_r (section _ _ _)).
      apply focus_sections_skip. apply not_heading3_section.
      constructor; [exact I | constructor].
    + cbn [nonempty]. rewrite <- app_comm_cons.
      unfold text_paragraph at 1. cbn [String.eqb Ascii.eqb Bool.eqb].
      cbn [focus_sections]. change ("Heading 2" =? "Heading 3") with false.
      cbv iota. apply focus_sections_foci.
      * apply not_heading3_section. constructor; [exact I | constructor].
      * rewrite styled_section. destruct (nonempty (details r)); reflexivity.
  - apply Forall_app. split; [apply Forall_app; split |].
    + constructor; [reflexivity | constructor; [exact I | constructor]].
    + apply not_heading3_section, not_heading3_paragraphs. reflexivity.
    + apply not_heading3_section, not_heading3_paragraphs. reflexivity.
Qed.

Lemma tables_layout r :
  tables (layout repr r)
  = if nonempty (details r) then [table_texts (details r)] else [].
Proof.
  unfold layout. rewrite !tables_app.
  rewrite (tables_paragraphs (l := [_; _])) by (repeat constructor).
  rewrite !(tables_paragraphs (l := section _ _ (map _ _)))
    by apply is_paragraph_section, is_paragraph_texts.
  rewrite (tables_paragraphs (l := section _ _ (flat_map _ _)))
    by apply is_paragraph_section, is_paragraph_foci.
  unfold section. destruct (nonempty (details r)); [| reflexivity].
  cbn [app tables text_paragraph]. unfold table_texts.
  cbn [map header_cells]. rewrite map_map. reflexivity.
Qed.

Lemma summary_layout r :
  nth_error (layout repr r) 1
  = Some (Paragraph None [plain_run (summary_line repr (header r))]).
Proof. reflexivity. Qed.

End ReadPlan.

(** ** The claims about the renderer *)

Section Rendering.
Import Shape Layout Read.
Local Open Scope list_scope.

Lemma styled_heading3_sections doc :
  styled (Some "Heading 3") doc = map fst (focus_sections doc).
Proof.
  induction doc as [| b doc IH]; [reflexivity |].
  destruct b as [[st |] runs | st rows]; simpl; try exact IH.
  destruct (st =? "Heading 3"); simpl; rewrite IH; reflexivity.
Qed.

Variable repr : pyval -> string.
Variable docx_text : pyval -> exc string.
Variable save_error : string -> document -> option exn.

(** The text setter stores a str as it is. *)
Hypothesis text_of_str : forall s, docx_text (VStr s) = Ok s.

Variable path : string.

(** Nothing prevents a save to [path]. *)
Hypothesis save_ok : forall doc, save_error path doc = None.

Lemma generate_encode r w :
  generate_docx_from_combined_json repr docx_text save_error (encode r) path w
  = (true, written path (layout repr r) w).
Proof.
  unfold generate_docx_from_combined_json.
  erewrite bind_ok by (apply build_document_encode; exact text_of_str).
  unfold save. rewrite save_ok. reflexivity.
Qed.

(** C4: the document of a report has one level-3 heading for each coaching
    focus and, below the heading of a focus, one numbered paragraph for each
    of its actions, both in the order of the lists. *)
Theorem coaching_plan_counts r w :
  exists doc,
    generate_docx_from_combined_json repr docx_text save_error (encode r) path w
    = (true, written path doc w)
    /\ length (styled (Some "Heading 3") doc) = length (coaching_foci r)
    /\ map (fun s => length (snd s)) (focus_sections doc)
       = map (fun f => length (actions f)) (coaching_foci r)
    /\ focus_sections doc
       = map (fun f => (or_default "Focus Area" (area f), actions f))
           (coaching_foci r).
Proof.
  exists (layout repr r). split; [apply generate_encode |].
  pose proof (focus_sections_layout repr r) as H.
  split; [| split].
  - rewrite styled_heading3_sections, H, !length_map. reflexivity.
  - rewrite H, map_map. reflexivity.
  - exact H.
Qed.

(** C7: rendering a report succeeds whichever of its collections are
    empty; the level-2 headings of the document are those of the non-empty
    collections, in order, and the bullets, the coaching plan and the table
    hold the items of the collections and nothing else. *)
Theorem empty_sections_omitted r w :
  exists doc,
    generate_docx_from_combined_json repr docx_text save_error (encode r) path w
    = (true, written path doc w)
    /\ headings 2 doc
       = (if nonempty (strengths r)
          then ["Key Strengths & Consistent Positive Performance"] else [])
         ++ (if nonempty (dev_areas r)
             then ["Areas for Development & Recurring Challenges"] else [])
         ++ (if nonempty (coaching_foci r)
             then ["Consolidated Coaching & Development Plan"] else [])
         ++ (if nonempty (details r)
             then ["Detailed Quality Point Analysis"] else [])
    /\ styled (Some "ListBullet") doc = strengths r ++ dev_areas r
    /\ length (focus_sections doc) = length (coaching_foci r)
    /\ length (tables doc) = (if nonempty (details r) then 1 else 0)
    /\ length (recommendation_cells doc) = length (details r).
Proof.
  exists (layout repr r). split; [apply generate_encode |].
  split; [apply headings2_layout |].
  split; [apply bullets_layout |].
  split; [rewrite focus_sections_layout; apply length_map |].
  unfold recommendation_cells. rewrite tables_layout.
  destruct (details r) as [| d l]; [split; reflexivity |].
  cbn [nonempty]. split; [reflexivity |].
  unfold table_texts. cbn [flat_map tl]. rewrite app_nil_r, !length_map.
  reflexivity.
Qed.

(** C2, as the code has it: the cell of the "Coaching Recommendation"
    column reads "N/A" for a detail that has no
    [coaching_recommendation_for_point] key, and shows the value of the key
    as it is for a detail that has one. *)
Theorem recommendation_cell_default r w :
  exists doc,
    generate_docx_from_combined_json repr docx_text save_error (encode r) path w
    = (true, written path doc w)
    /\ recommendation_cells doc
       = map (fun d =>
                match coaching_recommendation_for_point d with
                | Some value => value
                | None => "N/A"
                end) (details r).
Proof.
  exists (layout repr r). split; [apply generate_encode |].
  unfold recommendation_cells. rewrite tables_layout.
  destruct (details r) as [| d l]; [reflexivity |].
  cbn [nonempty]. unfold table_texts. cbn [flat_map tl].
  rewrite app_nil_r, map_map. reflexivity.
Qed.

(** C6, as the code has it: the second block of the document is the
    summary paragraph; it prints the count and the period note of the
    header with [str], and prints "N/A" only for a key that the header does
    not have. *)
Theorem summary_paragraph r w :
  let shown key :=
    match dict_get (header r) key with
    | Some value => str repr value
    | None => "N/A"
    end in
  exists doc,
    generate_docx_from_combined_json repr docx_text save_error (encode r) path w
    = (true, written path doc w)
    /\ nth_error doc 1
       = Some (Paragraph None
                 [plain_run
                    ("Analysis based on "
                       ++ shown "number_of_reports_successfully_analyzed"
                       ++ " calls. Period: "
                       ++ shown "analysis_period_note")%string]).
Proof.
  intros shown. exists (layout repr r). split; [apply generate_encode |].
  apply summary_layout.
Qed.

(** C10: a report that lacks top-level sections renders as the report
    with these sections put in empty; the heading names the agent "N/A"
    when the header is missing, and a missing section leaves no heading,
    bullet, focus or table. *)
Theorem missing_sections r w :
  generate_docx_from_combined_json repr docx_text save_error (encode r) path w
  = generate_docx_from_combined_json repr docx_text save_error
      (encode (fill r)) path w
  /\ exists doc,
      generate_docx_from_combined_json repr docx_text save_error (encode r)
        path w
      = (true, written path doc w)
      /\ (report_header r = None ->
          headings 1 doc
          = ["Performance Trend Analysis & Coaching Report: N/A"])
      /\ (qualitative_summary_and_coaching_plan r = None ->
          styled (Some "ListBullet") doc = []
          /\ focus_sections doc = []
          /\ forall title, In title (headings 2 doc) ->
                           title = "Detailed Quality Point Analysis")
      /\ (detailed_quality_point_analysis r = None ->
          tables doc = []
          /\ ~ In "Detailed Quality Point Analysis" (headings 2 doc)).
Proof.
  split.
  - rewrite !generate_encode. destruct r as [[h |] [s |] [d |]]; reflexivity.
  - exists (layout repr r). split; [apply generate_encode |].
    rewrite headings1_layout, headings2_layout, bullets_layout,
      focus_sections_layout, tables_layout.
    unfold section_titles, strengths, dev_areas, coaching_foci, details, header.
    split; [intros H; rewrite H; reflexivity |].
    split.
    + intros H. rewrite H. split; [reflexivity | split; [reflexivity |]].
      intros title Hin. cbn [nonempty app] in Hin.
      destruct (nonempty _); [| contradiction].
      destruct Hin as [Hin | []]. symmetry. exact Hin.
    + intros H. rewrite H. split; [reflexivity |].
      cbn [collection nonempty]. rewrite !app_nil_r.
      match goal with
      | |- ~ In _ ((if ?a then _ else _) ++ (if ?b then _ else _)
                    ++ (if ?c then _ else _)) =>
          destruct a, b, c
      end; simpl; intuition discriminate.
Qed.

End Rendering.

(** ** The assembler *)

Lemma bind_inv {S A B} (m : M S A) (k : A -> M S B) s b s2 :
  bind m k s = (Ok b, s2) ->
  exists a s1, m s = (Ok a, s1) /\ k a s1 = (Ok b, s2).
Proof.
  unfold bind. destruct (m s) as [[a | e] s1]; intros H.
  - exists a, s1. split; [reflexivity | exact H].
  - discriminate.
Qed.

Lemma lift_inv {S A} (x : exc A) (s s' : S) a :
  lift x s = (Ok a, s') -> x = Ok a /\ s' = s.
Proof. unfold lift. intros H. inversion H. split; reflexivity. Qed.

Lemma ret_inv {S A} (a b : A) (s s' : S) :
  ret a s = (Ok b, s') -> b = a /\ s' = s.
Proof. unfold ret. intros H. inversion H. split; reflexivity. Qed.

Tactic Notation "invert_bind" hyp(H) "as" ident(a) ident(Ha) :=
  apply bind_inv in H; destruct H as (a & ? & Ha & H).

Tactic Notation "invert_lift" hyp(H) :=
  apply lift_inv in H; destruct H as [H ?]; subst.

Section AssemblerFacts.
Import Assembled.
Local Open Scope list_scope.

Variable cursor_error : option exn.
Variable execute : string -> pyval -> exc (list row).

(** *** The shape of what is built *)

Lemma append_focus_full area actions a n p S D F Q :
  append_focus area actions (full_report a n p S D F Q)
  = full_report a n p S D (F ++ [focus_value area actions]) Q.
Proof. reflexivity. Qed.

Lemma append_detail_full quality_point trend a n p S D F Q :
  append_detail quality_point trend (full_report a n p S D F Q)
  = full_report a n p S D F (Q ++ [detail_value quality_point trend]).
Proof. reflexivity. Qed.

Lemma fetch_focus_inv focus_row report log report' log' :
  fetch_focus execute focus_row report log = (Ok report', log') ->
  exists area actions, report' = append_focus area actions report.
Proof.
  unfold fetch_focus. intros H.
  invert_bind H as focus_id H1. invert_bind H as actions H2.
  invert_bind H as area H3.
  apply ret_inv in H. destruct H as [H _]. eauto.
Qed.

Lemma fetch_detail_inv detail_row report log report' log' :
  fetch_detail detail_row report log = (Ok report', log') ->
  exists quality_point trend,
    report' = append_detail quality_point trend report.
Proof.
  unfold fetch_detail. intros H.
  invert_bind H as quality_point H1. invert_bind H as trend H2.
  apply ret_inv in H. destruct H as [H _]. eauto.
Qed.

Lemma fold_focus_inv a n p S D Q focus_rows : forall F log report' log',
  fold_each focus_rows (fetch_focus execute) (full_report a n p S D F Q) log
  = (Ok report', log') ->
  exists F',
    report' = full_report a n p S D (F ++ F') Q
    /\ Forall is_focus F' /\ length F' = length focus_rows.
Proof.
  induction focus_rows as [| r rows IH]; intros F log report' log' H.
  - apply ret_inv in H. destruct H as [H _]. subst.
    exists []. rewrite app_nil_r. repeat split. constructor.
  - cbn [fold_each] in H. invert_bind H as report1 Ha.
    apply fetch_focus_inv in Ha. destruct Ha as (area & actions & Ha).
    subst. rewrite append_focus_full in H.
    apply IH in H. destruct H as (F' & H & HF & Hlen).
    exists (focus_value area actions :: F'). rewrite <- app_assoc in H.
    repeat split.
    + exact H.
    + constructor; [| exact HF]. exists area, actions. reflexivity.
    + simpl. rewrite Hlen. reflexivity.
Qed.

Lemma fold_detail_inv a n p S D F detail_rows : forall Q log report' log',
  fold_each detail_rows fetch_detail (full_report a n p S D F Q) log
  = (Ok report', log') ->
  exists Q',
    report' = full_report a n p S D F (Q ++ Q')
    /\ Forall is_detail Q' /\ length Q' = length detail_rows.
Proof.
  induction detail_rows as [| r rows IH]; intros Q log report' log' H.
  - apply ret_inv in H. destruct H as [H _]. subst.
    exists []. rewrite app_nil_r. repeat split. constructor.
  - cbn [fold_each] in H. invert_bind H as report1 Ha.
    apply fetch_detail_inv in Ha. destruct Ha as (q & t & Ha).
    subst. rewrite append_detail_full in H.
    apply IH in H. destruct H as (Q' & H & HQ & Hlen).
    exists (detail_value q t :: Q'). rewrite <- app_assoc in H.
    repeat split.
    + exact H.
    + constructor; [| exact HQ]. exists q, t. reflexivity.
    + simpl. rewrite Hlen. reflexivity.
Qed.

(** A report comes from a root row, whose three columns are its header. *)
Lemma assemble_inv analysis_id log report log' :
  assemble cursor_error execute analysis_id log = (Ok (Some report), log') ->
  exists main_row rest a n p S D F Q,
    execute main_sql (VInt analysis_id) = Ok (main_row :: rest)
    /\ attr main_row "AgentName" = Ok a
    /\ attr main_row "NumberOfReportsSuccessfullyAnalyzed" = Ok n
    /\ attr main_row "AnalysisPeriodNote" = Ok p
    /\ report = full_report a n p S D F Q
    /\ Forall is_focus F /\ Forall is_detail Q.
Proof.
  unfold assemble. intros H.
  invert_bind H as u Hcursor. invert_bind H as main_rows Hmain.
  unfold cursor_execute in Hmain. inversion Hmain as [[Hrows Hlog]].
  clear Hmain.
  destruct main_rows as [| main_row rest]; cbn [fetchone hd_error] in H.
  { apply ret_inv in H. destruct H. discriminate. }
  destruct main_row as [| c main_row].
  { apply ret_inv in H. destruct H. discriminate. }
  invert_bind H as a Ha. invert_lift Ha.
  invert_bind H as n Hn. invert_lift Hn.
  invert_bind H as p Hp. invert_lift Hp.
  invert_bind H as S HS. invert_bind H as D HD.
  invert_bind H as focus_rows Hfocus. invert_bind H as report1 HF.
  invert_bind H as detail_rows Hdetail. invert_bind H as report2 HQ.
  apply ret_inv in H. destruct H as [H _]. inversion H. subst report2.
  change (new_report a n p S D) with (full_report a n p S D [] []) in HF.
  apply fold_focus_inv in HF. destruct HF as (F & -> & HF & _).
  apply fold_detail_inv in HQ. destruct HQ as (Q & -> & HQ & _).
  exists (c :: main_row), rest, a, n, p, S, D, F, Q.
  repeat split; assumption.
Qed.


(** *** The log of queries *)

Lemma traced_ret {A} (a : A) : traced execute (ret a).
Proof.
  intros log. exists []. split; [simpl; rewrite app_nil_r; reflexivity |].
  intros sql param e [].
Qed.

Lemma traced_lift {A} (x : exc A) : traced execute (lift x).
Proof.
  intros log. exists []. split; [simpl; rewrite app_nil_r; reflexivity |].
  intros sql param e [].
Qed.

Lemma traced_bind {A B} (m : M (list query) A) (k : A -> M (list query) B) :
  traced execute m -> (forall a, traced execute (k a)) ->
  traced execute (bind m k).
Proof.
  intros Hm Hk log. destruct (Hm log) as (new1 & Hlog1 & Hraise1).
  unfold bind. destruct (m log) as [[a | e] log1]; simpl in *.
  - destruct (Hk a log1) as (new2 & Hlog2 & Hraise2).
    exists (new1 ++ new2). subst log1. rewrite app_assoc.
    split; [exact Hlog2 |].
    intros sql param e Hin Hex. apply in_app_or in Hin.
    destruct Hin as [Hin | Hin].
    + destruct (Hraise1 _ _ _ Hin Hex) as [Habs _]. discriminate.
    + destruct (Hraise2 _ _ _ Hin Hex) as (Hres & before & ->).
      split; [exact Hres |]. exists (new1 ++ before). apply app_assoc.
  - exists new1. split; [exact Hlog1 |].
    intros sql param e' Hin Hex.
    destruct (Hraise1 _ _ _ Hin Hex) as [Hres Hlast].
    split; [inversion Hres; reflexivity | exact Hlast].
Qed.

Lemma traced_execute sql param :
  traced execute (cursor_execute execute sql param).
Proof.
  intros log. exists [(sql, param)]. split; [reflexivity |].
  intros sql' param' e [Hin | []] Hex. inversion Hin. subst.
  split; [exact Hex | exists []; reflexivity].
Qed.

Lemma traced_map_each {A B} (f : A -> M (list query) B) l :
  (forall x, traced execute (f x)) -> traced execute (map_each f l).
Proof.
  intros Hf. induction l as [| x l IH]; [apply traced_ret |].
  cbn [map_each]. apply traced_bind; [apply Hf |]. intros y.
  apply traced_bind; [exact IH |]. intros ys. apply traced_ret.
Qed.

Lemma traced_fold_each {A B} (body : A -> B -> M (list query) B) l :
  (forall x b, traced execute (body x b)) ->
  forall b, traced execute (fold_each l body b).
Proof.
  intros Hbody. induction l as [| x l IH]; intros b; [apply traced_ret |].
  cbn [fold_each]. apply traced_bind; [apply Hbody | exact IH].
Qed.

Lemma traced_column sql param name :
  traced execute (column execute sql param name).
Proof.
  unfold column. apply traced_bind; [apply traced_execute |].
  intros rows. apply traced_map_each. intros r. apply traced_lift.
Qed.

Lemma traced_assemble analysis_id :
  traced execute (assemble cursor_error execute analysis_id).
Proof.
  unfold assemble.
  apply traced_bind; [apply traced_lift |]. intros _.
  apply traced_bind; [apply traced_execute |]. intros main_rows.
  destruct (fetchone main_rows) as [[| c main_row] |];
    try apply traced_ret.
  repeat (apply traced_bind; [apply traced_lift |]; intros ?).
  repeat (apply traced_bind; [apply traced_column |]; intros ?).
  apply traced_bind; [apply traced_execute |]. intros focus_rows.
  apply traced_bind.
  { apply traced_fold_each. intros r b. unfold fetch_focus.
    apply traced_bind; [apply traced_lift |]. intros focus_id.
    apply traced_bind; [apply traced_column |]. intros actions.
    apply traced_bind; [apply traced_lift |]. intros area.
    apply traced_ret. }
  intros report1.
  apply traced_bind; [apply traced_execute |]. intros detail_rows.
  apply traced_bind; [| intros report2; apply traced_ret].
  apply traced_fold_each. intros r b. unfold fetch_detail.
  apply traced_bind; [apply traced_lift |]. intros q.
  apply traced_bind; [apply traced_lift |]. intros t.
  apply traced_ret.
Qed.

(** *** Fetches that are answered *)

Lemma attr_has_column name r :
  has_column name r = true -> exists v, attr r name = Ok v.
Proof.
  unfold has_column, attr. destruct (dict_get r name) as [v |]; intros H.
  - exists v. reflexivity.
  - discriminate.
Qed.

Lemma column_answers sql param name log :
  answers execute sql param [name] ->
  exists values,
    column execute sql param name log = (Ok values, log ++ [(sql, param)]).
Proof.
  intros (rows & Hex & Hrows). unfold column.
  erewrite bind_ok by (unfold cursor_execute; rewrite Hex; reflexivity).
  generalize (log ++ [(sql, param)]). clear Hex.
  induction Hrows as [| r rows Hr _ IH]; intros log1.
  - exists []. reflexivity.
  - cbn [forallb] in Hr. rewrite andb_true_r in Hr.
    apply attr_has_column in Hr. destruct Hr as (v & Hv).
    destruct (IH log1) as (values & Hvalues). exists (v :: values).
    cbn [map_each]. erewrite bind_lift_ok by exact Hv.
    erewrite bind_ok by exact Hvalues. reflexivity.
Qed.

Lemma fold_focus_answers focus_rows :
  Forall (fun r =>
            has_column "AreaText" r = true
            /\ exists focus_id,
                 attr r "CoachingFocusID" = Ok focus_id
                 /\ answers execute actions_sql focus_id ["ActionText"])
    focus_rows ->
  forall report log,
  exists report' log',
    fold_each focus_rows (fetch_focus execute) report log = (Ok report', log').
Proof.
  induction 1 as [| r rows Hr _ IH]; intros report log.
  - exists report, log. reflexivity.
  - destruct Hr as (Harea & focus_id & Hid & Hactions).
    apply attr_has_column in Harea. destruct Harea as (area & Harea).
    destruct (column_answers log Hactions) as (actions & Hcolumn).
    cbn [fold_each]. unfold fetch_focus at 1.
    erewrite bind_ok.
    2:{ erewrite bind_lift_ok by exact Hid.
        erewrite bind_ok by exact Hcolumn.
        erewrite bind_lift_ok by exact Harea. reflexivity. }
    apply IH.
Qed.

Lemma fold_detail_answers detail_rows :
  Forall (fun r =>
            forallb (fun n => has_column n r)
              ["QualityPointText"; "TrendObservation"] = true)
    detail_rows ->
  forall report log,
  exists report',
    fold_each detail_rows fetch_detail report log = (Ok report', log).
Proof.
  induction 1 as [| r rows Hr _ IH]; intros report log.
  - exists report. reflexivity.
  - cbn [forallb] in Hr. rewrite andb_true_r in Hr.
    apply andb_prop in Hr. destruct Hr as [Hq Ht].
    apply attr_has_column in Hq, Ht.
    destruct Hq as (q & Hq). destruct Ht as (t & Ht).
    cbn [fold_each]. unfold fetch_detail at 1.
    erewrite bind_ok.
    2:{ erewrite bind_lift_ok by exact Hq.
        erewrite bind_lift_ok by exact Ht. reflexivity. }
    apply IH.
Qed.

(** With a root row and every fetch answered, a report is returned. *)
Lemma assemble_answers analysis_id main_row rest a n p log :
  cursor_error = None ->
  execute main_sql (VInt analysis_id) = Ok (main_row :: rest) ->
  attr main_row "AgentName" = Ok a ->
  attr main_row "NumberOfReportsSuccessfullyAnalyzed" = Ok n ->
  attr main_row "AnalysisPeriodNote" = Ok p ->
  children_answer execute analysis_id ->
  exists report log',
    assemble cursor_error execute analysis_id log = (Ok (Some report), log').
Proof.
  intros Hcursor Hmain Ha Hn Hp (HS & HD & (focus_rows & Hfocus & HF) & HQ).
  unfold assemble, cursor. rewrite Hcursor.
  erewrite bind_lift_ok by reflexivity.
  erewrite bind_ok by (unfold cursor_execute; rewrite Hmain; reflexivity).
  cbn [fetchone hd_error].
  destruct main_row as [| c main_row]; [discriminate |].
  erewrite bind_lift_ok by exact Ha.
  erewrite bind_lift_ok by exact Hn.
  erewrite bind_lift_ok by exact Hp.
  match goal with
  | |- context [bind (column _ _ _ _) _ ?l] =>
      destruct (column_answers l HS) as (S & HS')
  end.
  erewrite bind_ok by exact HS'.
  match goal with
  | |- context [bind (column _ _ _ _) _ ?l] =>
      destruct (column_answers l HD) as (D & HD')
  end.
  erewrite bind_ok by exact HD'.
  erewrite bind_ok by (unfold cursor_execute; rewrite Hfocus; reflexivity).
  match goal with
  | |- context [bind (fold_each _ _ ?r) _ ?l] =>
      destruct (fold_focus_answers HF r l) as (report1 & log1 & HF')
  end.
  erewrite bind_ok by exact HF'.
  destruct HQ as (detail_rows & Hdetail & HQ).
  erewrite bind_ok by (unfold cursor_execute; rewrite Hdetail; reflexivity).
  match goal with
  | |- context [bind (fold_each _ _ ?r) _ ?l] =>
      destruct (fold_detail_answers HQ r l) as (report2 & HQ')
  end.
  erewrite bind_ok by exact HQ'.
  exists report2. eexists. reflexivity.
Qed.

End AssemblerFacts.

(** ** The claims about the assembler *)

Section Assembling.
Import Assembled.
Local Open Scope list_scope.

Variable cursor_error : option exn.
Variable execute : string -> pyval -> exc (list row).

(** C3: when the root query returns no row, the assembler returns [None]
    at once: the root query is the only one it has issued, and it shows no
    dialog. *)
Theorem no_root_row_not_found (analysis_id : Z) (w : world) :
  cursor_error = None ->
  execute main_sql (VInt analysis_id) = Ok [] ->
  fetch_combined_analysis_data cursor_error execute analysis_id w
  = (None,
     {| queries := queries w ++ [(main_sql, VInt analysis_id)];
        dialogs := dialogs w;
        files := files w |}).
Proof.
  intros Hcursor Hmain.
  unfold fetch_combined_analysis_data, assemble, cursor.
  rewrite Hcursor. erewrite bind_lift_ok by reflexivity.
  erewrite bind_ok by (unfold cursor_execute; rewrite Hmain; reflexivity).
  reflexivity.
Qed.

(** C5: when the root row exists and every fetch below it is answered, the
    assembler returns a report whose header holds the agent name, the count
    and the period note of the root row. *)
Theorem header_of_root_row (analysis_id : Z) (w : world)
    (main_row : row) (rest : list row) (a n p : pyval) :
  cursor_error = None ->
  execute main_sql (VInt analysis_id) = Ok (main_row :: rest) ->
  attr main_row "AgentName" = Ok a ->
  attr main_row "NumberOfReportsSuccessfullyAnalyzed" = Ok n ->
  attr main_row "AnalysisPeriodNote" = Ok p ->
  children_answer execute analysis_id ->
  exists report w',
    fetch_combined_analysis_data cursor_error execute analysis_id w
    = (Some report, w')
    /\ dialogs w' = dialogs w
    /\ get report "report_header" (VDict [])
       = Ok (VDict [("agent_name", a);
                    ("number_of_reports_successfully_analyzed", n);
                    ("analysis_period_note", p)]).
Proof.
  intros Hcursor Hmain Ha Hn Hp Hchildren.
  destruct (assemble_answers (queries w) Hcursor Hmain Ha Hn Hp Hchildren)
    as (report & log' & Hassemble).
  exists report, (asked log' w).
  unfold fetch_combined_analysis_data. rewrite Hassemble.
  split; [reflexivity | split; [reflexivity |]].
  apply assemble_inv in Hassemble.
  destruct Hassemble
    as (main_row' & rest' & a' & n' & p' & S & D & F & Q
        & Hmain' & Ha' & Hn' & Hp' & -> & _).
  rewrite Hmain in Hmain'. inversion Hmain'. subst main_row' rest'.
  rewrite Ha in Ha'. rewrite Hn in Hn'. rewrite Hp in Hp'.
  inversion Ha'. inversion Hn'. inversion Hp'. reflexivity.
Qed.

(** C9: a report that the assembler returns is a dict of the three
    sections; its collections are lists; each coaching focus has an area
    and a list of actions; each quality-point detail has the empty string
    as its coaching recommendation. *)
Theorem assembled_report_shape (analysis_id : Z) (w w' : world)
    (report : pyval) :
  fetch_combined_analysis_data cursor_error execute analysis_id w
  = (Some report, w') ->
  exists agent_name number note strengths dev_areas foci details,
    report
    = VDict
        [("report_header",
          VDict [("agent_name", agent_name);
                 ("number_of_reports_successfully_analyzed", number);
                 ("analysis_period_note", note)]);
         ("qualitative_summary_and_coaching_plan",
          VDict [("overall_strengths_observed", VList strengths);
                 ("overall_areas_for_development", VList dev_areas);
                 ("consolidated_coaching_focus", VList foci)]);
         ("detailed_quality_point_analysis", VList details)]
    /\ Forall (fun focus =>
                 exists area actions,
                   focus = VDict [("area", area);
                                  ("specific_actions", VList actions)])
         foci
    /\ Forall (fun detail =>
                 exists quality_point trend,
                   detail
                   = VDict [("quality_point", quality_point);
                            ("trend_observation", trend);
                            ("coaching_recommendation_for_point", VStr "")])
         details.
Proof.
  unfold fetch_combined_analysis_data. intros H.
  destruct (assemble cursor_error execute analysis_id (queries w))
    as [[result | e] log'] eqn:Hassemble; [| discriminate].
  inversion H. subst result. apply assemble_inv in Hassemble.
  destruct Hassemble
    as (main_row & rest & a & n & p & S & D & F & Q & _ & _ & _ & _ & -> & HF & HQ).
  exists a, n, p, S, D, F, Q. split; [reflexivity |]. split; assumption.
Qed.

End Assembling.

(** ** Faults *)

Section Faults.
Local Open Scope list_scope.

Variable repr : pyval -> string.
Variable docx_text : pyval -> exc string.
Variable save_error : string -> document -> option exn.
Variable cursor_error : option exn.
Variable execute : string -> pyval -> exc (list row).

(** C8: neither operation lets a fault out.  The assembler turns an
    exception of the cursor or of a query into [None] and one dialog that
    carries its text, and issues no query after it; the renderer turns an
    exception of the building or of the save into [False] and one dialog
    that carries its text, and returns [True] only with the document
    saved. *)
Theorem faults_become_failures :
  (forall analysis_id w,
     let result :=
       fetch_combined_analysis_data cursor_error execute analysis_id w in
     exists new,
       queries (snd result) = queries w ++ new
       /\ files (snd result) = files w
       /\ (forall sql param e,
             In (sql, param) new -> execute sql param = Raise e ->
             fst result = None
             /\ dialogs (snd result) = dialogs w ++ [query_error e]
             /\ exists before, new = before ++ [(sql, param)])
       /\ (forall e,
             cursor_error = Some e ->
             fst result = None /\ new = []
             /\ dialogs (snd result) = dialogs w ++ [query_error e])
       /\ (fst result = None ->
           dialogs (snd result) = dialogs w
           \/ exists e, dialogs (snd result) = dialogs w ++ [query_error e])
       /\ (forall report,
             fst result = Some report -> dialogs (snd result) = dialogs w))
  /\ (forall json_data docx_filepath w,
        let result :=
          generate_docx_from_combined_json repr docx_text save_error
            json_data docx_filepath w in
        queries (snd result) = queries w
        /\ (fst result = true ->
            dialogs (snd result) = dialogs w
            /\ exists doc,
                 build_document repr docx_text json_data [] = (Ok tt, doc)
                 /\ save_error docx_filepath doc = None
                 /\ files (snd result) = files w ++ [(docx_filepath, doc)])
        /\ (fst result = false ->
            files (snd result) = files w
            /\ exists e,
                 dialogs (snd result) = dialogs w ++ [docx_error e]
                 /\ (fst (build_document repr docx_text json_data [])
                     = Raise e
                     \/ exists doc,
                          build_document repr docx_text json_data []
                          = (Ok tt, doc)
                          /\ save_error docx_filepath doc = Some e))
        /\ ((forall d, json_data <> VDict d) ->
            result = (false,
                      showerror "DOCX Generation Error"
                        ("Failed to generate the .docx file:" ++ newline
                           ++ attribute_error json_data "get")%string w))).
Proof.
  split.
  - intros analysis_id w result. subst result.
    unfold fetch_combined_analysis_data.
    destruct (traced_assemble cursor_error execute analysis_id (queries w))
      as (new & Hlog & Hraise).
    assert (Hcursor : forall e, cursor_error = Some e ->
              assemble cursor_error execute analysis_id (queries w)
              = (Raise e, queries w)).
    { intros e He. unfold assemble, cursor. rewrite He. reflexivity. }
    destruct (assemble cursor_error execute analysis_id (queries w))
      as [[r | e] log'] eqn:Hassemble; simpl in Hlog, Hraise; subst log';
      exists new; simpl.
    + split; [reflexivity |]. split; [reflexivity |]. split; [| split; [| split]].
      * intros sql param e Hin Hex.
        destruct (Hraise _ _ _ Hin Hex) as [Habs _]. discriminate.
      * intros e He. specialize (Hcursor _ He). discriminate.
      * intros _. left. reflexivity.
      * intros report _. reflexivity.
    + split; [reflexivity |]. split; [reflexivity |]. split; [| split; [| split]].
      * intros sql param e' Hin Hex.
        destruct (Hraise _ _ _ Hin Hex) as [Hres Hlast].
        inversion Hres. subst e'. repeat split. exact Hlast.
      * intros e' He. specialize (Hcursor _ He). inversion Hcursor as [[He' Hnew]].
        repeat split. symmetry in Hnew.
        rewrite <- (app_nil_r (queries w)) in Hnew at 1.
        apply app_inv_head in Hnew. symmetry. exact Hnew.
      * intros _. right. exists e. reflexivity.
      * intros report H. discriminate.
  - intros json_data docx_filepath w result. subst result.
    unfold generate_docx_from_combined_json, bind, save.
    split; [| split; [| split]].
    + destruct (build_document repr docx_text json_data []) as [[u | e] doc];
        [destruct (save_error docx_filepath doc) |]; reflexivity.
    + destruct (build_document repr docx_text json_data []) as [[[] | e] doc];
        [destruct (save_error docx_filepath doc) eqn:Hsave |]; simpl;
        try discriminate.
      intros _. split; [reflexivity |]. exists doc. repeat split. exact Hsave.
    + destruct (build_document repr docx_text json_data []) as [[[] | e] doc];
        [destruct (save_error docx_filepath doc) as [e |] eqn:Hsave |]; simpl;
        try discriminate; intros _; (split; [reflexivity |]); exists e;
        (split; [reflexivity |]).
      * right. exists doc. split; [reflexivity | exact Hsave].
      * left. reflexivity.
    + intros Hshape.
      destruct json_data as [| z | s | l | d]; try reflexivity.
      exfalso. exact (Hshape d eq_refl).
Qed.

End Faults.

(** ** The scenario of the specification *)

Lemma scenario_encode : Shape.encode Scenario.shaped = Scenario.report.
Proof. reflexivity. Qed.

Lemma scenario_assembled :
  fst (fetch_combined_analysis_data None Scenario.execute 42 Scenario.start)
  = Some Scenario.report.
Proof. reflexivity. Qed.

(** Analysis 42 renders with one focus heading and one action below it. *)
Lemma coaching_plan_counts_witness :
  exists doc,
    generate_docx_from_combined_json Scenario.repr Scenario.docx_text
      Scenario.save_error (Shape.encode Scenario.shaped) "report.docx"
      Scenario.start
    = (true, written "report.docx" doc Scenario.start)
    /\ length (Read.styled (Some "Heading 3") doc) = 1%nat
    /\ map (fun s => length (snd s)) (Read.focus_sections doc) = [1%nat]
    /\ Read.focus_sections doc = [("Hold Procedure", ["Confirm before hold"])].
Proof.
  refine (@coaching_plan_counts Scenario.repr Scenario.docx_text
            Scenario.save_error _ "report.docx" _ Scenario.shaped
            Scenario.start).
  - intros s. reflexivity.
  - intros doc. reflexivity.
Defined.

(** Analysis 42, whose development areas are empty, renders with the three
    other headings. *)
Lemma empty_sections_omitted_witness :
  exists doc,
    generate_docx_from_combined_json Scenario.repr Scenario.docx_text
      Scenario.save_error (Shape.encode Scenario.shaped) "report.docx"
      Scenario.start
    = (true, written "report.docx" doc Scenario.start)
    /\ Read.headings 2 doc
       = ["Key Strengths & Consistent Positive Performance";
          "Consolidated Coaching & Development Plan";
          "Detailed Quality Point Analysis"]
    /\ Read.styled (Some "ListBullet") doc = ["Clear tone"]
    /\ length (Read.focus_sections doc) = 1%nat
    /\ length (Read.tables doc) = 1%nat
    /\ length (Read.recommendation_cells doc) = 1%nat.
Proof.
  refine (@empty_sections_omitted Scenario.repr Scenario.docx_text
            Scenario.save_error _ "report.docx" _ Scenario.shaped
            Scenario.start).
  - intros s. reflexivity.
  - intros doc. reflexivity.
Defined.

(** The recommendation cell of analysis 42 shows the empty string that the
    detail holds. *)
Lemma recommendation_cell_default_witness :
  exists doc,
    generate_docx_from_combined_json Scenario.repr Scenario.docx_text
      Scenario.save_error (Shape.encode Scenario.shaped) "report.docx"
      Scenario.start
    = (true, written "report.docx" doc Scenario.start)
    /\ Read.recommendation_cells doc = [""].
Proof.
  refine (@recommendation_cell_default Scenario.repr Scenario.docx_text
            Scenario.save_error _ "report.docx" _ Scenario.shaped
            Scenario.start).
  - intros s. reflexivity.
  - intros doc. reflexivity.
Defined.

(** The summary paragraph of analysis 42. *)
Lemma summary_paragraph_witness :
  exists doc,
    generate_docx_from_combined_json Scenario.repr Scenario.docx_text
      Scenario.save_error (Shape.encode Scenario.shaped) "report.docx"
      Scenario.start
    = (true, written "report.docx" doc Scenario.start)
    /\ nth_error doc 1
       = Some (Paragraph None
                 [plain_run "Analysis based on 12 calls. Period: Q1 2024"]).
Proof.
  refine (@summary_paragraph Scenario.repr Scenario.docx_text
            Scenario.save_error _ "report.docx" _ Scenario.shaped
            Scenario.start).
  - intros s. reflexivity.
  - intros doc. reflexivity.
Defined.

(** A report with the strengths alone renders as the filled report. *)
Lemma missing_sections_witness :
  generate_docx_from_combined_json Scenario.repr Scenario.docx_text
    Scenario.save_error (Shape.encode Scenario.strengths_only) "report.docx"
    Scenario.start
  = generate_docx_from_combined_json Scenario.repr Scenario.docx_text
      Scenario.save_error (Shape.encode (Shape.fill Scenario.strengths_only))
      "report.docx" Scenario.start.
Proof.
  refine (proj1 (@missing_sections Scenario.repr Scenario.docx_text
                   Scenario.save_error _ "report.docx" _
                   Scenario.strengths_only Scenario.start)).
  - intros s. reflexivity.
  - intros doc. reflexivity.
Defined.

(** Analysis 43 has no root row. *)
Lemma no_root_row_not_found_witness :
  fetch_combined_analysis_data None Scenario.execute 43 Scenario.start
  = (None,
     {| queries := [(main_sql, VInt 43)]; dialogs := []; files := [] |}).
Proof.
  apply (@no_root_row_not_found None Scenario.execute 43 Scenario.start);
    reflexivity.
Defined.

(** The header of analysis 42. *)
Lemma header_of_root_row_witness :
  exists report w',
    fetch_combined_analysis_data None Scenario.execute 42 Scenario.start
    = (Some report, w')
    /\ dialogs w' = []
    /\ get report "report_header" (VDict [])
       = Ok (VDict [("agent_name", VStr "J. Smith");
                    ("number_of_reports_successfully_analyzed", VInt 12);
                    ("analysis_period_note", VStr "Q1 2024")]).
Proof.
  refine (@header_of_root_row None Scenario.execute 42 Scenario.start
           [("CombinedAnalysisID", VInt 42); ("AgentID", VInt 7);
            ("NumberOfReportsSuccessfullyAnalyzed", VInt 12);
            ("AnalysisPeriodNote", VStr "Q1 2024");
            ("AgentName", VStr "J. Smith")]
           [] (VStr "J. Smith") (VInt 12) (VStr "Q1 2024")
           eq_refl eq_refl eq_refl eq_refl eq_refl _).
  unfold Assembled.children_answer, Assembled.answers. repeat split.
  - eexists. split; [reflexivity |]. repeat constructor.
  - eexists. split; [reflexivity |]. constructor.
  - eexists. split; [reflexivity |]. constructor; [| constructor].
    split; [reflexivity |]. exists (VInt 5). split; [reflexivity |].
    eexists. split; [reflexivity |]. repeat constructor.
  - eexists. split; [reflexivity |]. repeat constructor.
Defined.

(** Analysis 42 has the shape of every assembled report. *)
Lemma assembled_report_shape_witness :
  exists agent_name number note strengths dev_areas foci details,
    Scenario.report
    = VDict
        [("report_header",
          VDict [("agent_name", agent_name);
                 ("number_of_reports_successfully_analyzed", number);
                 ("analysis_period_note", note)]);
         ("qualitative_summary_and_coaching_plan",
          VDict [("overall_strengths_observed", VList strengths);
                 ("overall_areas_for_development", VList dev_areas);
                 ("consolidated_coaching_focus", VList foci)]);
         ("detailed_quality_point_analysis", VList details)]
    /\ Forall (fun focus =>
                 exists area actions,
                   focus = VDict [("area", area);
                                  ("specific_actions", VList actions)])
         foci
    /\ Forall (fun detail =>
                 exists quality_point trend,
                   detail
                   = VDict [("quality_point", quality_point);
                            ("trend_observation", trend);
                            ("coaching_recommendation_for_point", VStr "")])
         details.
Proof.
  apply (@assembled_report_shape None Scenario.execute 42 Scenario.start
           (snd (fetch_combined_analysis_data None Scenario.execute 42
                   Scenario.start))
           Scenario.report).
  reflexivity.
Defined.

(** A connection lost after the root row: the strengths query raises, the
    assembler returns [None] and shows the cause. *)
Lemma faults_become_failures_witness :
  fst (fetch_combined_analysis_data None Scenario.execute_lost 42
         Scenario.start) = None
  /\ dialogs (snd (fetch_combined_analysis_data None Scenario.execute_lost 42
                     Scenario.start))
     = [query_error "Communication link failure"].
Proof.
  destruct (proj1 (faults_become_failures Scenario.repr Scenario.docx_text
                     Scenario.save_error None Scenario.execute_lost)
              42%Z Scenario.start) as (new & Hlog & _ & Hraise & _).
  destruct (Hraise strengths_sql (VInt 42) "Communication link failure")
    as (Hnone & Hdialogs & _).
  - change (queries Scenario.start ++ new)%list with new in Hlog.
    rewrite <- Hlog. vm_compute. right. left. reflexivity.
  - reflexivity.
  - split; [exact Hnone | exact Hdialogs].
Defined.

(** C2 as stated fails on analysis 42: the assembler gives its detail the
    empty string as coaching recommendation, and the rendered cell is
    empty, not "N/A". *)
Lemma recommendation_cell_is_empty :
  fst (fetch_combined_analysis_data None Scenario.execute 42 Scenario.start)
  = Some Scenario.report
  /\ fst (generate_docx_from_combined_json Scenario.repr Scenario.docx_text
            Scenario.save_error Scenario.report "report.docx" Scenario.start)
     = true
  /\ map (fun file => Read.recommendation_cells (snd file))
       (files (snd (generate_docx_from_combined_json Scenario.repr
                      Scenario.docx_text Scenario.save_error Scenario.report
                      "report.docx" Scenario.start)))
     = [[""]]
  /\ "" <> "N/A".
Proof. repeat split. discriminate. Qed.

(** C6 as stated fails on a header whose count is [None] and whose note is
    the empty string: the summary paragraph prints "None" and nothing, not
    "N/A". *)
Lemma summary_prints_none_and_empty :
  fst (generate_docx_from_combined_json Scenario.repr Scenario.docx_text
         Scenario.save_error Scenario.blank_header "report.docx"
         Scenario.start)
  = true
  /\ map (fun file => nth_error (snd file) 1)
       (files (snd (generate_docx_from_combined_json Scenario.repr
                      Scenario.docx_text Scenario.save_error
                      Scenario.blank_header "report.docx" Scenario.start)))
     = [Some (Paragraph None
                [plain_run "Analysis based on None calls. Period: "])]
  /\ "Analysis based on None calls. Period: "
     <> "Analysis based on N/A calls. Period: N/A".
Proof. repeat split. discriminate. Qed.

(** * Further properties *)

(** ** The styling function *)

Lemma lower_empty (s : string) : lower s = "" -> s = "".
Proof. destruct s; [reflexivity | discriminate]. Qed.

(** X1: styling a run a second time with the same finding changes nothing
    more: a call that returns leaves a run on which the same call returns
    that run. *)
Theorem finding_style_idempotent (r r1 : run) (finding_text : pyval) :
  _apply_finding_color_to_run r finding_text = Ok r1 ->
  _apply_finding_color_to_run r1 finding_text = Ok r1.
Proof.
  unfold _apply_finding_color_to_run.
  destruct (truthy finding_text); cbn [negb].
  - destruct finding_text as [| z | s | l | d]; try discriminate.
    intros H. inversion H as [H1]. clear H. destruct r as [text bold color].
    destruct (lower s =? "positive"); [reflexivity |].
    destruct (lower s =? "negative"); [reflexivity |].
    destruct (lower s =? "neutral"); reflexivity.
  - intros H. inversion H. reflexivity.
Qed.

Lemma finding_style_idempotent_witness :
  _apply_finding_color_to_run
    (set_bold true (set_color dark_green (plain_run "Positive")))
    (VStr "Positive")
  = Ok (set_bold true (set_color dark_green (plain_run "Positive"))).
Proof.
  apply (@finding_style_idempotent (plain_run "Positive")). reflexivity.
Defined.

(** X2: the styling depends on the finding only up to case, and it never
    changes the text of the run. *)
Theorem finding_style_up_to_case (r : run) (s1 s2 : string) :
  lower s1 = lower s2 ->
  _apply_finding_color_to_run r (VStr s1)
  = _apply_finding_color_to_run r (VStr s2)
  /\ exists r',
       _apply_finding_color_to_run r (VStr s1) = Ok r'
       /\ run_text r' = run_text r.
Proof.
  intros H. unfold _apply_finding_color_to_run. rewrite <- H. cbn [truthy].
  assert (Hempty : (s1 =? "") = (s2 =? "")).
  { destruct (String.eqb_spec s1 "") as [E1 | N1];
      destruct (String.eqb_spec s2 "") as [E2 | N2]; try reflexivity; exfalso.
    - subst s1. symmetry in H. apply lower_empty in H. contradiction.
    - subst s2. apply lower_empty in H. contradiction. }
  rewrite <- Hempty. split; [reflexivity |].
  destruct (s1 =? ""); cbn [negb].
  - exists r. split; reflexivity.
  - eexists. split; [reflexivity |].
    destruct (lower s1 =? "positive"); [reflexivity |].
    destruct (lower s1 =? "negative"); [reflexivity |].
    destruct (lower s1 =? "neutral"); reflexivity.
Qed.

Lemma finding_style_up_to_case_witness :
  _apply_finding_color_to_run (plain_run "x") (VStr "NEGATIVE")
  = _apply_finding_color_to_run (plain_run "x") (VStr "Negative").
Proof.
  apply (proj1 (@finding_style_up_to_case (plain_run "x") "NEGATIVE"
                  "Negative" eq_refl)).
Defined.

(** ** The assembler, query by query *)

Section AnsweredFetch.
Import Assembled More.
Local Open Scope list_scope.

Variable execute : string -> pyval -> exc (list row).

Lemma map_each_values name rows vs (log : list query) :
  values name rows = Ok vs ->
  map_each (fun r => lift (attr r name)) rows log = (Ok vs, log).
Proof.
  revert vs. induction rows as [| r rows IH]; intros vs H; cbn [values] in H.
  - inversion H. reflexivity.
  - destruct (attr r name) as [v | e] eqn:Hv; [| discriminate].
    destruct (values name rows) as [vs' | e]; [| discriminate].
    inversion H. subst vs. cbn [map_each].
    erewrite bind_lift_ok by exact Hv.
    erewrite bind_ok by (apply IH; reflexivity). reflexivity.
Qed.

Lemma column_values sql param name rows vs log :
  execute sql param = Ok rows -> values name rows = Ok vs ->
  column execute sql param name log = (Ok vs, log ++ [(sql, param)]).
Proof.
  intros Hex Hvs. unfold column.
  erewrite bind_ok by (unfold cursor_execute; rewrite Hex; reflexivity).
  apply map_each_values. exact Hvs.
Qed.

Lemma fold_focus_exact a n p S D Q focus_rows foci :
  Forall2 (focus_answer execute) focus_rows foci ->
  forall F log,
    fold_each focus_rows (fetch_focus execute) (full_report a n p S D F Q) log
    = (Ok (full_report a n p S D (F ++ map focus_of foci) Q),
       log ++ map actions_query foci).
Proof.
  induction 1 as [| r [[focus_id area] actions] rows foci Hr _ IH];
    intros F log.
  - cbn [fold_each map]. rewrite !app_nil_r. reflexivity.
  - destruct Hr as (Hid & Harea & action_rows & Hex & Hvalues).
    cbn [fold_each]. unfold fetch_focus at 1.
    erewrite bind_ok.
    2:{ erewrite bind_lift_ok by exact Hid.
        erewrite bind_ok by (eapply column_values; eassumption).
        erewrite bind_lift_ok by exact Harea. reflexivity. }
    rewrite append_focus_full, IH. cbn [map].
    rewrite <- !app_assoc. reflexivity.
Qed.

Lemma fold_detail_exact a n p S D F detail_rows details :
  Forall2 detail_answer detail_rows details ->
  forall Q (log : list query),
    fold_each detail_rows fetch_detail (full_report a n p S D F Q) log
    = (Ok (full_report a n p S D F
             (Q ++ map (fun d => detail_value (fst d) (snd d)) details)),
       log).
Proof.
  induction 1 as [| r [q t] rows details Hr _ IH]; intros Q log.
  - cbn [fold_each map]. rewrite app_nil_r. reflexivity.
  - destruct Hr as [Hq Ht]. cbn [fst snd] in Hq, Ht.
    cbn [fold_each]. unfold fetch_detail at 1.
    erewrite bind_ok.
    2:{ erewrite bind_lift_ok by exact Hq.
        erewrite bind_lift_ok by exact Ht. reflexivity. }
    rewrite append_detail_full, IH. cbn [map fst snd].
    rewrite <- app_assoc. reflexivity.
Qed.

Variable analysis_id : Z.
Variables (main_row : row) (rest : list row) (a n p : pyval).
Variables (strength_rows development_rows focus_rows detail_rows : list row).
Variables (S D : list pyval).
Variable foci : list (pyval * pyval * list pyval).
Variable details : list (pyval * pyval).

Hypothesis root_row :
  execute main_sql (VInt analysis_id) = Ok (main_row :: rest).
Hypothesis root_name : attr main_row "AgentName" = Ok a.
Hypothesis root_number :
  attr main_row "NumberOfReportsSuccessfullyAnalyzed" = Ok n.
Hypothesis root_note : attr main_row "AnalysisPeriodNote" = Ok p.
Hypothesis strengths_answer :
  execute strengths_sql (VInt analysis_id) = Ok strength_rows
  /\ values "StrengthText" strength_rows = Ok S.
Hypothesis development_answer :
  execute development_sql (VInt analysis_id) = Ok development_rows
  /\ values "DevelopmentAreaText" development_rows = Ok D.
Hypothesis foci_answer :
  execute focus_sql (VInt analysis_id) = Ok focus_rows
  /\ Forall2 (focus_answer execute) focus_rows foci.
Hypothesis details_answer :
  execute detail_sql (VInt analysis_id) = Ok detail_rows
  /\ Forall2 detail_answer detail_rows details.

Lemma assemble_exact log :
  assemble None execute analysis_id log
  = (Ok (Some (full_report a n p S D (map focus_of foci)
                 (map (fun d => detail_value (fst d) (snd d)) details))),
     log
       ++ [(main_sql, VInt analysis_id); (strengths_sql, VInt analysis_id);
           (development_sql, VInt analysis_id); (focus_sql, VInt analysis_id)]
       ++ map actions_query foci
       ++ [(detail_sql, VInt analysis_id)]).
Proof.
  destruct strengths_answer as [HS HSv].
  destruct development_answer as [HD HDv].
  destruct foci_answer as [HF HFv]. destruct details_answer as [HQ HQv].
  unfold assemble, cursor.
  erewrite bind_lift_ok by reflexivity.
  erewrite bind_ok by (unfold cursor_execute; rewrite root_row; reflexivity).
  cbn [fetchone hd_error].
  destruct main_row as [| c cs]; [discriminate |].
  erewrite bind_lift_ok by exact root_name.
  erewrite bind_lift_ok by exact root_number.
  erewrite bind_lift_ok by exact root_note.
  erewrite bind_ok by (eapply column_values; eassumption).
  erewrite bind_ok by (eapply column_values; eassumption).
  erewrite bind_ok by (unfold cursor_execute; rewrite HF; reflexivity).
  change (new_report a n p S D) with (full_report a n p S D [] []).
  erewrite bind_ok by (apply fold_focus_exact; exact HFv).
  erewrite bind_ok by (unfold cursor_execute; rewrite HQ; reflexivity).
  erewrite bind_ok by (apply fold_detail_exact; exact HQv).
  unfold ret. cbn [app]. rewrite <- !app_assoc. reflexivity.
Qed.

(** X3: the collections of the report are the columns of the rows, in the
    order in which the queries return them: the strengths, the development
    areas, each focus with its own actions, and the details. *)
Theorem collections_in_query_order (w : world) :
  fst (fetch_combined_analysis_data None execute analysis_id w)
  = Some
      (VDict
         [("report_header",
           VDict [("agent_name", a);
                  ("number_of_reports_successfully_analyzed", n);
                  ("analysis_period_note", p)]);
          ("qualitative_summary_and_coaching_plan",
           VDict [("overall_strengths_observed", VList S);
                  ("overall_areas_for_development", VList D);
                  ("consolidated_coaching_focus",
                   VList (map (fun f =>
                                 VDict [("area", snd (fst f));
                                        ("specific_actions", VList (snd f))])
                            foci))]);
          ("detailed_quality_point_analysis",
           VList (map (fun d =>
                         VDict [("quality_point", fst d);
                                ("trend_observation", snd d);
                                ("coaching_recommendation_for_point",
                                 VStr "")])
                    details))]).
Proof.
  unfold fetch_combined_analysis_data. rewrite assemble_exact. reflexivity.
Qed.

(** X4: a successful assembly issues the root query, the strengths, the
    development and the focus queries, then one actions query for each
    focus row with its identifier, then the details query, and no other. *)
Theorem one_actions_query_per_focus (w : world) :
  queries (snd (fetch_combined_analysis_data None execute analysis_id w))
  = queries w
      ++ [(main_sql, VInt analysis_id); (strengths_sql, VInt analysis_id);
          (development_sql, VInt analysis_id); (focus_sql, VInt analysis_id)]
      ++ map (fun f => (actions_sql, fst (fst f))) foci
      ++ [(detail_sql, VInt analysis_id)]
  /\ length (queries (snd (fetch_combined_analysis_data None execute
                             analysis_id w)))
     = (length (queries w) + 5 + length focus_rows)%nat.
Proof.
  unfold fetch_combined_analysis_data. rewrite assemble_exact.
  cbn [snd asked queries]. split; [reflexivity |].
  rewrite !length_app, length_map. cbn [length].
  destruct foci_answer as [_ H]. rewrite (Forall2_length H). lia.
Qed.

End AnsweredFetch.

(** ** What the assembler asks, and what it does on a row without a column *)

Section Asked.
Import Assembled More.
Local Open Scope list_scope.

Variable cursor_error : option exn.
Variable execute : string -> pyval -> exc (list row).

Lemma adds_only_ret P {A} (a : A) : adds_only P (ret a).
Proof. intros log. exists []. simpl. rewrite app_nil_r. split; constructor. Qed.

Lemma adds_only_lift P {A} (x : exc A) : adds_only P (lift x).
Proof. intros log. exists []. simpl. rewrite app_nil_r. split; constructor. Qed.

Lemma adds_only_bind P {A B} (m : M (list query) A)
    (k : A -> M (list query) B) :
  adds_only P m -> (forall a, adds_only P (k a)) -> adds_only P (bind m k).
Proof.
  intros Hm Hk log. destruct (Hm log) as (new1 & Hlog1 & HP1).
  unfold bind. destruct (m log) as [[a | e] log1]; simpl in *.
  - destruct (Hk a log1) as (new2 & Hlog2 & HP2).
    exists (new1 ++ new2). subst log1. rewrite app_assoc.
    split; [exact Hlog2 | apply Forall_app; split; assumption].
  - exists new1. split; assumption.
Qed.

Lemma adds_only_execute (P : query -> Prop) sql param :
  P (sql, param) -> adds_only P (cursor_execute execute sql param).
Proof.
  intros HP log. exists [(sql, param)]. split; [reflexivity |].
  constructor; [exact HP | constructor].
Qed.

Lemma adds_only_map_each P {A B} (f : A -> M (list query) B) l :
  (forall x, adds_only P (f x)) -> adds_only P (map_each f l).
Proof.
  intros Hf. induction l as [| x l IH]; [apply adds_only_ret |].
  cbn [map_each]. apply adds_only_bind; [apply Hf |]. intros y.
  apply adds_only_bind; [exact IH |]. intros ys. apply adds_only_ret.
Qed.

Lemma adds_only_fold_each P {A B} (body : A -> B -> M (list query) B) l :
  (forall x b, adds_only P (body x b)) ->
  forall b, adds_only P (fold_each l body b).
Proof.
  intros Hbody. induction l as [| x l IH]; intros b; [apply adds_only_ret |].
  cbn [fold_each]. apply adds_only_bind; [apply Hbody | exact IH].
Qed.

Lemma adds_only_column P sql param name :
  P (sql, param) -> adds_only P (column execute sql param name).
Proof.
  intros HP. unfold column.
  apply adds_only_bind; [apply adds_only_execute; exact HP |].
  intros rows. apply adds_only_map_each. intros r. apply adds_only_lift.
Qed.

Lemma adds_only_assemble analysis_id :
  adds_only (assembler_query analysis_id)
    (assemble cursor_error execute analysis_id).
Proof.
  assert (Hown : forall sql,
             In sql [main_sql; strengths_sql; development_sql; focus_sql;
                     detail_sql] ->
             assembler_query analysis_id (sql, VInt analysis_id)).
  { intros sql Hin. right. split; [reflexivity | exact Hin]. }
  assert (Hactions : forall param,
             assembler_query analysis_id (actions_sql, param)).
  { intros param. left. reflexivity. }
  unfold assemble.
  apply adds_only_bind; [apply adds_only_lift |]. intros _.
  apply adds_only_bind.
  { apply adds_only_execute, Hown. simpl. tauto. }
  intros main_rows.
  destruct (fetchone main_rows) as [[| c main_row] |];
    try apply adds_only_ret.
  repeat (apply adds_only_bind; [apply adds_only_lift |]; intros ?).
  apply adds_only_bind.
  { apply adds_only_column, Hown. simpl. tauto. }
  intros strengths. apply adds_only_bind.
  { apply adds_only_column, Hown. simpl. tauto. }
  intros dev_areas. apply adds_only_bind.
  { apply adds_only_execute, Hown. simpl. tauto. }
  intros focus_rows. apply adds_only_bind.
  { apply adds_only_fold_each. intros r b. unfold fetch_focus.
    apply adds_only_bind; [apply adds_only_lift |]. intros focus_id.
    apply adds_only_bind; [apply adds_only_column, Hactions |].
    intros actions.
    apply adds_only_bind; [apply adds_only_lift |]. intros area.
    apply adds_only_ret. }
  intros report1. apply adds_only_bind.
  { apply adds_only_execute, Hown. simpl. tauto. }
  intros detail_rows.
  apply adds_only_bind; [| intros report2; apply adds_only_ret].
  apply adds_only_fold_each. intros r b. unfold fetch_detail.
  apply adds_only_bind; [apply adds_only_lift |]. intros q.
  apply adds_only_bind; [apply adds_only_lift |]. intros t.
  apply adds_only_ret.
Qed.

(** X5: whatever the database answers, the assembler sends nothing but its
    six SELECT statements: every query it adds is the actions query, or one
    of the other five with the analysis identifier as parameter; it keeps
    the queries sent before. *)
Theorem only_the_six_selects (analysis_id : Z) (w : world) :
  exists new,
    queries (snd (fetch_combined_analysis_data cursor_error execute
                    analysis_id w))
    = queries w ++ new
    /\ Forall (fun q =>
                 fst q = actions_sql
                 \/ (snd q = VInt analysis_id
                     /\ In (fst q)
                          [main_sql; strengths_sql; development_sql;
                           focus_sql; detail_sql]))
         new.
Proof.
  destruct (adds_only_assemble analysis_id (queries w)) as (new & Hlog & HP).
  exists new. split; [| exact HP].
  unfold fetch_combined_analysis_data.
  destruct (assemble cursor_error execute analysis_id (queries w))
    as [[r | e] log']; exact Hlog.
Qed.

(** X6: a root row that lacks one of the three header columns makes the
    assembly fail on the first of them that is missing: the result is
    [None], the dialog names the column, and no query follows the root
    query. *)
Theorem missing_header_column (analysis_id : Z) (w : world)
    (main_row : row) (rest : list row) (name : string) :
  cursor_error = None ->
  execute main_sql (VInt analysis_id) = Ok (main_row :: rest) ->
  main_row <> [] ->
  find (fun c => negb (has_column c main_row)) header_columns = Some name ->
  fetch_combined_analysis_data cursor_error execute analysis_id w
  = (None,
     {| queries := queries w ++ [(main_sql, VInt analysis_id)];
        dialogs :=
          dialogs w
            ++ [("Database Query Error",
                 ("An error occurred while fetching report details:"
                    ++ newline ++ "'pyodbc.Row' object has no attribute '"
                    ++ name ++ "'")%string)];
        files := files w |}).
Proof.
  intros Hcursor Hmain Hrow Hfind.
  unfold fetch_combined_analysis_data, assemble, cursor.
  rewrite Hcursor. erewrite bind_lift_ok by reflexivity.
  erewrite bind_ok by (unfold cursor_execute; rewrite Hmain; reflexivity).
  cbn [fetchone hd_error].
  destruct main_row as [| c cs]; [contradiction |].
  unfold header_columns in Hfind. cbn [find] in Hfind.
  unfold has_column in Hfind. unfold bind, lift, attr.
  destruct (dict_get (c :: cs) "AgentName");
    [| inversion Hfind; reflexivity].
  destruct (dict_get (c :: cs) "NumberOfReportsSuccessfullyAnalyzed");
    [| inversion Hfind; reflexivity].
  destruct (dict_get (c :: cs) "AnalysisPeriodNote");
    [discriminate | inversion Hfind; reflexivity].
Qed.

End Asked.

(** ** Assembled reports, rendered *)

Section AssembledRendered.
Import Assembled Shape Layout Read More.
Local Open Scope list_scope.

Lemma encode_detail_full d q t :
  encode_detail d = detail_value q t ->
  quality_point d <> None /\ trend_observation d <> None
  /\ coaching_recommendation_for_point d = Some "".
Proof.
  destruct d as [[qs |] [ts |] [cs |]]; unfold encode_detail, detail_value;
    cbn; intros H; inversion H.
  repeat split; discriminate.
Qed.

Lemma encode_focus_full f area actions :
  encode_focus f = focus_value area actions ->
  Shape.area f <> None /\ specific_actions f <> None.
Proof.
  destruct f as [[a |] [l |]]; unfold encode_focus, focus_value; cbn;
    intros H; inversion H.
  split; discriminate.
Qed.

Lemma encode_details_full l Q :
  map encode_detail l = Q -> Forall is_detail Q ->
  Forall (fun d =>
            quality_point d <> None /\ trend_observation d <> None
            /\ coaching_recommendation_for_point d = Some "") l.
Proof.
  intros <- H. induction l as [| d l IH]; [constructor |].
  inversion H as [| x xs (q & t & Hd) Hrest]. subst.
  constructor; [eapply encode_detail_full; exact Hd | apply IH; exact Hrest].
Qed.

Lemma encode_foci_full l F :
  map encode_focus l = F -> Forall is_focus F ->
  Forall (fun f => Shape.area f <> None /\ specific_actions f <> None) l.
Proof.
  intros <- H. induction l as [| f l IH]; [constructor |].
  inversion H as [| x xs (a & acts & Hf) Hrest]. subst.
  constructor; [eapply encode_focus_full; exact Hf | apply IH; exact Hrest].
Qed.

Lemma encode_full_inv r a n p S D F Q :
  encode r = full_report a n p S D F Q ->
  header r = [("agent_name", a);
              ("number_of_reports_successfully_analyzed", n);
              ("analysis_period_note", p)]
  /\ map encode_focus (coaching_foci r) = F
  /\ map encode_detail (details r) = Q.
Proof.
  destruct r as [[h |] [[[ss |] [ds |] [fs |]] |] [ql |]];
    unfold encode, full_report, header, coaching_foci, details; cbn;
    intros H; inversion H.
  repeat split.
Qed.

Variable repr : pyval -> string.
Variable docx_text : pyval -> exc string.
Variable save_error : string -> document -> option exn.
Variable cursor_error : option exn.
Variable execute : string -> pyval -> exc (list row).

Hypothesis text_of_str : forall s, docx_text (VStr s) = Ok s.

Variable path : string.

Hypothesis save_ok : forall doc, save_error path doc = None.

(** X7: a report that the assembler returns has every key that the
    renderer reads, so that rendering it uses none of the defaults "N/A"
    and "Focus Area": the three header fields, the area and the actions of
    every focus and the three fields of every detail are present; rendering
    succeeds, and every cell of the recommendation column is empty. *)
Theorem assembled_report_needs_no_default (r : report) (analysis_id : Z)
    (w w1 : world) :
  fetch_combined_analysis_data cursor_error execute analysis_id w
  = (Some (encode r), w1) ->
  (forall key,
     In key ["agent_name"; "number_of_reports_successfully_analyzed";
             "analysis_period_note"] ->
     dict_get (header r) key <> None)
  /\ Forall (fun f => Shape.area f <> None /\ specific_actions f <> None)
       (coaching_foci r)
  /\ Forall (fun d =>
               quality_point d <> None /\ trend_observation d <> None
               /\ coaching_recommendation_for_point d = Some "")
       (details r)
  /\ exists doc,
       generate_docx_from_combined_json repr docx_text save_error (encode r)
         path w1
       = (true, written path doc w1)
       /\ recommendation_cells doc = map (fun _ => "") (details r).
Proof.
  unfold fetch_combined_analysis_data. intros H.
  destruct (assemble cursor_error execute analysis_id (queries w))
    as [[result | e] log'] eqn:Hassemble; [| discriminate].
  inversion H. subst result. apply assemble_inv in Hassemble.
  destruct Hassemble
    as (main_row & rest & a & n & p & S & D & F & Q
        & _ & _ & _ & _ & Hr & HF & HQ).
  apply encode_full_inv in Hr. destruct Hr as (Hh & HrF & HrQ).
  pose proof (encode_foci_full _ HrF HF) as Hfoci.
  pose proof (encode_details_full _ HrQ HQ) as Hdetails.
  split; [| split; [exact Hfoci | split; [exact Hdetails |]]].
  - intros key Hin. rewrite Hh. simpl in Hin.
    destruct Hin as [<- | [<- | [<- | []]]]; discriminate.
  - exists (layout repr r).
    split; [apply generate_encode; assumption |].
    unfold recommendation_cells. rewrite tables_layout.
    destruct (details r) as [| d l]; [reflexivity |].
    cbn [nonempty]. unfold table_texts. cbn [flat_map tl].
    rewrite app_nil_r, map_map. apply map_ext_in. intros x Hx.
    rewrite Forall_forall in Hdetails.
    destruct (Hdetails x Hx) as (_ & _ & Hc). cbn [nth]. rewrite Hc.
    reflexivity.
Qed.

End AssembledRendered.

(** ** What every saved document is like *)

Section SavedDocuments.
Import More.
Local Open Scope list_scope.

Variable repr : pyval -> string.
Variable docx_text : pyval -> exc string.
Variable save_error : string -> document -> option exn.

Lemma keeps_ret P {A} (a : A) : keeps P (ret a).
Proof. intros doc H. exact H. Qed.

Lemma keeps_lift P {A} (x : exc A) : keeps P (lift x).
Proof. intros doc H. exact H. Qed.

Lemma keeps_bind P {A B} (m : M document A) (k : A -> M document B) :
  keeps P m -> (forall a, keeps P (k a)) -> keeps P (bind m k).
Proof.
  intros Hm Hk doc H. specialize (Hm doc H). unfold bind.
  destruct (m doc) as [[a | e] doc1]; simpl in *.
  - apply Hk. exact Hm.
  - exact Hm.
Qed.

Lemma keeps_for_each P {A} (body : A -> M document unit) l :
  (forall x, keeps P (body x)) -> keeps P (for_each l body).
Proof.
  intros Hbody. induction l as [| x l IH]; [apply keeps_ret |].
  cbn [for_each]. apply keeps_bind; [apply Hbody | intros _; exact IH].
Qed.

Lemma keeps_when P c (body : M document unit) :
  keeps P body -> keeps P (when c body).
Proof. intros H. destruct c; [exact H | apply keeps_ret]. Qed.

Lemma keeps_push (P : block -> Prop) b : P b -> keeps P (push b).
Proof.
  intros Hb doc H. simpl. apply Forall_app. split; [exact H |].
  constructor; [exact Hb | constructor].
Qed.

Lemma plain_run_of text r :
  run_of docx_text text = Ok r ->
  Forall (fun x => run_color x = None) (runs_of r).
Proof.
  unfold run_of. destruct (truthy text).
  - destruct (docx_text text); intros H; inversion H.
    constructor; [reflexivity | constructor].
  - intros H. inversion H. constructor.
Qed.

Lemma keeps_add_paragraph text style :
  keeps plain_block (add_paragraph docx_text text style).
Proof.
  intros doc H. unfold add_paragraph, bind, lift.
  destruct (run_of docx_text text) as [r | e] eqn:Hr; [| exact H].
  apply keeps_push; [| exact H]. simpl. eapply plain_run_of. exact Hr.
Qed.

Lemma keeps_add_heading text level :
  keeps plain_block (add_heading docx_text text level).
Proof.
  unfold add_heading. destruct (level <=? 9)%nat;
    [apply keeps_add_paragraph | apply keeps_lift].
Qed.

Lemma keeps_add_bold_paragraph text :
  keeps plain_block (add_bold_paragraph docx_text text).
Proof.
  intros doc H. unfold add_bold_paragraph, bind, lift.
  destruct (run_of docx_text text) as [r | e] eqn:Hr; [| exact H].
  apply keeps_push; [| exact H]. simpl.
  constructor; [| constructor]. destruct r as [x |]; [| reflexivity].
  apply plain_run_of in Hr. inversion Hr. assumption.
Qed.

Lemma cell_text_plain text c :
  cell_text docx_text text = Ok c -> run_color c = None.
Proof.
  unfold cell_text. destruct (docx_text text); intros H; inversion H.
  reflexivity.
Qed.

Lemma header_row_plain rows :
  Forall plain_cells rows -> Forall plain_cells (snd (header_row docx_text rows)).
Proof.
  intros H. unfold header_row, bind, lift, push.
  destruct (cell_text docx_text (VStr "Quality Point")) as [c0 | e] eqn:H0;
    [| exact H].
  destruct (cell_text docx_text (VStr "Trend Observation")) as [c1 | e] eqn:H1;
    [| exact H].
  destruct (cell_text docx_text (VStr "Coaching Recommendation"))
    as [c2 | e] eqn:H2; [| exact H].
  simpl. apply Forall_app. split; [exact H |].
  apply cell_text_plain in H0, H1, H2.
  constructor; [| constructor]. split; [reflexivity |].
  repeat constructor; assumption.
Qed.

Lemma detail_row_plain item rows :
  Forall plain_cells rows ->
  Forall plain_cells (snd (detail_row docx_text item rows)).
Proof.
  intros H. unfold detail_row, bind, lift, push.
  destruct (get item "quality_point" (VStr "N/A")) as [v0 | e]; [| exact H].
  destruct (cell_text docx_text v0) as [c0 | e] eqn:H0; [| exact H].
  destruct (get item "trend_observation" (VStr "N/A")) as [v1 | e];
    [| exact H].
  destruct (cell_text docx_text v1) as [c1 | e] eqn:H1; [| exact H].
  destruct (get item "coaching_recommendation_for_point" (VStr "N/A"))
    as [v2 | e]; [| exact H].
  destruct (cell_text docx_text v2) as [c2 | e] eqn:H2; [| exact H].
  simpl. apply Forall_app. split; [exact H |].
  apply cell_text_plain in H0, H1, H2.
  constructor; [| constructor]. split; [reflexivity |].
  repeat constructor; assumption.
Qed.

Lemma for_each_rows_plain items : forall rows,
  Forall plain_cells rows ->
  Forall plain_cells (snd (for_each items (detail_row docx_text) rows)).
Proof.
  induction items as [| item items IH]; intros rows H; [exact H |].
  cbn [for_each]. unfold bind.
  pose proof (detail_row_plain item H) as Hrow.
  destruct (detail_row docx_text item rows) as [[u | e] rows1]; simpl in *.
  - apply IH. exact Hrow.
  - exact Hrow.
Qed.

Lemma keeps_add_detail_table detailed_qpa :
  keeps plain_block (add_detail_table docx_text detailed_qpa).
Proof.
  intros doc H. unfold add_detail_table.
  match goal with
  | |- context [match ?m [] with _ => _ end] =>
      assert (Hrows : Forall plain_cells (snd (m []))); [| destruct (m []) as [[u | e] rows]]
  end.
  - unfold bind. pose proof (@header_row_plain [] (Forall_nil _)) as Hh.
    destruct (header_row docx_text []) as [[u | e] rows1]; simpl in *;
      [| exact Hh].
    unfold lift. destruct (iter detailed_qpa) as [items | e]; simpl;
      [| exact Hh].
    apply for_each_rows_plain. exact Hh.
  - apply keeps_push; [exact Hrows | exact H].
  - exact H.
Qed.

Lemma keeps_render_focus area_item :
  keeps plain_block (render_focus docx_text area_item).
Proof.
  unfold render_focus.
  apply keeps_bind; [apply keeps_lift |]. intros area.
  apply keeps_bind; [apply keeps_add_heading |]. intros _.
  apply keeps_bind; [apply keeps_lift |]. intros recommendations.
  apply keeps_when.
  apply keeps_bind; [apply keeps_add_bold_paragraph |]. intros _.
  apply keeps_bind; [apply keeps_lift |]. intros rec_items.
  apply keeps_for_each. intros rec_item. apply keeps_add_paragraph.
Qed.

Lemma keeps_bullets title collection :
  keeps plain_block
    (when (truthy collection)
       (add_heading docx_text (VStr title) 2 ;;;
        items <- lift (iter collection) ;;
        for_each items
          (fun item => add_paragraph docx_text item (Some "ListBullet")))%eff).
Proof.
  apply keeps_when.
  apply keeps_bind; [apply keeps_add_heading |]. intros _.
  apply keeps_bind; [apply keeps_lift |]. intros items.
  apply keeps_for_each. intros item. apply keeps_add_paragraph.
Qed.

Lemma keeps_build_document json_data :
  keeps plain_block (build_document repr docx_text json_data).
Proof.
  unfold build_document.
  apply keeps_bind; [apply keeps_lift |]. intros header.
  apply keeps_bind; [apply keeps_lift |]. intros agent_display_name.
  apply keeps_bind; [apply keeps_add_heading |]. intros _.
  apply keeps_bind; [apply keeps_lift |]. intros number.
  apply keeps_bind; [apply keeps_lift |]. intros note.
  apply keeps_bind; [apply keeps_add_paragraph |]. intros _.
  apply keeps_bind; [apply keeps_lift |]. intros qualitative_summary.
  apply keeps_bind; [apply keeps_lift |]. intros strengths.
  apply keeps_bind; [apply keeps_bullets |]. intros _.
  apply keeps_bind; [apply keeps_lift |]. intros dev_areas.
  apply keeps_bind; [apply keeps_bullets |]. intros _.
  apply keeps_bind; [apply keeps_lift |]. intros coaching_items.
  apply keeps_bind.
  { apply keeps_when.
    apply keeps_bind; [apply keeps_add_heading |]. intros _.
    apply keeps_bind; [apply keeps_lift |]. intros area_items.
    apply keeps_for_each. intros area_item. apply keeps_render_focus. }
  intros _.
  apply keeps_bind; [apply keeps_lift |]. intros detailed_qpa.
  apply keeps_when.
  apply keeps_bind; [apply keeps_add_heading |]. intros _.
  apply keeps_add_detail_table.
Qed.

Lemma plain_blocks_runs doc :
  Forall plain_block doc ->
  Forall (fun r => run_color r = None) (all_runs doc)
  /\ Forall (Forall (fun cells => length cells = 3%nat)) (table_cells doc).
Proof.
  induction 1 as [| b doc Hb _ [IH1 IH2]]; [split; constructor |].
  destruct b as [style runs | style rows]; simpl in *.
  - split; [apply Forall_app; split; assumption | exact IH2].
  - split.
    + apply Forall_app. split; [| exact IH1].
      apply Forall_concat. eapply Forall_impl; [| exact Hb].
      intros cells [_ Hc]. exact Hc.
    + constructor; [| exact IH2].
      eapply Forall_impl; [| exact Hb]. intros cells [Hl _]. exact Hl.
Qed.

(** X8: whatever the input, a document that the renderer saves has no
    coloured run, so the finding colours never reach a report, and every
    row of every table in it has exactly three cells. *)
Theorem saved_documents_are_plain (json_data : pyval)
    (docx_filepath : string) (w : world) (doc : document) :
  generate_docx_from_combined_json repr docx_text save_error json_data
    docx_filepath w
  = (true, written docx_filepath doc w) ->
  Forall (fun r => run_color r = None) (all_runs doc)
  /\ Forall (Forall (fun cells => length cells = 3%nat)) (table_cells doc).
Proof.
  unfold generate_docx_from_combined_json, bind, save. intros H.
  pose proof (@keeps_build_document json_data [] (Forall_nil _)) as Hdoc.
  destruct (build_document repr docx_text json_data []) as [[u | e] doc1];
    [| discriminate].
  destruct (save_error docx_filepath doc1); [discriminate |].
  simpl in Hdoc. inversion H as [Hw]. unfold written in Hw.
  inversion Hw as [Hfiles]. apply app_inv_head in Hfiles.
  inversion Hfiles. subst doc1. apply plain_blocks_runs. exact Hdoc.
Qed.

End SavedDocuments.

(** ** The table and the lead-ins of a rendered report *)

Section TableAndLeadIns.
Import Shape Layout Read More.
Local Open Scope list_scope.

Lemma table_cells_app l1 l2 :
  table_cells (l1 ++ l2) = table_cells l1 ++ table_cells l2.
Proof.
  induction l1 as [| b l1 IH]; [reflexivity |].
  destruct b; simpl; rewrite IH; reflexivity.
Qed.

Lemma table_cells_paragraphs l : Forall is_paragraph l -> table_cells l = [].
Proof.
  induction 1 as [| b l Hb _ IH]; [reflexivity |].
  destruct b; [exact IH | contradiction].
Qed.

Lemma bold_paragraphs_app l1 l2 :
  bold_paragraphs (l1 ++ l2) = bold_paragraphs l1 ++ bold_paragraphs l2.
Proof.
  induction l1 as [| b l1 IH]; [reflexivity |].
  destruct b as [style runs | style rows]; simpl; [| exact IH].
  destruct (existsb _ runs); simpl; rewrite IH; reflexivity.
Qed.

Lemma bold_text_paragraph style s rest :
  bold_paragraphs (text_paragraph style s :: rest) = bold_paragraphs rest.
Proof. unfold text_paragraph. destruct (s =? ""); reflexivity. Qed.

Lemma bold_text_paragraphs style l rest :
  bold_paragraphs (map (text_paragraph style) l ++ rest) = bold_paragraphs rest.
Proof.
  induction l as [| s l IH]; [reflexivity |].
  cbn [map app]. rewrite bold_text_paragraph. exact IH.
Qed.

Lemma bold_lead_in s rest :
  bold_paragraphs (Paragraph None [set_bold true (plain_run s)] :: rest)
  = s :: bold_paragraphs rest.
Proof. reflexivity. Qed.

Lemma bold_foci l rest :
  bold_paragraphs (flat_map focus_blocks l ++ rest)
  = lead_ins l ++ bold_paragraphs rest.
Proof.
  induction l as [| f l IH]; [reflexivity |].
  cbn [flat_map]. unfold focus_blocks at 1. rewrite <- app_assoc.
  cbn [app]. rewrite bold_text_paragraph.
  unfold focus_body, lead_ins, nonempty. cbn [filter].
  destruct (actions f) as [| x acts].
  - cbn [app]. exact IH.
  - cbn [app map].
    rewrite bold_lead_in, bold_text_paragraph, bold_text_paragraphs, IH.
    reflexivity.
Qed.

Lemma bold_section title present body rest :
  bold_paragraphs (section title present body ++ rest)
  = if present then bold_paragraphs (body ++ rest) else bold_paragraphs rest.
Proof.
  unfold section. destruct present; [| reflexivity].
  cbn [app]. apply bold_text_paragraph.
Qed.

Variable repr : pyval -> string.
Variable docx_text : pyval -> exc string.
Variable save_error : string -> document -> option exn.

Hypothesis text_of_str : forall s, docx_text (VStr s) = Ok s.

Variable path : string.

Hypothesis save_ok : forall doc, save_error path doc = None.

Lemma table_cells_layout r :
  table_cells (layout repr r)
  = if nonempty (details r)
    then [header_cells :: map detail_cells (details r)] else [].
Proof.
  unfold layout. rewrite !table_cells_app.
  rewrite (table_cells_paragraphs (l := [_; _])) by (repeat constructor).
  rewrite !(table_cells_paragraphs (l := section _ _ (map _ _)))
    by apply is_paragraph_section, is_paragraph_texts.
  rewrite (table_cells_paragraphs (l := section _ _ (flat_map _ _)))
    by apply is_paragraph_section, is_paragraph_foci.
  unfold section. destruct (nonempty (details r)); reflexivity.
Qed.

Lemma bold_paragraphs_layout r :
  bold_paragraphs (layout repr r) = lead_ins (coaching_foci r).
Proof.
  unfold layout. cbn [app]. rewrite !bold_text_paragraph.
  rewrite bold_section, bold_text_paragraphs, bold_section.
  rewrite bold_text_paragraphs, bold_section, bold_foci.
  rewrite <- (app_nil_r (section "Detailed Quality Point Analysis" _ _)).
  rewrite bold_section. cbn [app bold_paragraphs].
  destruct (nonempty (strengths r)), (nonempty (dev_areas r)),
    (nonempty (details r)); rewrite ?app_nil_r;
    (destruct (coaching_foci r) as [| f l]; reflexivity).
Qed.

(** X9: the document of a report has at most one table; the table has one
    row more than the report has details; its first row holds the three
    column titles in bold, and no cell below it is bold. *)
Theorem table_header_and_rows r w :
  exists doc,
    generate_docx_from_combined_json repr docx_text save_error (encode r) path w
    = (true, written path doc w)
    /\ (length (table_cells doc) <= 1)%nat
    /\ forall rows,
         In rows (table_cells doc) ->
         length rows = Datatypes.S (length (details r))
         /\ map run_text (hd [] rows)
            = ["Quality Point"; "Trend Observation"; "Coaching Recommendation"]
         /\ Forall (fun c => run_bold c = Some true) (hd [] rows)
         /\ Forall (Forall (fun c => run_bold c = None)) (tl rows).
Proof.
  exists (layout repr r).
  split; [apply generate_encode; assumption |].
  rewrite table_cells_layout.
  destruct (nonempty (details r)); [| split; [simpl; lia | intros rows []]].
  split; [simpl; lia |]. intros rows [<- | []]. cbn [hd tl length].
  rewrite length_map. split; [reflexivity |]. split; [reflexivity |].
  split; [repeat constructor |].
  induction (details r) as [| d l IH]; [constructor |].
  constructor; [repeat constructor | exact IH].
Qed.

(** X10: the only paragraphs with a bold run are the lead-ins "Actionable
    Recommendations:", one for each coaching focus that has an action and
    none for a focus without actions. *)
Theorem one_lead_in_per_focus_with_actions r w :
  exists doc,
    generate_docx_from_combined_json repr docx_text save_error (encode r) path w
    = (true, written path doc w)
    /\ bold_paragraphs doc
       = map (fun _ => "Actionable Recommendations:")
           (filter (fun f => match actions f with
                             | [] => false
                             | _ :: _ => true
                             end) (coaching_foci r)).
Proof.
  exists (layout repr r).
  split; [apply generate_encode; assumption |].
  apply bold_paragraphs_layout.
Qed.

End TableAndLeadIns.

(** ** Collections that are not lists *)

Section RawCollections.
Import Shape Layout Read More.
Local Open Scope list_scope.

Variable repr : pyval -> string.
Variable docx_text : pyval -> exc string.
Variable save_error : string -> document -> option exn.

Hypothesis text_of_str : forall s, docx_text (VStr s) = Ok s.

Variable path : string.

Hypothesis save_ok : forall doc, save_error path doc = None.

(** The input: a dict [d] whose header is the dict [h] (or is missing, and
    [h] is empty) and whose summary is the dict [q] (or is missing). *)
Variables d h q : list (string * pyval).

Hypothesis header_dict :
  get (VDict d) "report_header" (VDict []) = Ok (VDict h).
Hypothesis summary_dict :
  get (VDict d) "qualitative_summary_and_coaching_plan" (VDict [])
  = Ok (VDict q).

Lemma get_falsy entries key :
  falsy_at entries key ->
  exists v, get (VDict entries) key (VList []) = Ok v /\ truthy v = false.
Proof.
  intros H. unfold get. destruct (dict_get entries key) as [v |] eqn:E.
  - exists v. split; [reflexivity | exact (H v E)].
  - exists (VList []). split; reflexivity.
Qed.

Lemma skip_falsy {S} entries key (body : pyval -> M S unit)
    (rest : M S unit) s :
  falsy_at entries key ->
  (v <- lift (get (VDict entries) key (VList [])) ;;
   when (truthy v) (body v) ;;; rest)%eff s
  = rest s.
Proof.
  intros H. destruct (get_falsy H) as (v & Hv & Hf).
  erewrite bind_lift_ok by exact Hv. rewrite Hf. reflexivity.
Qed.

Lemma build_opening :
  forall k : M document unit,
    (header <- lift (get (VDict d) "report_header" (VDict [])) ;;
     agent_display_name <- lift (get header "agent_name" (VStr "N/A")) ;;
     add_heading docx_text
       (VStr ("Performance Trend Analysis & Coaching Report: "
                ++ str repr agent_display_name)%string) 1 ;;;
     number <- lift (get header "number_of_reports_successfully_analyzed"
                       (VStr "N/A")) ;;
     note <- lift (get header "analysis_period_note" (VStr "N/A")) ;;
     add_paragraph docx_text
       (VStr ("Analysis based on " ++ str repr number ++ " calls. Period: "
                ++ str repr note)%string) None ;;;
     k)%eff []
    = k (opening repr h).
Proof.
  intros k.
  erewrite bind_lift_ok by exact header_dict.
  erewrite bind_lift_ok
    by (exact (eq_refl (Ok (field_value h "agent_name")))).
  erewrite bind_ok by (apply add_heading_str; [exact text_of_str | reflexivity]).
  erewrite bind_lift_ok
    by (exact (eq_refl (Ok (field_value h
                              "number_of_reports_successfully_analyzed")))).
  erewrite bind_lift_ok
    by (exact (eq_refl (Ok (field_value h "analysis_period_note")))).
  erewrite bind_ok by (apply add_paragraph_str; exact text_of_str).
  rewrite !str_field_value. reflexivity.
Qed.

(** X11: a collection whose value is falsy without being a list ([None],
    zero, the empty string, an empty dict) is skipped as an empty list is:
    when the four collections are missing or falsy, the saved document is
    the heading and the summary paragraph alone. *)
Theorem falsy_collections_are_skipped (w : world) :
  (forall key,
     In key ["overall_strengths_observed"; "overall_areas_for_development";
             "consolidated_coaching_focus"] ->
     forall v, dict_get q key = Some v -> truthy v = false) ->
  (forall v,
     dict_get d "detailed_quality_point_analysis" = Some v ->
     truthy v = false) ->
  generate_docx_from_combined_json repr docx_text save_error (VDict d) path w
  = (true,
     written path
       [text_paragraph (Some "Heading 1")
          ("Performance Trend Analysis & Coaching Report: "
             ++ field repr h "agent_name")%string;
        text_paragraph None
          ("Analysis based on "
             ++ field repr h "number_of_reports_successfully_analyzed"
             ++ " calls. Period: "
             ++ field repr h "analysis_period_note")%string]
       w).
Proof.
  intros Hq Hd.
  unfold generate_docx_from_combined_json, build_document.
  erewrite bind_ok; [unfold save; rewrite save_ok; reflexivity |].
  rewrite build_opening.
  erewrite bind_lift_ok by exact summary_dict.
  rewrite skip_falsy by (intros v; apply Hq; simpl; tauto).
  rewrite skip_falsy by (intros v; apply Hq; simpl; tauto).
  rewrite skip_falsy by (intros v; apply Hq; simpl; tauto).
  destruct (get_falsy Hd) as (v & Hv & Hf).
  erewrite bind_lift_ok by exact Hv. rewrite Hf. reflexivity.
Qed.

Lemma bind_raise {S A B} (m : M S A) (k : A -> M S B) s e s' :
  m s = (Raise e, s') -> bind m k s = (Raise e, s').
Proof. intros H. unfold bind. rewrite H. reflexivity. Qed.

(** X12: a truthy value that cannot be iterated (a number other than zero)
    in the place of the list of strengths makes the rendering fail: the
    renderer returns [False], shows the text of the exception and saves
    nothing. *)
Theorem non_iterable_collection_fails (w : world) (v : pyval) (e : exn) :
  dict_get q "overall_strengths_observed" = Some v ->
  truthy v = true ->
  iter v = Raise e ->
  generate_docx_from_combined_json repr docx_text save_error (VDict d) path w
  = (false,
     {| queries := queries w;
        dialogs :=
          dialogs w
            ++ [("DOCX Generation Error",
                 ("Failed to generate the .docx file:" ++ newline ++ e)%string)];
        files := files w |}).
Proof.
  intros Hv Ht Hi.
  unfold generate_docx_from_combined_json, build_document.
  erewrite bind_raise; [reflexivity |].
  rewrite build_opening.
  erewrite bind_lift_ok by exact summary_dict.
  erewrite bind_lift_ok by (unfold get; rewrite Hv; reflexivity).
  rewrite Ht. cbn [when].
  erewrite bind_raise; [reflexivity |].
  erewrite bind_ok
    by (apply add_heading_str; [exact text_of_str | reflexivity]).
  unfold bind, lift. rewrite Hi. reflexivity.
Qed.

(** X13: a str in the place of the list of strengths is rendered letter by
    letter: the section has one bullet for each character of the string. *)
Theorem string_collection_is_split (w : world) (s : string) :
  s <> "" ->
  dict_get q "overall_strengths_observed" = Some (VStr s) ->
  (forall key,
     In key ["overall_areas_for_development"; "consolidated_coaching_focus"] ->
     forall v, dict_get q key = Some v -> truthy v = false) ->
  (forall v,
     dict_get d "detailed_quality_point_analysis" = Some v ->
     truthy v = false) ->
  exists doc,
    generate_docx_from_combined_json repr docx_text save_error (VDict d) path w
    = (true, written path doc w)
    /\ headings 2 doc = ["Key Strengths & Consistent Positive Performance"]
    /\ styled (Some "ListBullet") doc
       = map (fun c => String c "") (list_ascii_of_string s).
Proof.
  intros Hs Hv Hq Hd.
  exists (opening repr h
            ++ [text_paragraph (Some "Heading 2")
                  "Key Strengths & Consistent Positive Performance"]
            ++ map (text_paragraph (Some "ListBullet"))
                 (map (fun c => String c "") (list_ascii_of_string s))).
  split.
  - unfold generate_docx_from_combined_json, build_document.
    erewrite bind_ok; [unfold save; rewrite save_ok; reflexivity |].
    rewrite build_opening.
    erewrite bind_lift_ok by exact summary_dict.
    erewrite bind_lift_ok by (unfold get; rewrite Hv; reflexivity).
    apply String.eqb_neq in Hs. cbn [truthy]. rewrite Hs. cbn [negb when].
    erewrite bind_ok.
    2:{ erewrite bind_ok
          by (apply add_heading_str; [exact text_of_str | reflexivity]).
        erewrite bind_lift_ok by reflexivity.
        rewrite <- (map_map (fun c => String c "") VStr).
        apply for_each_paragraphs. exact text_of_str. }
    rewrite skip_falsy by (intros v; apply Hq; simpl; tauto).
    rewrite skip_falsy by (intros v; apply Hq; simpl; tauto).
    destruct (get_falsy Hd) as (v & Hget & Hf).
    erewrite bind_lift_ok by exact Hget. rewrite Hf.
    unfold when, ret. rewrite <- app_assoc. reflexivity.
  - unfold headings, opening.
    change (Some ("Heading " ++ NilZero.string_of_uint (Nat.to_uint 2))%string)
      with (Some "Heading 2").
    change [text_paragraph (Some "Heading 1") (title_line repr h);
            text_paragraph None (summary_line repr h)]
      with ([text_paragraph (Some "Heading 1") (title_line repr h)]
              ++ [text_paragraph None (summary_line repr h)]).
    rewrite !styled_app, !styled_text_paragraph.
    rewrite styled_paragraphs_other by reflexivity.
    rewrite styled_paragraphs_same. split; reflexivity.
Qed.

End RawCollections.

(** ** The download button *)

Section Download.
Import Tk App Shape Layout Read.
Local Open Scope list_scope.

Variable repr : pyval -> string.
Variable docx_text : pyval -> exc string.
Variable save_error : string -> document -> option exn.
Variable cursor_error : option exn.
Variable execute : string -> pyval -> exc (list row).
Variable asksaveasfilename : string -> string.

Lemma fetch_by_int (z : Z) (w : world) :
  fetch_by cursor_error execute (VInt z) w
  = fetch_combined_analysis_data cursor_error execute z w.
Proof. reflexivity. Qed.

Lemma fetch_by_files v w :
  files (snd (fetch_by cursor_error execute v w)) = files w.
Proof.
  unfold fetch_by.
  destruct (assemble_by cursor_error execute v (queries w)) as [[r | e] log];
    reflexivity.
Qed.

Lemma generate_files json_data docx_filepath w :
  (fst (generate_docx_from_combined_json repr docx_text save_error json_data
          docx_filepath w) = true
   /\ exists doc,
        files (snd (generate_docx_from_combined_json repr docx_text
                      save_error json_data docx_filepath w))
        = files w ++ [(docx_filepath, doc)])
  \/ (fst (generate_docx_from_combined_json repr docx_text save_error
             json_data docx_filepath w) = false
      /\ files (snd (generate_docx_from_combined_json repr docx_text
                       save_error json_data docx_filepath w))
         = files w).
Proof.
  unfold generate_docx_from_combined_json.
  match goal with
  | |- context [match ?m [] with _ => _ end] => destruct (m []) as [[u | e] doc]
  end.
  - left. split; [reflexivity |]. exists doc. reflexivity.
  - right. split; reflexivity.
Qed.

(** X14: one click on the download button saves at most one document.  It
    saves none and shows no success note, or it saves one at the path that
    the save dialog returned, which is not empty, and shows the success
    note with that path.  It never changes the listboxes or the two
    dictionaries. *)
Theorem download_saves_at_the_chosen_path (a : app) :
  let a' :=
    on_download_click repr docx_text save_error cursor_error execute
      asksaveasfilename a in
  agents a' = agents a /\ analysis_dates a' = analysis_dates a
  /\ agent_listbox a' = agent_listbox a /\ date_listbox a' = date_listbox a
  /\ ((files (outside a') = files (outside a) /\ infos a' = infos a)
      \/ exists initialfile doc,
           offered a' = offered a ++ [initialfile]
           /\ asksaveasfilename initialfile <> ""
           /\ files (outside a')
              = files (outside a) ++ [(asksaveasfilename initialfile, doc)]
           /\ infos a'
              = infos a ++ [success_note (asksaveasfilename initialfile)]).
Proof.
  intros a'. subst a'. unfold on_download_click.
  destruct (curselection (agent_listbox a)) as [| agent_index ?];
    [repeat split; left; split; reflexivity |].
  destruct (curselection (date_listbox a)) as [| date_index ?];
    [repeat split; left; split; reflexivity |].
  destruct (truthy _); [| repeat split; left; split; reflexivity].
  match goal with
  | |- context [fetch_by _ _ ?v ?w] =>
      pose proof (fetch_by_files v w) as Hfiles;
      destruct (fetch_by cursor_error execute v w) as [[report |] w1]
  end; simpl in Hfiles.
  2:{ repeat split. left. split; [exact Hfiles | reflexivity]. }
  destruct (truthy report).
  2:{ repeat split. left. split; [exact Hfiles | reflexivity]. }
  unfold save_report.
  match goal with
  | |- context [asksaveasfilename ?name] =>
      set (initialfile := name);
      destruct (String.eqb_spec (asksaveasfilename initialfile) "")
        as [Hpath | Hpath]
  end.
  { repeat split. left. split; [exact Hfiles | reflexivity]. }
  cbn [outside offer set_outside].
  match goal with
  | |- context [generate_docx_from_combined_json _ _ _ ?j ?p ?w] =>
      destruct (generate_files j p w) as [[Hok (doc & Hdoc)] | [Hok Hdoc]];
      destruct (generate_docx_from_combined_json repr docx_text save_error
                  j p w) as [[|] w2]; try discriminate; simpl in Hdoc
  end.
  - repeat split. right. exists initialfile, doc.
    repeat split; [exact Hpath |].
    cbn. rewrite Hdoc, Hfiles. reflexivity.
  - repeat split. left. split; [| reflexivity].
    cbn. rewrite Hdoc. exact Hfiles.
Qed.

Variables (a : app) (agent_index date_index : nat) (others_a others_d : list nat).

Hypothesis agent_selected :
  curselection (agent_listbox a) = agent_index :: others_a.
Hypothesis date_selected :
  curselection (date_listbox a) = date_index :: others_d.

Variable z : Z.

Hypothesis date_identifier :
  dict_get (analysis_dates a) (item (date_listbox a) date_index)
  = Some (VInt z).
Hypothesis identifier_not_zero : z <> 0%Z.

Lemma truthy_identifier :
  truthy (dict_get_or_none (analysis_dates a)
            (item (date_listbox a) date_index)) = true.
Proof.
  unfold dict_get_or_none. rewrite date_identifier. cbn.
  destruct (Z.eqb_spec z 0); [contradiction | reflexivity].
Qed.

Lemma download_steps :
  on_download_click repr docx_text save_error cursor_error execute
    asksaveasfilename a
  = match fetch_combined_analysis_data cursor_error execute z (outside a) with
    | (Some report_data, w) =>
        if truthy report_data then
          save_report repr docx_text save_error asksaveasfilename report_data
            (item (agent_listbox a) agent_index)
            (item (date_listbox a) date_index) (set_outside w a)
        else set_outside (showerror (fst data_error) (snd data_error) w) a
    | (None, w) =>
        set_outside (showerror (fst data_error) (snd data_error) w) a
    end.
Proof.
  unfold on_download_click.
  rewrite agent_selected, date_selected, truthy_identifier.
  unfold dict_get_or_none. rewrite date_identifier, fetch_by_int.
  reflexivity.
Qed.

(** X15: when the assembly fails, the user is shown two dialogs, the
    "Database Query Error" with the text of the exception and then the
    "Data Error"; when the analysis has no root row, the "Data Error"
    alone.  In both cases the save dialog is not shown and nothing is
    saved. *)
Theorem download_after_a_failed_assembly :
  let a' :=
    on_download_click repr docx_text save_error cursor_error execute
      asksaveasfilename a in
  exists new,
    queries (outside a') = queries (outside a) ++ new
    /\ (forall sql param e,
          In (sql, param) new -> execute sql param = Raise e ->
          dialogs (outside a')
          = dialogs (outside a) ++ [query_error e; data_error]
          /\ offered a' = offered a /\ infos a' = infos a
          /\ files (outside a') = files (outside a))
    /\ (cursor_error = None -> execute main_sql (VInt z) = Ok [] ->
        dialogs (outside a') = dialogs (outside a) ++ [data_error]
        /\ offered a' = offered a /\ infos a' = infos a
        /\ files (outside a') = files (outside a)).
Proof.
  intros a'. subst a'. rewrite download_steps.
  destruct (traced_assemble cursor_error execute z (queries (outside a)))
    as (new & Hlog & Hraise).
  exists new.
  assert (Hqueries :
            queries (snd (fetch_combined_analysis_data cursor_error execute z
                            (outside a)))
            = queries (outside a) ++ new).
  { unfold fetch_combined_analysis_data.
    destruct (assemble cursor_error execute z (queries (outside a)))
      as [[r | e] log]; exact Hlog. }
  split; [| split].
  - destruct (fetch_combined_analysis_data cursor_error execute z (outside a))
      as [[report |] w1] eqn:Hfetch; cbn [snd] in Hqueries.
    + pose proof (generate_files) as Hg.
      destruct (truthy report); [| exact Hqueries].
      unfold save_report. destruct (_ =? ""); [exact Hqueries |].
      cbn [outside offer set_outside].
      match goal with
      | |- context [generate_docx_from_combined_json _ _ _ ?j ?p ?w] =>
          pose proof (eq_refl (generate_docx_from_combined_json repr docx_text
                                 save_error j p w)) as Hgen;
          unfold generate_docx_from_combined_json at 2 in Hgen;
          destruct (generate_docx_from_combined_json repr docx_text save_error
                      j p w) as [[|] w2]
      end;
        match type of Hgen with
        | _ = match ?m with _ => _ end => destruct m as [[u | e] doc]
        end; inversion Hgen; exact Hqueries.
    + exact Hqueries.
  - intros sql param e Hin Hex.
    destruct (Hraise _ _ _ Hin Hex) as [Hres _].
    unfold fetch_combined_analysis_data.
    destruct (assemble cursor_error execute z (queries (outside a)))
      as [[r | e'] log]; [discriminate |].
    simpl in Hres. inversion Hres. subst e'. cbn.
    rewrite <- app_assoc. repeat split.
  - intros Hcursor Hmain.
    unfold fetch_combined_analysis_data, assemble, cursor.
    rewrite Hcursor. erewrite bind_lift_ok by reflexivity.
    erewrite bind_ok by (unfold cursor_execute; rewrite Hmain; reflexivity).
    cbn. repeat split.
Qed.

Hypothesis text_of_str : forall s, docx_text (VStr s) = Ok s.

Variables (r : report) (w1 : world).

Hypothesis assembled :
  fetch_combined_analysis_data cursor_error execute z (outside a)
  = (Some (encode r), w1).

Lemma assembled_files : files w1 = files (outside a).
Proof.
  pose proof (fetch_by_files (VInt z) (outside a)) as H.
  rewrite fetch_by_int, assembled in H. exact H.
Qed.

Lemma assembled_truthy : truthy (encode r) = true.
Proof.
  pose proof assembled as H. unfold fetch_combined_analysis_data in H.
  destruct (assemble cursor_error execute z (queries (outside a)))
    as [[result | e] log'] eqn:Hassemble; [| discriminate].
  inversion H. subst result. apply assemble_inv in Hassemble.
  destruct Hassemble
    as (main_row & rest & x & n & p & S & D & F & Q & _ & _ & _ & _ & Hr & _).
  rewrite Hr. reflexivity.
Qed.

(** X16: with an agent and a date selected and the report assembled, the
    button offers the file name "QA_Report_<agent>_<date>.docx", where the
    date is the selected entry up to its first space; when the dialog
    returns a path and the save completes, the document of the report is
    saved at that path, after which the success note is shown; when the
    dialog is cancelled nothing is saved or shown. *)
Theorem download_of_an_assembled_report :
  let a' :=
    on_download_click repr docx_text save_error cursor_error execute
      asksaveasfilename a in
  let initialfile :=
    ("QA_Report_" ++ item (agent_listbox a) agent_index ++ "_"
       ++ before_space (item (date_listbox a) date_index) ++ ".docx")%string in
  offered a' = offered a ++ [initialfile]
  /\ warnings a' = warnings a
  /\ (asksaveasfilename initialfile = "" ->
      outside a' = w1 /\ infos a' = infos a)
  /\ (asksaveasfilename initialfile <> "" ->
      (forall doc, save_error (asksaveasfilename initialfile) doc = None) ->
      exists doc,
        outside a' = written (asksaveasfilename initialfile) doc w1
        /\ files (outside a')
           = files (outside a) ++ [(asksaveasfilename initialfile, doc)]
        /\ infos a'
           = infos a ++ [success_note (asksaveasfilename initialfile)]
        /\ headings 1 doc
           = [("Performance Trend Analysis & Coaching Report: "
                 ++ field repr (header r) "agent_name")%string]
        /\ styled (Some "ListBullet") doc = strengths r ++ dev_areas r).
Proof.
  intros a' initialfile. subst a'.
  rewrite download_steps, assembled, assembled_truthy.
  unfold save_report. fold initialfile.
  destruct (String.eqb_spec (asksaveasfilename initialfile) "")
    as [Hpath | Hpath].
  - repeat split. intros H. contradiction.
  - cbn [outside offer set_outside].
    split; [| split; [| split; [intros H; contradiction |]]].
    + destruct (generate_docx_from_combined_json _ _ _ _ _ _) as [[|] w2];
        reflexivity.
    + destruct (generate_docx_from_combined_json _ _ _ _ _ _) as [[|] w2];
        reflexivity.
    + intros _ Hsave. exists (layout repr r).
      rewrite (@generate_encode repr docx_text save_error text_of_str _ Hsave).
      split; [reflexivity |].
      split; [cbn; rewrite assembled_files; reflexivity |].
      split; [reflexivity |].
      split; [exact (headings1_layout repr r) | exact (bullets_layout repr r)].
Qed.

End Download.

(** ** The agent listbox *)

Section AgentSelected.
Import Tk App Dates.
Local Open Scope list_scope.

Variable cursor_error : option exn.
Variable execute_analyses : string -> pyval -> exc (list analysis_row).
Variable format : datetime -> string.

Lemma dict_get_set d key v key' :
  dict_get (dict_set d key v) key'
  = if key =? key' then Some v else dict_get d key'.
Proof.
  induction d as [| [k x] d IH]; cbn [dict_set dict_get].
  - destruct (key =? key'); reflexivity.
  - destruct (String.eqb_spec k key) as [-> | Hk]; cbn [dict_get].
    + destruct (key =? key'); reflexivity.
    + rewrite IH. destruct (String.eqb_spec k key') as [-> | Hk'];
        [| reflexivity].
      apply String.eqb_neq in Hk. rewrite String.eqb_sym, Hk. reflexivity.
Qed.

Lemma dated_rows rows ts :
  map AnalysisDateTime rows = map Some ts ->
  Forall (fun r => AnalysisDateTime r <> None) rows
  /\ map (shown format) rows = map format ts.
Proof.
  revert ts. induction rows as [| r rows IH]; intros [| t ts] H;
    try discriminate; [split; [constructor | reflexivity] |].
  cbn [map] in H. inversion H as [[Hr Hrows]].
  destruct (IH _ Hrows) as [IH1 IH2]. split.
  - constructor; [congruence | exact IH1].
  - cbn [map]. unfold shown at 1. rewrite Hr, IH2. reflexivity.
Qed.

Lemma show_dates rows :
  Forall (fun r => AnalysisDateTime r <> None) rows ->
  forall a,
    for_each rows (show_date format) a
    = (Ok tt,
       set_dates (entered format rows (analysis_dates a))
         {| items := items (date_listbox a) ++ map (shown format) rows;
            selected := selected (date_listbox a) |} a).
Proof.
  induction 1 as [| r rows Hr _ IH]; intros a.
  - cbn. rewrite app_nil_r. destruct a as [? ? ? [? ?] ? ? ? ?]. reflexivity.
  - cbn [for_each]. unfold show_date at 1, date_str_of.
    destruct (AnalysisDateTime r) as [t |] eqn:Ht; [| contradiction].
    erewrite bind_ok by (erewrite bind_lift_ok by reflexivity; reflexivity).
    rewrite IH. destruct a as [? ? ? [? ?] ? ? ? ?].
    unfold set_dates, insert_end, entered. cbn [fold_left map].
    cbn [analysis_dates date_listbox items selected agents agent_listbox
         outside warnings infos offered].
    assert (Hs : shown format r = format t)
      by (unfold shown; rewrite Ht; reflexivity).
    rewrite Hs, <- app_assoc. reflexivity.
Qed.

Lemma last_shown_snoc s rows r :
  last_shown format s (rows ++ [r])
  = if match AnalysisDateTime r with
       | Some t => format t =? s
       | None => false
       end
    then Some r else last_shown format s rows.
Proof. unfold last_shown. rewrite rev_app_distr. reflexivity. Qed.

Lemma entered_get s rows :
  Forall (fun r => AnalysisDateTime r <> None) rows ->
  forall d,
    dict_get (entered format rows d) s
    = match last_shown format s rows with
      | Some r => Some (CombinedAnalysisID r)
      | None => dict_get d s
      end.
Proof.
  induction rows as [| r rows IH] using rev_ind; intros H d; [reflexivity |].
  apply Forall_app in H. destruct H as [Hrows Hr]. inversion Hr as [| ? ? Hr' _].
  unfold entered. rewrite fold_left_app. cbn [fold_left].
  rewrite dict_get_set, last_shown_snoc. unfold shown.
  destruct (AnalysisDateTime r) as [t |]; [| contradiction].
  destruct (format t =? s); [reflexivity |]. apply IH. exact Hrows.
Qed.

Variables (a : app) (index : nat) (others : list nat) (agent_id : pyval).

Hypothesis agent_selected :
  curselection (agent_listbox a) = index :: others.
Hypothesis agent_identifier :
  dict_get (agents a) (item (agent_listbox a) index) = Some agent_id.
Hypothesis identifier_truthy : truthy agent_id = true.
Hypothesis cursor_opened : cursor_error = None.

Variables (rows : list analysis_row) (ts : list datetime).

Hypothesis analyses : execute_analyses analyses_sql agent_id = Ok rows.
Hypothesis all_dated : map AnalysisDateTime rows = map Some ts.

Lemma select_steps :
  on_agent_select cursor_error execute_analyses format a
  = set_dates (entered format rows [])
      {| items := map format ts; selected := [] |}
      (set_outside
         (asked (queries (outside a) ++ [(analyses_sql, agent_id)])
            (outside a)) a).
Proof.
  destruct (@dated_rows rows ts all_dated) as [Hdated Hshown].
  unfold on_agent_select. rewrite agent_selected.
  cbn [agent_listbox set_dates agents]. unfold dict_get_or_none.
  rewrite agent_identifier, identifier_truthy.
  unfold fetch_dates. rewrite cursor_opened.
  erewrite bind_lift_ok by reflexivity.
  erewrite bind_ok by (rewrite analyses; reflexivity).
  rewrite (show_dates Hdated). cbn. rewrite Hshown. reflexivity.
Qed.

(** X17: selecting an agent replaces the dates shown by those of the
    agent's analyses, formatted, in the order of the rows, with none of
    them selected; the dictionary of dates gives, for a date shown, the
    identifier of the last row that is shown as that date, and nothing for
    any other string; one query is sent, no dialog is shown and the agent
    stays selected. *)
Theorem dates_of_the_selected_agent :
  let a' := on_agent_select cursor_error execute_analyses format a in
  items (date_listbox a') = map format ts
  /\ selected (date_listbox a') = []
  /\ (forall s,
        dict_get (analysis_dates a') s
        = option_map CombinedAnalysisID (last_shown format s rows))
  /\ queries (outside a') = queries (outside a) ++ [(analyses_sql, agent_id)]
  /\ dialogs (outside a') = dialogs (outside a)
  /\ agent_listbox a' = agent_listbox a.
Proof.
  intros a'. subst a'. rewrite select_steps. cbn.
  repeat split. intros s.
  rewrite (entered_get s (proj1 (@dated_rows rows ts all_dated))).
  destruct (last_shown format s rows); reflexivity.
Qed.

End AgentSelected.

(** ** The agent listbox, whatever the database answers *)

Section AgentSelectedAnyAnswer.
Import Tk App Dates.
Local Open Scope list_scope.

Variable cursor_error : option exn.
Variable execute_analyses : string -> pyval -> exc (list analysis_row).
Variable format : datetime -> string.

Lemma in_step_show_date r a :
  in_step a -> in_step (snd (show_date format r a)).
Proof.
  intros H. unfold show_date, date_str_of, bind, lift.
  destruct (AnalysisDateTime r) as [t |]; [| exact H].
  unfold in_step in *. cbn. apply Forall_app. split.
  - eapply Forall_impl; [| exact H]. intros s Hs. cbv beta in *.
    rewrite dict_get_set. destruct (format t =? s); [discriminate | exact Hs].
  - constructor; [| constructor]. rewrite dict_get_set, String.eqb_refl.
    discriminate.
Qed.

Lemma in_step_for_each rows :
  forall a, in_step a -> in_step (snd (for_each rows (show_date format) a)).
Proof.
  induction rows as [| r rows IH]; intros a H; [exact H |].
  cbn [for_each]. unfold bind.
  pose proof (in_step_show_date r H) as Hr.
  destruct (show_date format r a) as [[u | e] a1]; [| exact Hr].
  apply IH. exact Hr.
Qed.

Lemma in_step_fetch_dates agent_id a :
  in_step a ->
  in_step (snd (fetch_dates cursor_error execute_analyses format agent_id a)).
Proof.
  intros H. unfold fetch_dates, bind, lift.
  destruct cursor_error; [exact H |].
  destruct (execute_analyses analyses_sql agent_id) as [rows | e];
    [| exact H].
  apply in_step_for_each. exact H.
Qed.

(** X18: the listbox of dates and the dictionary of dates stay in step:
    whatever the database answers, and also when the fetch stops on a
    fault, every date shown after the selection of an agent has an
    identifier in the dictionary, if that was so before. *)
Theorem dates_shown_have_identifiers (a : app) :
  in_step a ->
  in_step (on_agent_select cursor_error execute_analyses format a).
Proof.
  intros H. unfold on_agent_select.
  destruct (curselection (agent_listbox a)) as [| index others]; [exact H |].
  cbn [agent_listbox agents set_dates].
  set (cleared := set_dates [] (delete_all (date_listbox a)) a).
  assert (Hcleared : in_step cleared) by constructor.
  destruct (truthy _); [| exact Hcleared].
  match goal with
  | |- context [fetch_dates _ _ _ ?v _] =>
      pose proof (@in_step_fetch_dates v cleared Hcleared) as Hf;
      destruct (fetch_dates cursor_error execute_analyses format v cleared)
        as [[u | e] a1]
  end; exact Hf.
Qed.

Variables (a : app) (index : nat) (others : list nat) (agent_id : pyval).

Hypothesis agent_selected :
  curselection (agent_listbox a) = index :: others.
Hypothesis agent_identifier :
  dict_get (agents a) (item (agent_listbox a) index) = Some agent_id.
Hypothesis identifier_truthy : truthy agent_id = true.

Lemma select_fetch :
  on_agent_select cursor_error execute_analyses format a
  = match fetch_dates cursor_error execute_analyses format agent_id
            (set_dates [] (delete_all (date_listbox a)) a) with
    | (Ok _, a1) => a1
    | (Raise e, a1) =>
        set_outside
          (showerror "Error"
             ("Failed to fetch reports for " ++ item (agent_listbox a) index
                ++ ":" ++ newline ++ e)%string (outside a1)) a1
    end.
Proof.
  unfold on_agent_select. rewrite agent_selected.
  cbn [agent_listbox set_dates agents]. unfold dict_get_or_none.
  rewrite agent_identifier, identifier_truthy. reflexivity.
Qed.

(** X19: when the cursor cannot be opened or the query of the analyses
    fails, no date is shown, the dictionary of dates is empty, and one
    "Error" dialog names the agent and carries the text of the
    exception. *)
Theorem no_dates_after_a_failed_query (e : exn) :
  cursor_error = Some e
  \/ (cursor_error = None /\ execute_analyses analyses_sql agent_id = Raise e) ->
  let a' := on_agent_select cursor_error execute_analyses format a in
  items (date_listbox a') = []
  /\ curselection (date_listbox a') = []
  /\ analysis_dates a' = []
  /\ dialogs (outside a')
     = dialogs (outside a)
         ++ [("Error",
              ("Failed to fetch reports for " ++ item (agent_listbox a) index
                 ++ ":" ++ newline ++ e)%string)].
Proof.
  intros H a'. subst a'. rewrite select_fetch. unfold fetch_dates.
  destruct H as [Hc | [Hc He]]; rewrite Hc.
  - repeat split.
  - erewrite bind_lift_ok by reflexivity. unfold bind at 1. rewrite He.
    repeat split.
Qed.

Variables (good rest : list analysis_row) (bad : analysis_row)
  (ts : list datetime).

Hypothesis cursor_opened : cursor_error = None.
Hypothesis analyses :
  execute_analyses analyses_sql agent_id = Ok (good ++ bad :: rest).
Hypothesis good_dated : map AnalysisDateTime good = map Some ts.
Hypothesis bad_undated : AnalysisDateTime bad = None.

Lemma for_each_app {S A} (l1 l2 : list A) (body : A -> M S unit) s :
  for_each (l1 ++ l2) body s
  = match for_each l1 body s with
    | (Ok _, s1) => for_each l2 body s1
    | (Raise e, s1) => (Raise e, s1)
    end.
Proof.
  revert s. induction l1 as [| x l1 IH]; intros s; [reflexivity |].
  cbn [List.app for_each]. unfold bind.
  destruct (body x s) as [[u | e] s1]; [apply IH | reflexivity].
Qed.

(** X20: a row without a date stops the filling: the dates of the rows
    before it stay shown, with their identifiers in the dictionary, the
    rows after it are not shown, and one "Error" dialog tells that [None]
    has no [strftime]. *)
Theorem undated_row_stops_the_filling :
  let a' := on_agent_select cursor_error execute_analyses format a in
  items (date_listbox a') = map format ts
  /\ (forall s,
        dict_get (analysis_dates a') s
        = option_map CombinedAnalysisID (last_shown format s good))
  /\ dialogs (outside a')
     = dialogs (outside a)
         ++ [("Error",
              ("Failed to fetch reports for " ++ item (agent_listbox a) index
                 ++ ":" ++ newline
                 ++ "'NoneType' object has no attribute 'strftime'")%string)].
Proof.
  intros a'. subst a'. rewrite select_fetch. unfold fetch_dates.
  rewrite cursor_opened. erewrite bind_lift_ok by reflexivity.
  erewrite bind_ok by (rewrite analyses; reflexivity).
  destruct (@dated_rows format good ts good_dated) as [Hdated Hshown].
  rewrite for_each_app, (show_dates format Hdated).
  cbn [for_each].
  erewrite bind_raise
    by (unfold show_date, date_str_of; rewrite bad_undated; reflexivity).
  cbn [set_outside set_dates showerror outside date_listbox analysis_dates
       items dialogs delete_all agents agent_listbox warnings infos offered
       asked List.app].
  rewrite Hshown. repeat split. intros s.
  rewrite (entered_get format s Hdated).
  destruct (last_shown format s good); reflexivity.
Qed.

End AgentSelectedAnyAnswer.

(** ** From the selection of an agent to the download *)

Section SelectThenDownload.
Import Tk App Dates More.
Local Open Scope list_scope.

Variable repr : pyval -> string.
Variable docx_text : pyval -> exc string.
Variable save_error : string -> document -> option exn.
Variable cursor_error : option exn.
Variable execute : string -> pyval -> exc (list row).
Variable asksaveasfilename : string -> string.
Variable execute_analyses : string -> pyval -> exc (list analysis_row).
Variable format : datetime -> string.

Lemma last_shown_at rows :
  Forall (fun r => AnalysisDateTime r <> None) rows ->
  forall j rj,
    nth_error rows j = Some rj ->
    (forall k r, j < k -> nth_error rows k = Some r ->
                 shown format r <> shown format rj) ->
    last_shown format (shown format rj) rows = Some rj.
Proof.
  induction rows as [| x rows IH] using rev_ind; intros H j rj Hj Hlater.
  - destruct j; discriminate.
  - apply Forall_app in H. destruct H as [Hrows Hx].
    apply Forall_inv in Hx. rewrite last_shown_snoc.
    destruct (Nat.lt_ge_cases j (length rows)) as [Hlt | Hge].
    + rewrite nth_error_app1 in Hj by exact Hlt.
      assert (Hne : shown format x <> shown format rj).
      { apply (Hlater (length rows)); [exact Hlt |].
        rewrite nth_error_app2, Nat.sub_diag by lia. reflexivity. }
      unfold shown at 1 in Hne.
      destruct (AnalysisDateTime x) as [t |]; [| congruence].
      apply String.eqb_neq in Hne. rewrite Hne.
      apply (IH Hrows j rj Hj). intros k r Hk Hr.
      apply (Hlater k r Hk). rewrite nth_error_app1; [exact Hr |].
      apply nth_error_Some. rewrite Hr. discriminate.
    + rewrite nth_error_app2 in Hj by exact Hge.
      destruct (j - length rows) as [| n] eqn:E;
        [| destruct n; discriminate].
      inversion Hj. subst x. unfold shown.
      destruct (AnalysisDateTime rj) as [t |]; [| congruence].
      rewrite String.eqb_refl. reflexivity.
Qed.

Lemma item_shown (rows : list analysis_row) i r :
  nth_error rows i = Some r ->
  nth i (map (shown format) rows) "" = shown format r.
Proof.
  intros H. apply nth_error_nth. rewrite nth_error_map, H. reflexivity.
Qed.

Variables (a : app) (index : nat) (others : list nat) (agent_id : pyval).

Hypothesis agent_selected :
  curselection (agent_listbox a) = index :: others.
Hypothesis agent_identifier :
  dict_get (agents a) (item (agent_listbox a) index) = Some agent_id.
Hypothesis identifier_truthy : truthy agent_id = true.
Hypothesis cursor_opened : cursor_error = None.

Variables (rows : list analysis_row) (ts : list datetime).

Hypothesis analyses : execute_analyses analyses_sql agent_id = Ok rows.
Hypothesis all_dated : map AnalysisDateTime rows = map Some ts.

Lemma entry_identifier i ri j rj :
  nth_error rows i = Some ri ->
  nth_error rows j = Some rj ->
  shown format ri = shown format rj ->
  (forall k r, j < k -> nth_error rows k = Some r ->
               shown format r <> shown format rj) ->
  let a' := on_agent_select cursor_error execute_analyses format a in
  dict_get (analysis_dates a') (item (date_listbox a') i)
  = Some (CombinedAnalysisID rj).
Proof.
  intros Hi Hj Hsame Hlater a'. subst a'.
  destruct (@dated_rows format rows ts all_dated) as [Hdated Hshown].
  rewrite (@select_steps cursor_error execute_analyses format a index others
             agent_id agent_selected agent_identifier identifier_truthy
             cursor_opened rows ts analyses all_dated).
  unfold item. cbn [set_dates date_listbox analysis_dates items].
  rewrite <- Hshown, (@item_shown rows i ri Hi), Hsame.
  rewrite (entered_get format _ Hdated), (@last_shown_at rows Hdated j rj Hj Hlater).
  reflexivity.
Qed.

(** X21: when the dates of the agent's analyses are shown as different
    strings, every entry of the listbox leads, through the dictionary of
    dates, to the identifier of its own row. *)
Theorem each_date_leads_to_its_analysis (i : nat) (r : analysis_row) :
  NoDup (map format ts) ->
  nth_error rows i = Some r ->
  let a' := on_agent_select cursor_error execute_analyses format a in
  dict_get (analysis_dates a') (item (date_listbox a') i)
  = Some (CombinedAnalysisID r).
Proof.
  intros Hnodup Hi.
  destruct (@dated_rows format rows ts all_dated) as [_ Hshown].
  rewrite <- Hshown in Hnodup.
  apply (@entry_identifier i r i r Hi Hi eq_refl).
  intros k r' Hk Hr' Heq.
  assert (Hlen : i < length (map (shown format) rows)).
  { rewrite length_map. apply nth_error_Some. rewrite Hi. discriminate. }
  pose proof (proj1 (NoDup_nth_error _) Hnodup i k Hlen) as Hik.
  rewrite !nth_error_map, Hi, Hr' in Hik. cbn in Hik. rewrite Heq in Hik.
  specialize (Hik eq_refl). lia.
Qed.

(** X22: two analyses whose dates are shown as the same string have two
    entries in the listbox and one in the dictionary: both entries lead to
    the identifier of the row that comes last, so the analysis of the
    other row cannot be downloaded. *)
Theorem dates_shown_alike_share_the_last_analysis
    (i j : nat) (ri rj : analysis_row) :
  i < j ->
  nth_error rows i = Some ri ->
  nth_error rows j = Some rj ->
  shown format ri = shown format rj ->
  (forall k r, j < k -> nth_error rows k = Some r ->
               shown format r <> shown format rj) ->
  let a' := on_agent_select cursor_error execute_analyses format a in
  item (date_listbox a') i = item (date_listbox a') j
  /\ dict_get (analysis_dates a') (item (date_listbox a') i)
     = Some (CombinedAnalysisID rj)
  /\ dict_get (analysis_dates a') (item (date_listbox a') j)
     = Some (CombinedAnalysisID rj).
Proof.
  intros _ Hi Hj Hsame Hlater a'.
  pose proof (@entry_identifier i ri j rj Hi Hj Hsame Hlater) as H1.
  pose proof (@entry_identifier j rj j rj Hj Hj eq_refl Hlater) as H2.
  split; [| split; [exact H1 | exact H2]].
  subst a'.
  destruct (@dated_rows format rows ts all_dated) as [_ Hshown].
  rewrite (@select_steps cursor_error execute_analyses format a index others
             agent_id agent_selected agent_identifier identifier_truthy
             cursor_opened rows ts analyses all_dated).
  unfold item. cbn [set_dates date_listbox items].
  rewrite <- Hshown, (@item_shown rows i ri Hi), (@item_shown rows j rj Hj). exact Hsame.
Qed.

Lemma assemble_first_query (z : Z) log :
  exists more,
    snd (assemble cursor_error execute z log)
    = log ++ (main_sql, VInt z) :: more.
Proof.
  unfold assemble, cursor. rewrite cursor_opened.
  erewrite bind_lift_ok by reflexivity.
  unfold bind at 1. unfold cursor_execute at 1.
  destruct (execute main_sql (VInt z)) as [main_rows | e];
    [| exists []; reflexivity].
  match goal with
  | |- exists more, snd (?k ?l) = _ =>
      assert (H : adds_only (fun _ => True) k)
  end.
  { destruct (fetchone main_rows) as [[| c main_row] |];
      try apply adds_only_ret.
    repeat (apply adds_only_bind; [apply adds_only_lift |]; intros ?).
    apply adds_only_bind; [apply adds_only_column; exact I |].
    intros strengths.
    apply adds_only_bind; [apply adds_only_column; exact I |].
    intros dev_areas.
    apply adds_only_bind; [apply adds_only_execute; exact I |].
    intros focus_rows. apply adds_only_bind.
    { apply adds_only_fold_each. intros r b. unfold fetch_focus.
      apply adds_only_bind; [apply adds_only_lift |]. intros focus_id.
      apply adds_only_bind; [apply adds_only_column; exact I |].
      intros actions.
      apply adds_only_bind; [apply adds_only_lift |]. intros area.
      apply adds_only_ret. }
    intros report1.
    apply adds_only_bind; [apply adds_only_execute; exact I |].
    intros detail_rows.
    apply adds_only_bind; [| intros report2; apply adds_only_ret].
    apply adds_only_fold_each. intros r b. unfold fetch_detail.
    apply adds_only_bind; [apply adds_only_lift |]. intros q.
    apply adds_only_bind; [apply adds_only_lift |]. intros t.
    apply adds_only_ret. }
  destruct (H (log ++ [(main_sql, VInt z)])) as (more & Hmore & _).
  exists more. rewrite Hmore, <- app_assoc. reflexivity.
Qed.

Lemma generate_queries json_data docx_filepath w :
  queries (snd (generate_docx_from_combined_json repr docx_text save_error
                  json_data docx_filepath w))
  = queries w.
Proof.
  unfold generate_docx_from_combined_json.
  match goal with
  | |- context [match ?m [] with _ => _ end] => destruct (m []) as [[u | e] doc]
  end; reflexivity.
Qed.

Lemma save_report_queries report_data agent_name selected_date_str b :
  queries (outside (save_report repr docx_text save_error asksaveasfilename
                      report_data agent_name selected_date_str b))
  = queries (outside b).
Proof.
  unfold save_report. destruct (_ =? ""); [reflexivity |].
  cbn [outside offer].
  match goal with
  | |- context [generate_docx_from_combined_json _ _ _ ?j ?p ?w] =>
      pose proof (generate_queries j p w) as Hg;
      destruct (generate_docx_from_combined_json repr docx_text save_error
                  j p w) as [[|] w2]
  end; exact Hg.
Qed.

Lemma save_report_offered report_data agent_name selected_date_str b :
  offered (save_report repr docx_text save_error asksaveasfilename
             report_data agent_name selected_date_str b)
  = offered b
      ++ [("QA_Report_" ++ agent_name ++ "_" ++ before_space selected_date_str
             ++ ".docx")%string].
Proof.
  unfold save_report. destruct (_ =? ""); [reflexivity |].
  cbn [outside offer].
  destruct (generate_docx_from_combined_json _ _ _ _ _ _) as [[|] w2];
    reflexivity.
Qed.

(** X23: the agent is selected, the user chooses a date of the listbox and
    clicks the download button.  The click assembles the analysis that the
    dictionary of dates gives for the chosen date: the query of the root
    row, with that identifier, is the first that follows the query of the
    analyses; and the save dialog, when it is reached, offers the file
    name made of the agent's name and of the chosen date up to its first
    space. *)
Theorem download_of_the_chosen_date
    (i : nat) (t : datetime) (r : analysis_row) (z : Z) :
  nth_error ts i = Some t ->
  last_shown format (format t) rows = Some r ->
  CombinedAnalysisID r = VInt z ->
  z <> 0%Z ->
  let a' :=
    on_download_click repr docx_text save_error cursor_error execute
      asksaveasfilename
      (choose_date i
         (on_agent_select cursor_error execute_analyses format a)) in
  (exists more,
     queries (outside a')
     = queries (outside a)
         ++ (analyses_sql, agent_id) :: (main_sql, VInt z) :: more)
  /\ (offered a' = offered a
      \/ offered a'
         = offered a
             ++ [("QA_Report_" ++ item (agent_listbox a) index ++ "_"
                    ++ before_space (format t) ++ ".docx")%string]).
Proof.
  intros Ht Hlast Hid Hz a'. subst a'.
  destruct (@dated_rows format rows ts all_dated) as [Hdated Hshown].
  rewrite (@select_steps cursor_error execute_analyses format a index others
             agent_id agent_selected agent_identifier identifier_truthy
             cursor_opened rows ts analyses all_dated).
  set (a2 := choose_date i _).
  assert (Hitem : item (date_listbox a2) i = format t).
  { unfold item. cbn. apply nth_error_nth. rewrite nth_error_map, Ht.
    reflexivity. }
  assert (Hdict : dict_get (analysis_dates a2) (item (date_listbox a2) i)
                  = Some (VInt z)).
  { rewrite Hitem. cbn [a2 choose_date set_dates analysis_dates].
    rewrite (entered_get format _ Hdated), Hlast, Hid. reflexivity. }
  rewrite (@download_steps repr docx_text save_error cursor_error execute
             asksaveasfilename a2 index i others [] agent_selected eq_refl z
             Hdict Hz).
  rewrite Hitem.
  change (item (agent_listbox a2) index) with (item (agent_listbox a) index).
  change (outside a2)
    with (asked (queries (outside a) ++ [(analyses_sql, agent_id)])
            (outside a)).
  unfold fetch_combined_analysis_data.
  destruct (assemble_first_query z
              (queries (asked (queries (outside a)
                                 ++ [(analyses_sql, agent_id)]) (outside a))))
    as (more & Hmore).
  cbn [queries asked] in Hmore. rewrite <- app_assoc in Hmore.
  cbn [List.app] in Hmore. cbn [queries asked].
  destruct (assemble cursor_error execute z
              (queries (outside a) ++ [(analyses_sql, agent_id)]))
    as [[[report |] | e] log]; cbn [snd] in Hmore; subst log.
  - destruct (truthy report).
    + split.
      * exists more. rewrite save_report_queries. reflexivity.
      * right. rewrite save_report_offered. reflexivity.
    + split; [exists more; reflexivity | left; reflexivity].
  - split; [exists more; reflexivity | left; reflexivity].
  - split; [exists more; reflexivity | left; reflexivity].
Qed.

End SelectThenDownload.

(** ** The format of the dates *)

Section DateFormat.
Import Tk App Dates.

Lemma digit_not_space n : (n < 10)%nat -> Ascii.eqb (digit n) " " = false.
Proof.
  intros H. do 10 (destruct n as [| n]; [reflexivity |]). lia.
Qed.

Lemma digit_inj n m : (n < 10)%nat -> (m < 10)%nat -> digit n = digit m -> n = m.
Proof.
  intros Hn Hm H. apply (f_equal nat_of_ascii) in H. unfold digit in H.
  rewrite !nat_ascii_embedding in H by lia. lia.
Qed.

Lemma before_space_digit n s :
  (n < 10)%nat ->
  before_space (String (digit n) s) = String (digit n) (before_space s).
Proof. intros H. cbn [before_space]. rewrite digit_not_space by exact H. reflexivity. Qed.

Lemma before_space_dash s :
  before_space (String "-" s) = String "-" (before_space s).
Proof. reflexivity. Qed.

Lemma string_eq c c' s s' : c = c' -> s = s' -> String c s = String c' s'.
Proof. intros -> ->. reflexivity. Qed.

Lemma valid_bounds t :
  valid t = true ->
  (1000 <= year t < 10 * 1000 /\ 1 <= month t <= 12 /\ 1 <= day t <= 31
   /\ hour t <= 23 /\ minute t <= 59 /\ second t <= 59)%nat.
Proof.
  unfold valid. rewrite !Bool.andb_true_iff.
  rewrite !Nat.leb_le, Nat.ltb_lt. lia.
Qed.

Lemma tens_bound n : (n < 100)%nat -> (n / 10 < 10)%nat.
Proof. intros H. apply Nat.Div0.div_lt_upper_bound. lia. Qed.

Lemma units_bound n : (n mod 10 < 10)%nat.
Proof. apply Nat.mod_upper_bound. discriminate. Qed.

Lemma hour12_bound h : (hour12 h < 100)%nat.
Proof.
  unfold hour12. pose proof (Nat.mod_upper_bound h 12).
  destruct (h mod 12)%nat; lia.
Qed.

Lemma two_digits_inj n m :
  (n < 100)%nat -> (m < 100)%nat -> two_digits n = two_digits m -> n = m.
Proof.
  intros Hn Hm H. unfold two_digits in H.
  assert (H1 : digit (n / 10) = digit (m / 10))
    by (injection H; intros; assumption).
  assert (H2 : digit (n mod 10) = digit (m mod 10))
    by (injection H; intros; assumption).
  clear H.
  apply digit_inj in H1; [| apply tens_bound; lia | apply tens_bound; lia].
  apply digit_inj in H2; [| apply units_bound | apply units_bound].
  pose proof (Nat.div_mod_eq n 10) as En.
  pose proof (Nat.div_mod_eq m 10) as Em. rewrite H1, H2 in En. lia.
Qed.

Lemma four_digits_inj n m :
  (n < 10 * 1000)%nat -> (m < 10 * 1000)%nat -> four_digits n = four_digits m ->
  n = m.
Proof.
  intros Hn Hm H. unfold four_digits in H.
  assert (H1 : digit (n / 1000) = digit (m / 1000))
    by (injection H; intros; assumption).
  assert (H2 : digit ((n / 100) mod 10) = digit ((m / 100) mod 10))
    by (injection H; intros; assumption).
  assert (H3 : digit ((n / 10) mod 10) = digit ((m / 10) mod 10))
    by (injection H; intros; assumption).
  assert (H4 : digit (n mod 10) = digit (m mod 10))
    by (injection H; intros; assumption).
  clear H.
  apply digit_inj in H1;
    [| apply Nat.Div0.div_lt_upper_bound; lia
     | apply Nat.Div0.div_lt_upper_bound; lia].
  apply digit_inj in H2; [| apply units_bound | apply units_bound].
  apply digit_inj in H3; [| apply units_bound | apply units_bound].
  apply digit_inj in H4; [| apply units_bound | apply units_bound].
  pose proof (Nat.div_mod_eq n 10). pose proof (Nat.div_mod_eq m 10).
  pose proof (Nat.div_mod_eq (n / 10) 10).
  pose proof (Nat.div_mod_eq (m / 10) 10).
  pose proof (Nat.div_mod_eq (n / 100) 10).
  pose proof (Nat.div_mod_eq (m / 100) 10).
  assert (En : (n / 100 = n / 10 / 10 /\ n / 1000 = n / 100 / 10)%nat)
    by (rewrite !Nat.Div0.div_div; split; reflexivity).
  assert (Em : (m / 100 = m / 10 / 10 /\ m / 1000 = m / 100 / 10)%nat)
    by (rewrite !Nat.Div0.div_div; split; reflexivity).
  lia.
Qed.

Lemma hour_of_clock h :
  (h <= 23)%nat ->
  h = ((hour12 h) mod 12 + if (h <? 12)%nat then 0 else 12)%nat.
Proof.
  intros H. do 24 (destruct h as [| h]; [reflexivity |]). lia.
Qed.

Lemma am_pm_inj h1 h2 :
  am_pm h1 = am_pm h2 -> (h1 <? 12)%nat = (h2 <? 12)%nat.
Proof.
  unfold am_pm. destruct (h1 <? 12)%nat, (h2 <? 12)%nat;
    intros H; try reflexivity; discriminate.
Qed.

(** X24: the file name that the save dialog offers carries the day of the
    analysis: what stands before the first space of a formatted date is
    its year, month and day. *)
Theorem file_name_carries_the_day (t : datetime) :
  valid t = true ->
  before_space (strftime t)
  = (four_digits (year t) ++ "-" ++ two_digits (month t) ++ "-"
       ++ two_digits (day t))%string.
Proof.
  intros H. apply valid_bounds in H.
  unfold strftime, four_digits, two_digits. cbn [append].
  repeat first
    [ rewrite before_space_digit
        by (try apply units_bound; try (apply tens_bound; lia);
            apply Nat.Div0.div_lt_upper_bound; lia)
    | rewrite before_space_dash ].
  reflexivity.
Qed.

(** X25: two dates are shown as the same string exactly when they agree up
    to the minute: the seconds are not shown, everything else is. *)
Theorem shown_alike_iff_same_minute (t1 t2 : datetime) :
  valid t1 = true -> valid t2 = true ->
  (strftime t1 = strftime t2 <-> same_minute t1 t2).
Proof.
  intros H1 H2. apply valid_bounds in H1, H2. split.
  - intros H. unfold strftime in H.
    unfold four_digits, two_digits in H. cbn [append] in H.
    assert (Hy : four_digits (year t1) = four_digits (year t2)).
    { unfold four_digits. injection H. intros.
      repeat (apply string_eq; [assumption |]). reflexivity. }
    assert (Hm : two_digits (month t1) = two_digits (month t2)).
    { unfold two_digits. injection H. intros.
      repeat (apply string_eq; [assumption |]). reflexivity. }
    assert (Hd : two_digits (day t1) = two_digits (day t2)).
    { unfold two_digits. injection H. intros.
      repeat (apply string_eq; [assumption |]). reflexivity. }
    assert (Hh : two_digits (hour12 (hour t1)) = two_digits (hour12 (hour t2))).
    { unfold two_digits. injection H. intros.
      repeat (apply string_eq; [assumption |]). reflexivity. }
    assert (Hn : two_digits (minute t1) = two_digits (minute t2)).
    { unfold two_digits. injection H. intros.
      repeat (apply string_eq; [assumption |]). reflexivity. }
    assert (Hp : am_pm (hour t1) = am_pm (hour t2))
      by (injection H; intros; assumption).
    apply four_digits_inj in Hy; [| lia | lia].
    apply two_digits_inj in Hm; [| lia | lia].
    apply two_digits_inj in Hd; [| lia | lia].
    apply two_digits_inj in Hh; [| apply hour12_bound | apply hour12_bound].
    apply two_digits_inj in Hn; [| lia | lia].
    apply am_pm_inj in Hp.
    repeat split; try assumption.
    assert (E1 := @hour_of_clock (hour t1)).
    assert (E2 := @hour_of_clock (hour t2)).
    rewrite Hh, Hp in E1. transitivity
      (hour12 (hour t2) mod 12 + (if (hour t2 <? 12)%nat then 0 else 12))%nat;
      [apply E1 | symmetry; apply E2]; lia.
  - intros (Hy & Hm & Hd & Hh & Hn). unfold strftime.
    rewrite Hy, Hm, Hd, Hh, Hn. reflexivity.
Qed.

End DateFormat.

(** ** The further properties on analysis 42 and on the desk *)

Section Instances.
Import Tk App Dates Shape Layout Read More.
Local Open Scope list_scope.

Lemma scenario_text_of_str s : Scenario.docx_text (VStr s) = Ok s.
Proof. reflexivity. Qed.

Lemma scenario_save_ok (path : string) doc :
  Scenario.save_error path doc = None.
Proof. reflexivity. Qed.

(** The collections of analysis 42. *)
Lemma collections_in_query_order_witness :
  fst (fetch_combined_analysis_data None Scenario.execute 42 Scenario.start)
  = Some Scenario.report.
Proof.
  refine (@collections_in_query_order Scenario.execute 42
            [("CombinedAnalysisID", VInt 42); ("AgentID", VInt 7);
             ("NumberOfReportsSuccessfullyAnalyzed", VInt 12);
             ("AnalysisPeriodNote", VStr "Q1 2024");
             ("AgentName", VStr "J. Smith")]
            [] (VStr "J. Smith") (VInt 12) (VStr "Q1 2024")
            [[("StrengthText", VStr "Clear tone")]] []
            [[("CoachingFocusID", VInt 5); ("AreaText", VStr "Hold Procedure")]]
            [[("QualityPointText", VStr "Greeting");
              ("TrendObservation", VStr "Consistent")]]
            [VStr "Clear tone"] []
            [(VInt 5, VStr "Hold Procedure", [VStr "Confirm before hold"])]
            [(VStr "Greeting", VStr "Consistent")]
            eq_refl eq_refl eq_refl eq_refl (conj eq_refl eq_refl)
            (conj eq_refl eq_refl) (conj eq_refl _) (conj eq_refl _)
            Scenario.start).
  - constructor; [| constructor]. split; [reflexivity |].
    split; [reflexivity |]. eexists. split; reflexivity.
  - constructor; [| constructor]. split; reflexivity.
Defined.

(** The six queries of analysis 42. *)
Lemma one_actions_query_per_focus_witness :
  queries (snd (fetch_combined_analysis_data None Scenario.execute 42
                  Scenario.start))
  = [(main_sql, VInt 42); (strengths_sql, VInt 42);
     (development_sql, VInt 42); (focus_sql, VInt 42); (actions_sql, VInt 5);
     (detail_sql, VInt 42)].
Proof.
  refine (proj1
            (@one_actions_query_per_focus Scenario.execute 42
               [("CombinedAnalysisID", VInt 42); ("AgentID", VInt 7);
                ("NumberOfReportsSuccessfullyAnalyzed", VInt 12);
                ("AnalysisPeriodNote", VStr "Q1 2024");
                ("AgentName", VStr "J. Smith")]
               [] (VStr "J. Smith") (VInt 12) (VStr "Q1 2024")
               [[("StrengthText", VStr "Clear tone")]] []
               [[("CoachingFocusID", VInt 5);
                 ("AreaText", VStr "Hold Procedure")]]
               [[("QualityPointText", VStr "Greeting");
                 ("TrendObservation", VStr "Consistent")]]
               [VStr "Clear tone"] []
               [(VInt 5, VStr "Hold Procedure", [VStr "Confirm before hold"])]
               [(VStr "Greeting", VStr "Consistent")]
               eq_refl eq_refl eq_refl eq_refl (conj eq_refl eq_refl)
               (conj eq_refl eq_refl) (conj eq_refl _) (conj eq_refl _)
               Scenario.start)).
  - constructor; [| constructor]. split; [reflexivity |].
    split; [reflexivity |]. eexists. split; reflexivity.
  - constructor; [| constructor]. split; reflexivity.
Defined.

(** The root row of analysis 44 lacks the count. *)
Lemma missing_header_column_witness :
  fetch_combined_analysis_data None Desk.execute_short 44 Scenario.start
  = (None,
     {| queries := [(main_sql, VInt 44)];
        dialogs :=
          [("Database Query Error",
            ("An error occurred while fetching report details:" ++ newline
               ++ "'pyodbc.Row' object has no attribute "
               ++ "'NumberOfReportsSuccessfullyAnalyzed'")%string)];
        files := [] |}).
Proof.
  refine (@missing_header_column None Desk.execute_short 44 Scenario.start
            [("CombinedAnalysisID", VInt 44); ("AgentName", VStr "J. Smith")]
            [] "NumberOfReportsSuccessfullyAnalyzed" eq_refl eq_refl _
            eq_refl).
  discriminate.
Defined.

(** The detail of analysis 42 has the empty recommendation. *)
Lemma assembled_report_needs_no_default_witness :
  Forall (fun d => coaching_recommendation_for_point d = Some "")
    (details Scenario.shaped).
Proof.
  destruct (@assembled_report_needs_no_default Scenario.repr
              Scenario.docx_text Scenario.save_error None Scenario.execute
              scenario_text_of_str "report.docx"
              (scenario_save_ok "report.docx") Scenario.shaped 42
              Scenario.start
              (snd (fetch_combined_analysis_data None Scenario.execute 42
                      Scenario.start))
              eq_refl) as (_ & _ & H & _).
  eapply Forall_impl; [| exact H]. intros d (_ & _ & Hd). exact Hd.
Defined.

(** The document of analysis 42 has no coloured run. *)
Lemma saved_documents_are_plain_witness :
  Forall (fun r => run_color r = None)
    (all_runs (layout Scenario.repr Scenario.shaped)).
Proof.
  exact (proj1
           (@saved_documents_are_plain Scenario.repr Scenario.docx_text
              Scenario.save_error Scenario.report "report.docx" Scenario.start
              (layout Scenario.repr Scenario.shaped) eq_refl)).
Defined.

(** The document of analysis 42 has one table. *)
Lemma table_header_and_rows_witness :
  exists doc,
    generate_docx_from_combined_json Scenario.repr Scenario.docx_text
      Scenario.save_error (encode Scenario.shaped) "report.docx"
      Scenario.start
    = (true, written "report.docx" doc Scenario.start)
    /\ length (table_cells doc) <= 1.
Proof.
  destruct (@table_header_and_rows Scenario.repr Scenario.docx_text
              Scenario.save_error scenario_text_of_str "report.docx"
              (scenario_save_ok "report.docx") Scenario.shaped Scenario.start)
    as (doc & H1 & H2 & _).
  exists doc. split; assumption.
Defined.

(** The document of analysis 42 has one lead-in. *)
Lemma one_lead_in_per_focus_with_actions_witness :
  exists doc,
    generate_docx_from_combined_json Scenario.repr Scenario.docx_text
      Scenario.save_error (encode Scenario.shaped) "report.docx"
      Scenario.start
    = (true, written "report.docx" doc Scenario.start)
    /\ bold_paragraphs doc = ["Actionable Recommendations:"].
Proof.
  exact (@one_lead_in_per_focus_with_actions Scenario.repr Scenario.docx_text
           Scenario.save_error scenario_text_of_str "report.docx"
           (scenario_save_ok "report.docx") Scenario.shaped Scenario.start).
Defined.

(** The hollow report renders as its two opening paragraphs. *)
Lemma falsy_collections_are_skipped_witness :
  generate_docx_from_combined_json Scenario.repr Scenario.docx_text
    Scenario.save_error (VDict Desk.hollow) "report.docx" Scenario.start
  = (true,
     written "report.docx"
       [text_paragraph (Some "Heading 1")
          "Performance Trend Analysis & Coaching Report: J. Smith";
        text_paragraph None "Analysis based on N/A calls. Period: N/A"]
       Scenario.start).
Proof.
  refine (@falsy_collections_are_skipped Scenario.repr Scenario.docx_text
            Scenario.save_error scenario_text_of_str "report.docx"
            (scenario_save_ok "report.docx") Desk.hollow
            [("agent_name", VStr "J. Smith")]
            [("overall_strengths_observed", VNone);
             ("overall_areas_for_development", VInt 0);
             ("consolidated_coaching_focus", VStr "")]
            eq_refl eq_refl Scenario.start _ _).
  - intros key [<- | [<- | [<- | []]]] v H; inversion H; reflexivity.
  - intros v H. inversion H. reflexivity.
Defined.

(** The number 3 in the place of the strengths. *)
Lemma non_iterable_collection_fails_witness :
  generate_docx_from_combined_json Scenario.repr Scenario.docx_text
    Scenario.save_error (VDict (Desk.with_strengths (VInt 3))) "report.docx"
    Scenario.start
  = (false,
     {| queries := [];
        dialogs := [docx_error "'int' object is not iterable"];
        files := [] |}).
Proof.
  exact (@non_iterable_collection_fails Scenario.repr Scenario.docx_text
           Scenario.save_error scenario_text_of_str "report.docx"
           (Desk.with_strengths (VInt 3)) [("agent_name", VStr "J. Smith")]
           [("overall_strengths_observed", VInt 3)] eq_refl eq_refl
           Scenario.start (VInt 3) "'int' object is not iterable" eq_refl
           eq_refl eq_refl).
Defined.

(** The string "ok" in the place of the strengths. *)
Lemma string_collection_is_split_witness :
  exists doc,
    generate_docx_from_combined_json Scenario.repr Scenario.docx_text
      Scenario.save_error (VDict (Desk.with_strengths (VStr "ok")))
      "report.docx" Scenario.start
    = (true, written "report.docx" doc Scenario.start)
    /\ headings 2 doc = ["Key Strengths & Consistent Positive Performance"]
    /\ styled (Some "ListBullet") doc = ["o"; "k"].
Proof.
  refine (@string_collection_is_split Scenario.repr Scenario.docx_text
            Scenario.save_error scenario_text_of_str "report.docx"
            (scenario_save_ok "report.docx") (Desk.with_strengths (VStr "ok"))
            [("agent_name", VStr "J. Smith")]
            [("overall_strengths_observed", VStr "ok")] eq_refl eq_refl
            Scenario.start "ok" _ eq_refl _ _).
  - discriminate.
  - intros key [<- | [<- | []]] v H; inversion H.
  - intros v H. inversion H.
Defined.

(** The connection is lost after the root row of the chosen analysis. *)
Lemma download_after_a_failed_assembly_witness :
  exists new,
    queries (outside (on_download_click Scenario.repr Scenario.docx_text
                        Scenario.save_error None Scenario.execute_lost
                        Desk.asksaveasfilename Desk.chosen))
    = queries (outside Desk.chosen) ++ new.
Proof.
  destruct (@download_after_a_failed_assembly Scenario.repr Scenario.docx_text
              Scenario.save_error None Scenario.execute_lost
              Desk.asksaveasfilename Desk.chosen 0 0 [] [] eq_refl eq_refl 42
              eq_refl) as (new & H & _).
  - discriminate.
  - exists new. exact H.
Defined.

(** The report of the chosen analysis is saved in the folder. *)
Lemma download_of_an_assembled_report_witness :
  offered (on_download_click Scenario.repr Scenario.docx_text
             Scenario.save_error None Scenario.execute
             Desk.asksaveasfilename Desk.chosen)
  = ["QA_Report_J. Smith_2024-03-05.docx"].
Proof.
  exact (proj1
           (@download_of_an_assembled_report Scenario.repr Scenario.docx_text
              Scenario.save_error None Scenario.execute Desk.asksaveasfilename
              Desk.chosen 0 0 [] [] eq_refl eq_refl 42 eq_refl
              ltac:(discriminate) scenario_text_of_str Scenario.shaped
              (snd (fetch_combined_analysis_data None Scenario.execute 42
                      Scenario.start))
              eq_refl)).
Defined.

(** The dates of agent 7. *)
Lemma dates_of_the_selected_agent_witness :
  items (date_listbox (on_agent_select None Desk.execute_analyses strftime
                         Desk.start))
  = ["2024-03-05 02:30 PM"; "2024-01-09 09:05 AM"].
Proof.
  exact (proj1
           (@dates_of_the_selected_agent None Desk.execute_analyses strftime
              Desk.start 0 [] (VInt 7) eq_refl eq_refl eq_refl eq_refl
              [Row (VInt 42) (Some Desk.march);
               Row (VInt 41) (Some Desk.january)]
              [Desk.march; Desk.january] eq_refl eq_refl)).
Defined.

(** The desk stays in step when the second analysis has no date. *)
Lemma dates_shown_have_identifiers_witness :
  in_step (on_agent_select None Desk.execute_undated strftime Desk.start).
Proof.
  apply (@dates_shown_have_identifiers None Desk.execute_undated strftime
           Desk.start).
  constructor.
Defined.

(** The database is down. *)
Lemma no_dates_after_a_failed_query_witness :
  dialogs (outside (on_agent_select None Desk.execute_down strftime
                      Desk.start))
  = [("Error",
      ("Failed to fetch reports for J. Smith:" ++ newline
         ++ "Communication link failure")%string)].
Proof.
  refine (proj2 (proj2 (proj2
            (@no_dates_after_a_failed_query None Desk.execute_down strftime
               Desk.start 0 [] (VInt 7) eq_refl eq_refl eq_refl
               "Communication link failure" _)))).
  right. split; reflexivity.
Defined.

(** The second analysis of agent 7 has no date. *)
Lemma undated_row_stops_the_filling_witness :
  items (date_listbox (on_agent_select None Desk.execute_undated strftime
                         Desk.start))
  = ["2024-03-05 02:30 PM"].
Proof.
  exact (proj1
           (@undated_row_stops_the_filling None Desk.execute_undated strftime
              Desk.start 0 [] (VInt 7) eq_refl eq_refl eq_refl
              [Row (VInt 42) (Some Desk.march)]
              [Row (VInt 41) (Some Desk.january)] (Row (VInt 39) None)
              [Desk.march] eq_refl eq_refl eq_refl eq_refl)).
Defined.

(** The second date of agent 7 leads to analysis 41. *)
Lemma each_date_leads_to_its_analysis_witness :
  dict_get
    (analysis_dates (on_agent_select None Desk.execute_analyses strftime
                       Desk.start))
    "2024-01-09 09:05 AM"
  = Some (VInt 41).
Proof.
  refine (@each_date_leads_to_its_analysis None Desk.execute_analyses strftime
            Desk.start 0 [] (VInt 7) eq_refl eq_refl eq_refl eq_refl
            [Row (VInt 42) (Some Desk.march);
             Row (VInt 41) (Some Desk.january)]
            [Desk.march; Desk.january] eq_refl eq_refl 1
            (Row (VInt 41) (Some Desk.january)) _ eq_refl).
  repeat constructor; simpl; intuition discriminate.
Defined.

(** Two analyses of the same minute: both entries lead to analysis 40. *)
Lemma dates_shown_alike_share_the_last_analysis_witness :
  dict_get
    (analysis_dates (on_agent_select None Desk.execute_same_minute strftime
                       Desk.start))
    "2024-03-05 02:30 PM"
  = Some (VInt 40).
Proof.
  refine (proj1 (proj2
            (@dates_shown_alike_share_the_last_analysis None
               Desk.execute_same_minute strftime Desk.start 0 [] (VInt 7)
               eq_refl eq_refl eq_refl eq_refl
               [Row (VInt 42) (Some Desk.march);
                Row (VInt 40) (Some Desk.march_again)]
               [Desk.march; Desk.march_again] eq_refl eq_refl 0 1
               (Row (VInt 42) (Some Desk.march))
               (Row (VInt 40) (Some Desk.march_again)) _ eq_refl eq_refl
               eq_refl _))).
  - lia.
  - intros k r Hk Hr. destruct k as [| [| [| k]]]; try lia; discriminate.
Defined.

(** Agent 7, the first date, the download. *)
Lemma download_of_the_chosen_date_witness :
  exists more,
    queries
      (outside
         (on_download_click Scenario.repr Scenario.docx_text
            Scenario.save_error None Scenario.execute Desk.asksaveasfilename
            (choose_date 0
               (on_agent_select None Desk.execute_analyses strftime
                  Desk.start))))
    = (analyses_sql, VInt 7) :: (main_sql, VInt 42) :: more.
Proof.
  refine (proj1
            (@download_of_the_chosen_date Scenario.repr Scenario.docx_text
               Scenario.save_error None Scenario.execute
               Desk.asksaveasfilename Desk.execute_analyses strftime
               Desk.start 0 [] (VInt 7) eq_refl eq_refl eq_refl eq_refl
               [Row (VInt 42) (Some Desk.march);
                Row (VInt 41) (Some Desk.january)]
               [Desk.march; Desk.january] eq_refl eq_refl 0 Desk.march
               (Row (VInt 42) (Some Desk.march)) 42 eq_refl eq_refl eq_refl
               _)).
  discriminate.
Defined.

(** The day of the analysis of March. *)
Lemma file_name_carries_the_day_witness :
  before_space (strftime Desk.march) = "2024-03-05".
Proof. exact (@file_name_carries_the_day Desk.march eq_refl). Defined.

(** The two analyses of March are shown alike. *)
Lemma shown_alike_iff_same_minute_witness :
  strftime Desk.march = strftime Desk.march_again.
Proof.
  apply (proj2 (@shown_alike_iff_same_minute Desk.march Desk.march_again
                  eq_refl eq_refl)).
  repeat split.
Defined.

End Instances.
